(** * igor.binarywave: a shallow embedding of the IGOR binary wave reader

    The development follows [src/igor/binarywave.py] (Python 2, numpy):
    the [Field]/[Structure] wrappers around [struct.Struct], the header
    tables from IgorBin.h, and the functions translated from ReadWave.c
    ([need_to_reorder_bytes], [byte_order], [version_structs], [checksum],
    [hex_bytes], [assert_null], [loadibw]).

    Conventions of the embedding.
    - A Python 2 [str]/[buffer] is a [list byte].
    - Python integers are [Z]; fixed-width fields are written with their
      wrap-around spelled out.
    - A Python float is never computed with by the reader; it is carried as
      the IEEE-754 bit pattern that [struct] reads or writes for it, a
      signalling NaN of an ['f'] being quieted as the conversion between
      C float and C double does.
    - A [dict] with string keys is a [gmap string _].
    - An exception is a value of [exn]; fallible code returns [result].
    - The file object, [sys.stderr] and exceptions of [loadibw] are threaded
      by the monad [io]. *)

From Stdlib Require Import ZArith Lia List String Ascii.
From Stdlib Require Import Strings.Byte Sorting.Sorted.
From stdpp Require Import base option list strings gmap.

Local Open Scope Z_scope.

(** ** Bytes and fixed-width integers *)

#[global] Instance byte_EqDecision : EqDecision byte := Byte.byte_eq_dec.

Definition byte_to_Z (b : byte) : Z := Z.of_N (Byte.to_N b).

Definition byte_of_Z (z : Z) : byte :=
  match Byte.of_N (Z.to_N (z mod 256)) with
  | Some b => b
  | None => x00
  end.

(** Little-endian reading and writing of an unsigned integer. *)
Fixpoint le_to_Z (bs : list byte) : Z :=
  match bs with
  | [] => 0
  | b :: r => byte_to_Z b + 256 * le_to_Z r
  end.

Fixpoint Z_to_le (n : nat) (z : Z) : list byte :=
  match n with
  | O => []
  | S k => byte_of_Z z :: Z_to_le k (z / 256)
  end.

(** [sys.byteorder] and the byte-order characters of [struct]/[numpy]. *)
Inductive endian := LittleEndian | BigEndian.

Inductive ByteOrder :=
| Native   (* '=' : native order, standard size, no alignment *)
| Little   (* '<' *)
| Big.     (* '>' *)

#[global] Instance endian_eq_dec : EqDecision endian.
Proof. solve_decision. Defined.

#[global] Instance ByteOrder_eq_dec : EqDecision ByteOrder.
Proof. solve_decision. Defined.

Definition swap_endian (e : endian) : endian :=
  match e with LittleEndian => BigEndian | BigEndian => LittleEndian end.

Definition resolve (sys_byteorder : endian) (bo : ByteOrder) : endian :=
  match bo with
  | Native => sys_byteorder
  | Little => LittleEndian
  | Big => BigEndian
  end.

Definition bytes_to_unsigned (e : endian) (bs : list byte) : Z :=
  match e with
  | LittleEndian => le_to_Z bs
  | BigEndian => le_to_Z (rev bs)
  end.

Definition unsigned_to_bytes (e : endian) (n : nat) (z : Z) : list byte :=
  match e with
  | LittleEndian => Z_to_le n z
  | BigEndian => rev (Z_to_le n z)
  end.

(** Two's complement reading of an unsigned value of [n] bytes. *)
Definition to_signed (n : nat) (u : Z) : Z :=
  if u <? 2 ^ (8 * Z.of_nat n - 1) then u else u - 2 ^ (8 * Z.of_nat n).

Definition bytes_to_signed (e : endian) (bs : list byte) : Z :=
  to_signed (length bs) (bytes_to_unsigned e bs).

(** ** Python values, exceptions *)

Inductive fwidth := Single | Double.

#[global] Instance fwidth_eq_dec : EqDecision fwidth.
Proof. solve_decision. Defined.

#[warnings="-register-all"]
Inductive pyval :=
| PInt (z : Z)                      (* int / long / numpy integer *)
| PFloat (w : fwidth) (bits : Z)    (* float, as the bits struct codes it by *)
| PStr (s : list byte)              (* str *)
| PSeq (l : list pyval).            (* list, tuple or ndarray, by iteration *)

#[global] Instance pyval_eq_dec : EqDecision pyval.
Proof.
  unfold EqDecision, Decision. fix IH 1. intros a b. decide equality.
  - apply Z.eq_dec.
  - apply Z.eq_dec.
  - decide equality.
  - apply (@list_eq_dec _ byte_EqDecision).
  - apply (@list_eq_dec _ IH).
Defined.

Inductive message :=
| MsgVersion (version : Z)
    (* 'This does not appear to be a valid Igor binary wave file. The
       version field = {}.' *)
| MsgChecksum (c : Z)
    (* '... Error in checksum: should be 0, is {}.' *)
| MsgHex (hex_string : string)                   (* assert_null *)
| MsgFieldNotSet (field cls : string)            (* '{} field not set for {}' *)
| MsgChr (x : Z)                                 (* chr() arg not in range(256) *)
| MsgNegativeDimensions                          (* numpy.ndarray *)
| MsgReshape                                     (* ndarray.reshape *)
| MsgArrayItemSize.                              (* array.array('f', s) *)

#[global] Instance message_eq_dec : EqDecision message.
Proof. solve_decision. Defined.

Inductive exn :=
| StructError                  (* struct.error *)
| ValueError (m : message)
| AssertionError (v : pyval)   (* assert cond, v *)
| KeyError (k : string)        (* d[k] on a dict with string keys *)
| KeyErrorInt (k : Z)          (* TYPE_TABLE[k] *)
| TypeError                    (* numpy: buffer is too small for requested array *)
| IndexError.

#[global] Instance exn_eq_dec : EqDecision exn.
Proof. solve_decision. Defined.

Inductive result (A : Type) :=
| Ok (a : A)
| Raise (e : exn).
Arguments Ok {A} a.
Arguments Raise {A} e.

#[global] Instance result_eq_dec {A} `{EqDecision A} : EqDecision (result A).
Proof. solve_decision. Defined.

Definition rbind {A B} (r : result A) (k : A -> result B) : result B :=
  match r with
  | Ok a => k a
  | Raise e => Raise e
  end.

Declare Scope result_scope.
Delimit Scope result_scope with result.
Notation "x <- r ;; k" := (rbind r (fun x => k))
  (at level 100, r at next level, right associativity) : result_scope.

Fixpoint rmapM {A B} (f : A -> result B) (l : list A) : result (list B) :=
  match l with
  | [] => Ok []
  | a :: r => (b <- f a ;; bs <- rmapM f r ;; Ok (b :: bs))%result
  end.

(** [d[k]] on a dict with string keys. *)
Definition getitem {V} (d : gmap string V) (k : string) : result V :=
  match d !! k with
  | Some v => Ok v
  | None => Raise (KeyError k)
  end.

(** [dict(zip(names, values))]: a later binding of a name replaces an
    earlier one. *)
Definition dict_zip {V} (names : list string) (values : list V) : gmap string V :=
  fold_left (fun d kv => <[ kv.1 := kv.2 ]> d) (zip names values) ∅.

(** ** The [struct] module, standard sizes

    Only the format characters a [Field] of this module can sensibly carry
    are modelled.  ['P'] exists in native mode only; in the standard modes
    used here ([=], [<], [>]) it is a bad format character, which is why
    [Structure.set_byte_order] rewrites it to ['L']. *)

Inductive fmt :=
| Fc | Fb | FB | Fh | FH | Fi | FI | Fl | FL | Fq | FQ | Ff | Fd | FP.

#[global] Instance fmt_eq_dec : EqDecision fmt.
Proof. solve_decision. Defined.

Definition fmt_size (f : fmt) : nat :=
  match f with
  | Fc | Fb | FB => 1
  | Fh | FH => 2
  | Fi | FI | Fl | FL | Ff => 4
  | Fq | FQ | Fd => 8
  | FP => 0
  end%nat.

(** A Python float is a C double.  [struct] reads an ['f'] into a C float
    and widens it, and narrows the double again to write it; the
    conversion turns a signalling NaN into the quiet NaN of the same
    payload (bit 22 of the single-precision pattern set), and changes
    nothing else.  A ['d'] is copied bit for bit. *)
Definition quiet32 (bits : Z) : Z :=
  if (Z.land bits 0x7F800000 =? 0x7F800000)
     && negb (Z.land bits 0x007FFFFF =? 0)
  then Z.lor bits 0x00400000
  else bits.

Definition unpack_one (e : endian) (f : fmt) (bs : list byte) : pyval :=
  match f with
  | Fc => PStr bs
  | Fb | Fh | Fi | Fl | Fq => PInt (bytes_to_signed e bs)
  | FB | FH | FI | FL | FQ | FP => PInt (bytes_to_unsigned e bs)
  | Ff => PFloat Single (quiet32 (bytes_to_unsigned e bs))
  | Fd => PFloat Double (bytes_to_unsigned e bs)
  end.

Definition pack_signed (e : endian) (n : nat) (v : pyval) : result (list byte) :=
  match v with
  | PInt z =>
      if (- 2 ^ (8 * Z.of_nat n - 1) <=? z) && (z <? 2 ^ (8 * Z.of_nat n - 1))
      then Ok (unsigned_to_bytes e n (z mod 2 ^ (8 * Z.of_nat n)))
      else Raise StructError
  | _ => Raise StructError
  end.

Definition pack_unsigned (e : endian) (n : nat) (v : pyval) : result (list byte) :=
  match v with
  | PInt z =>
      if (0 <=? z) && (z <? 2 ^ (8 * Z.of_nat n))
      then Ok (unsigned_to_bytes e n z)
      else Raise StructError
  | _ => Raise StructError
  end.

Definition pack_float (e : endian) (w : fwidth) (n : nat) (v : pyval) : result (list byte) :=
  match v with
  | PFloat w' bits =>
      if bool_decide (w = w') && (0 <=? bits) && (bits <? 2 ^ (8 * Z.of_nat n))
      then Ok (unsigned_to_bytes e n
                 (match w with Single => quiet32 bits | Double => bits end))
      else Raise StructError
  | _ => Raise StructError
  end.

Definition pack_one (e : endian) (f : fmt) (v : pyval) : result (list byte) :=
  match f with
  | Fc => match v with
          | PStr [b] => Ok [b]
          | _ => Raise StructError   (* char format require string of length 1 *)
          end
  | Fb | Fh | Fi | Fl | Fq => pack_signed e (fmt_size f) v
  | FB | FH | FI | FL | FQ => pack_unsigned e (fmt_size f) v
  | Ff => pack_float e Single 4 v
  | Fd => pack_float e Double 8 v
  | FP => Raise StructError          (* bad char in struct format *)
  end.

(** [struct.Struct]: the format string, as its byte-order character and
    the list of its format characters. *)
Record Struct := { st_order : ByteOrder; st_codes : list fmt }.

Definition codes_size (codes : list fmt) : nat :=
  foldr (fun f n => (fmt_size f + n)%nat) 0%nat codes.

Definition Struct_size (st : Struct) : nat := codes_size (st_codes st).

Fixpoint unpack_codes (e : endian) (codes : list fmt) (bs : list byte) : list pyval :=
  match codes with
  | [] => []
  | f :: r => unpack_one e f (take (fmt_size f) bs)
              :: unpack_codes e r (drop (fmt_size f) bs)
  end.

Fixpoint pack_codes (e : endian) (codes : list fmt) (args : list pyval)
  : result (list byte) :=
  match codes, args with
  | [], [] => Ok []
  | f :: r, a :: ar =>
      (b <- pack_one e f a ;; bs <- pack_codes e r ar ;; Ok (b ++ bs))%result
  | _, _ => Raise StructError        (* pack requires exactly n arguments *)
  end.

Section Platform.

(** [sys.byteorder] of the machine the reader runs on. *)
Variable sys_byteorder : endian.

Definition Struct_unpack (st : Struct) (s : list byte) : result (list pyval) :=
  if bool_decide (length s = Struct_size st)
  then Ok (unpack_codes (resolve sys_byteorder (st_order st)) (st_codes st) s)
  else Raise StructError.   (* unpack requires a string argument of length n *)

Definition Struct_unpack_from (st : Struct) (buffer : list byte) (offset : nat)
  : result (list pyval) :=
  if Z.of_nat (length buffer) - Z.of_nat offset <? Z.of_nat (Struct_size st)
  then Raise StructError    (* unpack_from requires a buffer of at least n bytes *)
  else Ok (unpack_codes (resolve sys_byteorder (st_order st)) (st_codes st)
             (drop offset buffer)).

Definition Struct_pack (st : Struct) (args : list pyval) : result (list byte) :=
  pack_codes (resolve sys_byteorder (st_order st)) (st_codes st) args.

End Platform.

(** ** numpy helpers used by [Structure] *)

(** [numpy.prod(count)], for [count] an int [n] (written [[n]]) or a tuple. *)
Definition prod (count : list nat) : nat := foldr Nat.mul 1%nat count.

(** [k] consecutive chunks of [n] elements. *)
Fixpoint chunks {A} (n k : nat) (l : list A) : list (list A) :=
  match k with
  | O => []
  | S k' => take n l :: chunks n k' (drop n l)
  end.

(** An element of [numpy.array(l)], read back.  numpy stores strings in a
    fixed-width string array, which gives them back without their trailing
    NUL characters: a NUL character comes back as the empty string.
    Integers and floats come back with their values. *)
Fixpoint rstrip_nul (s : list byte) : list byte :=
  match s with
  | [] => []
  | x :: r =>
      match rstrip_nul r with
      | [] => if bool_decide (x = x00) then [] else [x]
      | r' => x :: r'
      end
  end.

Definition numpy_item (v : pyval) : pyval :=
  match v with
  | PStr s => PStr (rstrip_nul s)
  | _ => v
  end.

(** [a.reshape(shape)] in C order, on the items of [a]: iterating the
    result over its first axis yields the sub-arrays. *)
Fixpoint reshape_rows (shape : list nat) (l : list pyval) : pyval :=
  match shape with
  | [] => PSeq l
  | n :: rest =>
      match rest with
      | [] => PSeq l
      | _ => PSeq (map (reshape_rows rest) (chunks (prod rest) n l))
      end
  end.

(** [numpy.array(l).reshape(shape)] *)
Definition reshape (shape : list nat) (l : list pyval) : result pyval :=
  if bool_decide (length l = prod shape)
  then Ok (reshape_rows shape (map numpy_item l))
  else Raise (ValueError MsgReshape).

(** Iteration over a value, as [list.extend(a)] performs it. *)
Definition iterate (a : pyval) : result (list pyval) :=
  match a with
  | PSeq l => Ok l
  | PStr s => Ok (map (fun b => PStr [b]) s)
  | _ => Raise TypeError
  end.

(** [v == z] for an integer literal [z], on the integer fields the reader
    applies it to. *)
Definition eq_int (v : pyval) (z : Z) : bool :=
  match v with
  | PInt x => x =? z
  | _ => false
  end.

(** ** [class Field] *)

Module Field.

(** The [help] text is documentation only and is not carried. *)
Record t := {
  format : fmt;
  name : string;
  default : option pyval;     (* [None] is Python's [None] *)
  count : list nat;
  total_count : nat
}.

(** [Field.__init__(self, format, name, default=None, help=None, count=1)].
    The constructor stores [None] in [self.default] whatever [default] it
    is given. *)
Definition __init__ (format : fmt) (name : string)
    (default : option pyval) (count : list nat) : t :=
  {| format := format;
     name := name;
     default := None;
     count := count;
     total_count := prod count |}.

End Field.

(** ** [class Structure (struct.Struct)] *)

Module Structure.

Record t := {
  name : string;
  fields : list Field.t;
  format : Struct           (* the inherited [struct.Struct] part *)
}.

Definition size (self : t) : nat := Struct_size (format self).

(** The format characters [set_byte_order] hands to [struct.Struct]:
    each field's character repeated [total_count] times, ['P'] replaced
    by ['L']. *)
Definition replace_P (f : fmt) : fmt :=
  match f with FP => FL | _ => f end.

Definition join_format (fields : list Field.t) : list fmt :=
  map replace_P
    (flat_map (fun f => repeat (Field.format f) (Field.total_count f)) fields).

Definition __init__ (name : string) (fields : list Field.t)
    (byte_order : ByteOrder) : t :=
  {| name := name;
     fields := fields;
     format := {| st_order := byte_order; st_codes := join_format fields |} |}.

Definition set_byte_order (self : t) (byte_order : ByteOrder) : t :=
  if bool_decide (st_order (format self) = byte_order)
  then self                   (* no need to change anything *)
  else {| name := name self;
          fields := fields self;
          format := {| st_order := byte_order;
                       st_codes := join_format (fields self) |} |}.

Fixpoint flatten_loop (args : list pyval) (fields : list Field.t)
  : result (list pyval) :=
  match args, fields with
  | a :: args', f :: fields' =>
      (head <- (if (1 <? Field.total_count f)%nat
                then iterate a          (* flat_args.extend(a) *)
                else Ok [a]) ;;         (* flat_args.append(a) *)
       rest <- flatten_loop args' fields' ;;
       Ok (head ++ rest))%result
  | _, _ => Ok []                       (* zip stops at the shorter *)
  end.

Definition _flatten_args (self : t) (args : list pyval) : result (list pyval) :=
  flatten_loop args (fields self).

Fixpoint unflatten_loop (fields : list Field.t) (args : list pyval) (i : nat)
  : result (list pyval) :=
  match fields with
  | [] => Ok []
  | f :: fields' =>
      (v <- (if (1 <? Field.total_count f)%nat
             then reshape (Field.count f)
                    (take (Field.total_count f) (drop i args))
             else match args !! i with
                  | Some a => Ok a
                  | None => Raise IndexError
                  end) ;;
       rest <- unflatten_loop fields' args (i + Field.total_count f) ;;
       Ok (v :: rest))%result
  end.

Definition _unflatten_args (self : t) (args : list pyval) : result (list pyval) :=
  unflatten_loop (fields self) args 0.

(** [self.__class__.__name__] *)
Definition __class____name__ : string := "Structure".

Fixpoint clean_loop (fields : list Field.t) (dict : gmap string pyval)
  : result (gmap string pyval) :=
  match fields with
  | [] => Ok dict
  | f :: fields' =>
      match dict !! Field.name f with
      | Some _ => clean_loop fields' dict
      | None =>
          match Field.default f with
          | Some d => clean_loop fields' (<[ Field.name f := d ]> dict)
          | None => Raise (ValueError
                             (MsgFieldNotSet (Field.name f) __class____name__))
          end
      end
  end.

Definition _clean_dict (self : t) (dict : gmap string pyval)
  : result (gmap string pyval) :=
  clean_loop (fields self) dict.

Definition names (self : t) : list string := map Field.name (fields self).

Section Platform.

Variable sys_byteorder : endian.

Definition pack (self : t) (args : list pyval) : result (list byte) :=
  (flat <- _flatten_args self args ;;
   Struct_pack sys_byteorder (format self) flat)%result.

Definition pack_dict (self : t) (dict : gmap string pyval) : result (list byte) :=
  (dict <- _clean_dict self dict ;;
   args <- rmapM (fun f => getitem dict (Field.name f)) (fields self) ;;
   pack self args)%result.

Definition unpack (self : t) (s : list byte) : result (list pyval) :=
  (args <- Struct_unpack sys_byteorder (format self) s ;;
   _unflatten_args self args)%result.

Definition unpack_from (self : t) (buffer : list byte) (offset : nat)
  : result (list pyval) :=
  match Struct_unpack_from sys_byteorder (format self) buffer offset with
  | Ok args => _unflatten_args self args
  | Raise e =>
      if negb (bool_decide (name self = "WaveHeader2")
               || bool_decide (name self = "WaveHeader5"))
      then Raise e
      else
        (* missing wData?  Pad with zeros *)
        let buffer :=
          if Z.of_nat (length buffer) - Z.of_nat offset <? Z.of_nat (size self)
          then buffer ++ repeat x00 (size self + offset - length buffer)
          else buffer in
        (args <- Struct_unpack_from sys_byteorder (format self) buffer offset ;;
         unpacked <- _unflatten_args self args ;;
         let data := dict_zip (names self) unpacked in
         npnts <- getitem data "npnts" ;;
         if eq_int npnts 0
         then _unflatten_args self args
         else Raise (AssertionError npnts))%result
  end.

Definition unpack_dict (self : t) (s : list byte) : result (gmap string pyval) :=
  (values <- unpack self s ;;
   Ok (dict_zip (names self) values))%result.

Definition unpack_dict_from (self : t) (buffer : list byte) (offset : nat)
  : result (gmap string pyval) :=
  (values <- unpack_from self buffer offset ;;
   Ok (dict_zip (names self) values))%result.

End Platform.

End Structure.

(** ** IGOR constants and typedefs from IgorBin.h *)

(** numpy element types of [TYPE_TABLE]; [numpy.complex] is Python's
    [complex], i.e. complex128. *)
Inductive dtype :=
| complex128 | float32 | complex64 | float64
| int8 | complexInt8 | int16 | complexInt16 | int32 | complexInt32
| uint8 | complexUInt8 | uint16 | complexUInt16 | uint32 | complexUInt32.

Definition itemsize (t : dtype) : Z :=
  match t with
  | int8 | uint8 => 1
  | complexInt8 | complexUInt8 | int16 | uint16 => 2
  | float32 | complexInt16 | complexUInt16 | int32 | uint32 => 4
  | complex64 | float64 | complexInt32 | complexUInt32 => 8
  | complex128 => 16
  end.

(** From IgorMath.h (key: integer flag, value: numpy dtype). *)
Definition TYPE_TABLE : gmap Z (option dtype) :=
  list_to_map
    [ (0, None);               (* Text wave, not handled in ReadWave.c *)
      (1, Some complex128);    (* NT_CMPLX *)
      (2, Some float32);       (* NT_FP32 *)
      (3, Some complex64);
      (4, Some float64);       (* NT_FP64 *)
      (5, Some complex128);
      (8, Some int8);          (* NT_I8 *)
      (9, Some complexInt8);
      (0x10, Some int16);      (* NT_I16 *)
      (0x11, Some complexInt16);
      (0x20, Some int32);      (* NT_I32 *)
      (0x21, Some complexInt32);
      (0x48, Some uint8);
      (0x49, Some complexUInt8);
      (0x50, Some uint16);
      (0x51, Some complexUInt16);
      (0x60, Some uint32);
      (0x61, Some complexUInt32) ].

(** [numpy.dtype(x)]; [numpy.dtype(None)] is float64. *)
Definition numpy_dtype (x : option dtype) : dtype :=
  match x with Some t => t | None => float64 end.

(** From wave.h *)
Definition MAXDIMS : nat := 4.
Definition MAX_WAVE_NAME2 : nat := 18.
Definition MAX_WAVE_NAME5 : nat := 31.
Definition MAX_UNIT_CHARS : nat := 3.

(** [Field(format, name)], [Field(format, name, default=d)] and their
    [count=] forms. *)
Definition Fld (format : fmt) (name : string) : Field.t :=
  Field.__init__ format name None [1%nat].
Definition FldN (format : fmt) (name : string) (count : list nat) : Field.t :=
  Field.__init__ format name None count.
Definition FldD (format : fmt) (name : string) (default : Z) : Field.t :=
  Field.__init__ format name (Some (PInt default)) [1%nat].
Definition FldDN (format : fmt) (name : string) (default : Z) (count : list nat)
  : Field.t :=
  Field.__init__ format name (Some (PInt default)) count.

(** From binary.h *)
Definition BinHeaderCommon : Structure.t :=
  Structure.__init__ "BinHeaderCommon" [ Fld Fh "version" ] Native.

Definition BinHeader1 : Structure.t :=
  Structure.__init__ "BinHeader1"
    [ Fld Fh "version"; Fld Fl "wfmSize"; Fld Fh "checksum" ] Native.

Definition BinHeader2 : Structure.t :=
  Structure.__init__ "BinHeader2"
    [ Fld Fh "version"; Fld Fl "wfmSize"; Fld Fl "noteSize";
      FldD Fl "pictSize" 0; Fld Fh "checksum" ] Native.

Definition BinHeader3 : Structure.t :=
  Structure.__init__ "BinHeader3"
    [ Fld Fh "version"; Fld Fh "wfmSize"; Fld Fl "noteSize";
      Fld Fl "formulaSize"; FldD Fl "pictSize" 0; Fld Fh "checksum" ] Native.

Definition BinHeader5 : Structure.t :=
  Structure.__init__ "BinHeader5"
    [ Fld Fh "version"; Fld Fh "checksum"; Fld Fl "wfmSize";
      Fld Fl "formulaSize"; Fld Fl "noteSize"; Fld Fl "dataEUnitsSize";
      FldN Fl "dimEUnitsSize" [MAXDIMS]; FldN Fl "dimLabelsSize" [MAXDIMS];
      Fld Fl "sIndicesSize"; FldD Fl "optionsSize1" 0;
      FldD Fl "optionsSize2" 0 ] Native.

(** Header to an array of waveform data. *)
Definition WaveHeader2 : Structure.t :=
  Structure.__init__ "WaveHeader2"
    [ Fld Fh "type"; FldD FP "next" 0;
      FldN Fc "bname" [(MAX_WAVE_NAME2 + 2)%nat];
      FldD Fh "whVersion" 0; FldD Fh "srcFldr" 0; FldD FP "fileName" 0;
      FldDN Fc "dataUnits" 0 [(MAX_UNIT_CHARS + 1)%nat];
      FldDN Fc "xUnits" 0 [(MAX_UNIT_CHARS + 1)%nat];
      Fld Fl "npnts"; FldD Fh "aModified" 0;
      Fld Fd "hsA"; Fld Fd "hsB";
      FldD Fh "wModified" 0; FldD Fh "swModified" 0; Fld Fh "fsValid";
      Fld Fd "topFullScale"; Fld Fd "botFullScale";
      FldD Fc "useBits" 0; FldD Fc "kindBits" 0; FldD FP "formula" 0;
      FldD Fl "depID" 0; Fld FL "creationDate";
      FldDN Fc "wUnused" 0 [2%nat]; Fld FL "modDate"; Fld FP "waveNoteH";
      FldN Ff "wData" [4%nat] ] Native.

Definition WaveHeader5 : Structure.t :=
  Structure.__init__ "WaveHeader5"
    [ Fld FP "next"; Fld FL "creationDate"; Fld FL "modDate";
      Fld Fl "npnts"; Fld Fh "type"; FldD Fh "dLock" 0;
      FldDN Fc "whpad1" 0 [6%nat]; FldD Fh "whVersion" 1;
      FldN Fc "bname" [(MAX_WAVE_NAME5 + 1)%nat];
      FldD Fl "whpad2" 0; FldD FP "dFolder" 0;
      (* Dimensioning info. [0] == rows, [1] == cols etc *)
      FldN Fl "nDim" [MAXDIMS]; FldN Fd "sfA" [MAXDIMS]; FldN Fd "sfB" [MAXDIMS];
      (* SI units *)
      FldDN Fc "dataUnits" 0 [(MAX_UNIT_CHARS + 1)%nat];
      FldDN Fc "dimUnits" 0 [MAXDIMS; (MAX_UNIT_CHARS + 1)%nat];
      Fld Fh "fsValid"; FldD Fh "whpad3" 0;
      Fld Fd "topFullScale"; Fld Fd "botFullScale";
      FldD FP "dataEUnits" 0; FldDN FP "dimEUnits" 0 [MAXDIMS];
      FldDN FP "dimLabels" 0 [MAXDIMS]; FldD FP "waveNoteH" 0;
      FldDN Fl "whUnused" 0 [16%nat];
      (* The following stuff is considered private to Igor. *)
      FldD Fh "aModified" 0; FldD Fh "wModified" 0; FldD Fh "swModified" 0;
      FldD Fc "useBits" 0; FldD Fc "kindBits" 0; FldD FP "formula" 0;
      FldD Fl "depID" 0; FldD Fh "whpad4" 0; FldD Fh "srcFldr" 0;
      FldD FP "fileName" 0; FldD FP "sIndices" 0;
      FldN Ff "wData" [1%nat] ] Native.

(** ** Functions from ReadWave.c *)

Definition need_to_reorder_bytes (version : Z) : bool :=
  Z.land version 0xFF =? 0.

Section ReadWave.

Variable sys_byteorder : endian.

Definition byte_order (needToReorderBytes : bool) : ByteOrder :=
  let little_endian := bool_decide (sys_byteorder = LittleEndian) in
  let little_endian :=
    if needToReorderBytes then negb little_endian else little_endian in
  if little_endian then Little else Big.

(** The module-level structures are shared objects and [set_byte_order]
    mutates them; whatever order an earlier call left in one of them,
    [set_byte_order] leaves it with the requested order and the format of
    its fields (lemma [set_byte_order_history]), so the table constants
    stand for the objects. *)
Definition version_structs (version : Z) (byte_order : ByteOrder)
  : result (Structure.t * Structure.t * Z) :=
  (bw <- (if version =? 1 then Ok (BinHeader1, WaveHeader2)
          else if version =? 2 then Ok (BinHeader2, WaveHeader2)
          else if version =? 3 then Ok (BinHeader3, WaveHeader2)
          else if version =? 5 then Ok (BinHeader5, WaveHeader5)
          else Raise (ValueError (MsgVersion version))) ;;
   let bin := bw.1 in
   let wave := bw.2 in
   let checkSumSize := Z.of_nat (Structure.size bin + Structure.size wave) in
   let checkSumSize :=
     if version =? 5
     then checkSumSize - 4  (* Version 5 checksum does not include the wData field. *)
     else checkSumSize in
   let bin := Structure.set_byte_order bin byte_order in
   let wave := Structure.set_byte_order wave byte_order in
   Ok (bin, wave, checkSumSize))%result.

(** [numpy.ndarray((n,), dtype=numpy.dtype(byte_order+'h'), buffer=buffer)]:
    the first [n] 2-byte windows of the buffer.  Given a buffer,
    [numpy.ndarray] reads the one-dimensional shape [(-1,)] as all the items
    the buffer holds; otherwise it checks the size of the buffer first and
    the sign of the extent when it builds the array. *)
Definition ndarray_int16 (n : Z) (byte_order : ByteOrder) (buffer : list byte)
  : result (list Z) :=
  if n =? -1
  then Ok (map (bytes_to_signed (resolve sys_byteorder byte_order))
             (chunks 2 (length buffer / 2)%nat buffer))
  else if Z.of_nat (length buffer) <? 2 * n then Raise TypeError
  else if n <? 0 then Raise (ValueError MsgNegativeDimensions)
  else Ok (map (bytes_to_signed (resolve sys_byteorder byte_order))
             (chunks 2 (Z.to_nat n) buffer)).

(** [x.sum()]; numpy accumulates int16 in the platform integer, which the
    few hundred terms of a header cannot overflow. *)
Definition sum (x : list Z) : Z := foldr Z.add 0 x.

Definition checksum (buffer : list byte) (byte_order : ByteOrder)
    (oldcksum numbytes : Z) : result Z :=
  (x <- ndarray_int16 (numbytes / 2)  (* 2 bytes to a short -- ignore trailing odd byte *)
         byte_order buffer ;;
   let oldcksum := oldcksum + sum x in
   let oldcksum :=
     if oldcksum >? 2 ^ 31         (* fake the C implementation's int rollover *)
     then let oldcksum := oldcksum mod 2 ^ 32 in
          if oldcksum >? 2 ^ 31 then oldcksum - 2 ^ 31 else oldcksum
     else oldcksum in
   Ok (Z.land oldcksum 0xffff))%result.

End ReadWave.

(** ['{:02x}'.format(ord(x))] *)
Definition hex_digit (d : Z) : string :=
  match d with
  | 0 => "0" | 1 => "1" | 2 => "2" | 3 => "3" | 4 => "4" | 5 => "5"
  | 6 => "6" | 7 => "7" | 8 => "8" | 9 => "9" | 10 => "a" | 11 => "b"
  | 12 => "c" | 13 => "d" | 14 => "e" | _ => "f"
  end%string.

Definition hex_byte (x : byte) : string :=
  (hex_digit (byte_to_Z x / 16) ++ hex_digit (byte_to_Z x mod 16))%string.

(** [sep.join(l)] *)
Fixpoint join (sep : string) (l : list string) : string :=
  match l with
  | [] => ""
  | [s] => s
  | s :: r => (s ++ sep ++ join sep r)%string
  end.

(** [l.insert(i, x)]: an index past the end appends. *)
Definition list_insert_at {A} (i : nat) (x : A) (l : list A) : list A :=
  take i l ++ x :: drop i l.

(** Pretty-printing for binary buffers; [spaces] is [None], or [Some n]
    with [n > 0] ([n = 0] divides by zero and is not modelled). *)
Definition hex_bytes (buffer : list byte) (spaces : option nat) : string :=
  let hex_bytes := map hex_byte buffer in
  match spaces with
  | None => join "" hex_bytes
  | Some 1%nat => join " " hex_bytes
  | Some spaces =>
      join ""
        (fold_left
           (fun hex_bytes i =>
              list_insert_at ((spaces + 1) * (i + 1) - 1) " "%string hex_bytes)
           (seq 0 (length hex_bytes / spaces)) hex_bytes)
  end.

(** ** The file object, [sys.stderr] and exceptions

    [file] is what is left to read of the byte source, [stderr] what has
    been written to [sys.stderr].  An exception keeps the world it was
    raised in. *)

Record world := { file : list byte; stderr : list string }.

Definition io (A : Type) : Type := world -> result A * world.

Definition ret {A} (a : A) : io A := fun w => (Ok a, w).

Definition raise {A} (e : exn) : io A := fun w => (Raise e, w).

Definition lift {A} (r : result A) : io A := fun w => (r, w).

Definition bind {A B} (m : io A) (k : A -> io B) : io B :=
  fun w =>
    match m w with
    | (Ok a, w') => k a w'
    | (Raise e, w') => (Raise e, w')
    end.

Declare Scope io_scope.
Delimit Scope io_scope with io.
Notation "x <- m ;; k" := (bind m (fun x => k))
  (at level 100, m at next level, right associativity) : io_scope.
Notation "m ;;; k" := (bind m (fun _ => k))
  (at level 100, right associativity) : io_scope.

(** [f.read(size)]: a negative size reads until EOF. *)
Definition read_count (size : Z) (rest : list byte) : nat :=
  if size <? 0 then length rest else Z.to_nat size.

Definition read (size : Z) : io (list byte) :=
  fun w =>
    let n := read_count size (file w) in
    (Ok (take n (file w)), {| file := drop n (file w); stderr := stderr w |}).

(** [sys.stderr.write(s)] *)
Definition stderr_write (s : string) : io unit :=
  fun w => (Ok tt, {| file := file w; stderr := stderr w ++ [s] |}).

(** [for x in l: body], threading the loop's variables [acc]. *)
Fixpoint for_each {A S} (l : list A) (body : S -> A -> io S) (acc : S) : io S :=
  match l with
  | [] => ret acc
  | x :: r => (acc <- body acc x ;; for_each r body acc)%io
  end.

(** An integer held in a header field. *)
Definition as_int (v : pyval) : result Z :=
  match v with
  | PInt z => Ok z
  | _ => Raise TypeError
  end.

Definition getint (d : gmap string pyval) (k : string) : result Z :=
  (v <- getitem d k ;; as_int v)%result.

(** ** numpy arrays returned by the reader *)

(** A numeric array is a view of its buffer in Fortran order
    ([order='F']); the elements are not decoded here. *)
Record ndarray := {
  shape : list Z;
  dtype_of : dtype;
  byteorder : ByteOrder;         (* t.newbyteorder(byteOrder) *)
  buffer : list byte
}.

Inductive array :=
| Numeric (a : ndarray)
| Strings (strings : list (list byte)).   (* numpy.array(strings), 1-D *)

Definition array_shape (a : array) : list Z :=
  match a with
  | Numeric a => shape a
  | Strings l => [Z.of_nat (length l)]
  end.

Definition zprod (shape : list Z) : Z := foldr Z.mul 1 shape.

(** [numpy.ndarray(shape=shape, dtype=t.newbyteorder(bo), buffer=b, order='F')].
    Given a buffer, [numpy.ndarray] reads the one-dimensional shape [(-1,)]
    as all the items the buffer holds; for any other shape it checks that
    the buffer is large enough, and refuses a negative extent when it builds
    the array. *)
Definition numpy_ndarray (shape : list Z) (t : dtype) (bo : ByteOrder)
    (b : list byte) : result ndarray :=
  if bool_decide (shape = [-1])
  then Ok {| shape := [Z.of_nat (length b) / itemsize t];
             dtype_of := t; byteorder := bo; buffer := b |}
  else if Z.of_nat (length b) <? zprod shape * itemsize t
  then Raise TypeError          (* buffer is too small for requested array *)
  else if existsb (fun n => n <? 0) shape
  then Raise (ValueError MsgNegativeDimensions)
  else Ok {| shape := shape; dtype_of := t; byteorder := bo; buffer := b |}.

(** The elements of a 1-D int8 array, and [data[start:offset]] on them for
    non-negative bounds. *)
Definition int8_of_byte (x : byte) : Z := to_signed 1 (byte_to_Z x).

Definition int8_elements (a : ndarray) : list Z :=
  match shape a with
  | [n] => map int8_of_byte (take (Z.to_nat n) (buffer a))
  | _ => []
  end.

Definition slice {A} (l : list A) (start stop : Z) : list A :=
  take (Z.to_nat (stop - start)) (drop (Z.to_nat start) l).

(** [chr(x)] *)
Definition chr (x : Z) : result byte :=
  if (0 <=? x) && (x <? 256) then Ok (byte_of_Z x)
  else Raise (ValueError (MsgChr x)).

(** [array.array('f', s)] followed by [buffer(...)]: the same bytes, when
    their number is a multiple of the item size. *)
Definition array_f (s : list byte) : result (list byte) :=
  if Z.of_nat (length s) mod 4 =? 0 then Ok s
  else Raise (ValueError MsgArrayItemSize).

(** [[n for n in v if n > 0] or (0,)] *)
Definition positive_extents (v : pyval) : result (list Z) :=
  (l <- iterate v ;;
   ns <- rmapM as_int l ;;
   match filter (fun n => 0 < n) ns with
   | [] => Ok [0]
   | shape => Ok shape
   end)%result.

(** ** [str] methods *)

Definition is_space (b : byte) : bool :=
  match b with
  | x09 | x0a | x0b | x0c | x0d | x20 => true
  | _ => false
  end.

Fixpoint lstrip (s : list byte) : list byte :=
  match s with
  | [] => []
  | b :: r => if is_space b then lstrip r else s
  end.

(** [s.strip()] *)
Definition strip (s : list byte) : list byte :=
  rev (lstrip (rev (lstrip s))).

(** [s.split(chr(0))] *)
Fixpoint split_nul (s : list byte) : list (list byte) :=
  match s with
  | [] => [[]]
  | b :: r =>
      match b, split_nul r with
      | x00, parts => [] :: parts
      | _, p :: parts => (b :: p) :: parts
      | _, [] => [[b]]
      end
  end.

(** ** [assert_null] and [loadibw] *)

Definition newline : string := String (ascii_of_nat 10) EmptyString.

(** [ord(max(buffer)) != 0], for a non-empty buffer. *)
Definition max_byte (buffer : list byte) : Z :=
  foldr (fun b m => Z.max (byte_to_Z b) m) 0 buffer.

(** Ensure an input buffer is entirely zero. *)
Definition assert_null (buffer : list byte) (strict : bool) : io unit :=
  if negb (bool_decide (buffer = [])) && negb (max_byte buffer =? 0)
  then
    let hex_string := hex_bytes buffer (Some 1%nat) in
    if strict
    then raise (ValueError (MsgHex hex_string))
    else stderr_write
           ("warning: post-data padding not zero: " ++ hex_string ++ newline)
  else ret tt.

(** What [loadibw] holds once the two headers are decoded. *)
Record headers := {
  version : Z;
  byteOrder : ByteOrder;
  bin_struct : Structure.t;
  wave_struct : Structure.t;
  b : list byte;
  bin_info : gmap string pyval;
  wave_info : gmap string pyval
}.

(** What it holds once the header bytes are read. *)
Record preamble := {
  p_version : Z;
  p_byteOrder : ByteOrder;
  p_bin_struct : Structure.t;
  p_wave_struct : Structure.t;
  p_checkSumSize : Z;
  p_b : list byte
}.

Section LoadIbw.

Variable sys_byteorder : endian.

(** [loadibw], from [BinHeaderCommon.set_byte_order('=')] to the reading
    of the header bytes [b]. *)
Definition loadibw_preamble : io preamble :=
  (let BinHeaderCommon := Structure.set_byte_order BinHeaderCommon Native in
   b <- read (Z.of_nat (Structure.size BinHeaderCommon)) ;;
   version <- lift (d <- Structure.unpack_dict_from sys_byteorder
                           BinHeaderCommon b 0 ;;
                    getint d "version")%result ;;
   let needToReorderBytes := need_to_reorder_bytes version in
   let byteOrder := byte_order sys_byteorder needToReorderBytes in
   version <- (if needToReorderBytes
               then
                 let BinHeaderCommon :=
                   Structure.set_byte_order BinHeaderCommon byteOrder in
                 lift (d <- Structure.unpack_dict_from sys_byteorder
                              BinHeaderCommon b 0 ;;
                       getint d "version")%result
               else ret version) ;;
   s <- lift (version_structs version byteOrder) ;;
   let bin_struct := s.1.1 in
   let wave_struct := s.1.2 in
   let checkSumSize := s.2 in
   more <- read (Z.of_nat (Structure.size bin_struct)
                 + Z.of_nat (Structure.size wave_struct)
                 - Z.of_nat (Structure.size BinHeaderCommon)) ;;
   let b := b ++ more in
   ret {| p_version := version; p_byteOrder := byteOrder;
          p_bin_struct := bin_struct; p_wave_struct := wave_struct;
          p_checkSumSize := checkSumSize; p_b := b |})%io.

(** [loadibw], the checksum and the decoding of [bin_info] and
    [wave_info]. *)
Definition loadibw_headers : io headers :=
  (p <- loadibw_preamble ;;
   c <- lift (checksum sys_byteorder (p_b p) (p_byteOrder p) 0
                (p_checkSumSize p)) ;;
   if negb (c =? 0)
   then raise (ValueError (MsgChecksum c))
   else
     bin_info <- lift (Structure.unpack_dict_from sys_byteorder
                         (p_bin_struct p) (p_b p) 0) ;;
     wave_info <- lift (Structure.unpack_dict_from sys_byteorder
                          (p_wave_struct p) (p_b p)
                          (Structure.size (p_bin_struct p))) ;;
     ret {| version := p_version p; byteOrder := p_byteOrder p;
            bin_struct := p_bin_struct p; wave_struct := p_wave_struct p;
            b := p_b p; bin_info := bin_info; wave_info := wave_info |})%io.

(** [loadibw], from [if version in [1,2,3]] to the construction of [data]. *)
Definition loadibw_data (h : headers) : io ndarray :=
  (tw <- lift
     (if bool_decide (version h ∈ [1; 2; 3])
      then
        (wfmSize <- getint (bin_info h) "wfmSize" ;;
         (* 16 = size of wData field in WaveHeader2 structure *)
         Ok (16, wfmSize - Z.of_nat (Structure.size (wave_struct h))))%result
      else if negb (version h =? 5)
      then Raise (AssertionError (PInt (version h)))
      else
        (wfmSize <- getint (bin_info h) "wfmSize" ;;
         (* 4 = size of wData field in WaveHeader5 structure *)
         Ok (4, wfmSize - (Z.of_nat (Structure.size (wave_struct h)) - 4)))%result) ;;
   let tail := tw.1 in
   let waveDataSize := tw.2 in
   shape <- lift
     (if version h =? 5
      then (nDim <- getitem (wave_info h) "nDim" ;; positive_extents nDim)%result
      else (npnts <- getint (wave_info h) "npnts" ;; Ok [npnts])%result) ;;
   type <- lift (getint (wave_info h) "type") ;;
   st <- lift
     (if type =? 0                       (* text wave *)
      then Ok ([waveDataSize], int8)
      else
        match TYPE_TABLE !! type with
        | None => Raise (KeyErrorInt type)
        | Some x =>
            let t := numpy_dtype x in
            (npnts <- getint (wave_info h) "npnts" ;;
             if waveDataSize =? npnts * itemsize t
             then Ok (shape, t)
             else Raise (AssertionError
                           (PSeq [PInt waveDataSize; PInt npnts;
                                  PInt (itemsize t)])))%result
        end) ;;
   let shape := st.1 in
   let t := st.2 in
   npnts <- lift (getint (wave_info h) "npnts") ;;
   data_b <- (if npnts =? 0
              then ret []
              else
                tail_data <- lift (array_f (drop (length (b h) - Z.to_nat tail)
                                              (b h))) ;;
                more <- read (waveDataSize - tail) ;;
                ret (tail_data ++ more)) ;;
   lift (numpy_ndarray shape t (byteOrder h) data_b))%io.

(** [str(f.read(size)).strip()] *)
Definition read_stripped (size : Z) : io pyval :=
  (s <- read size ;; ret (PStr (strip s)))%io.

(** [loadibw], the post-data information of each version. *)
Definition loadibw_post_data (strict : bool) (h : headers)
  : io (gmap string pyval) :=
  (let bin_info := bin_info h in
   if version h =? 1
   then ret bin_info                  (* No post-data information *)
   else if version h =? 2
   then
     pad_b <- read 16 ;;              (* skip the padding *)
     assert_null pad_b strict ;;;
     noteSize <- lift (getint bin_info "noteSize") ;;
     note <- read_stripped noteSize ;;
     ret (<[ "note" := note ]> bin_info)
   else if version h =? 3
   then
     pad_b <- read 16 ;;              (* skip the padding *)
     assert_null pad_b strict ;;;
     noteSize <- lift (getint bin_info "noteSize") ;;
     note <- read_stripped noteSize ;;
     let bin_info := <[ "note" := note ]> bin_info in
     formulaSize <- lift (getint bin_info "formulaSize") ;;
     formula <- read_stripped formulaSize ;;
     ret (<[ "formula" := formula ]> bin_info)
   else if version h =? 5
   then
     formulaSize <- lift (getint bin_info "formulaSize") ;;
     formula <- read_stripped formulaSize ;;
     let bin_info := <[ "formula" := formula ]> bin_info in
     noteSize <- lift (getint bin_info "noteSize") ;;
     note <- read_stripped noteSize ;;
     let bin_info := <[ "note" := note ]> bin_info in
     dataEUnitsSize <- lift (getint bin_info "dataEUnitsSize") ;;
     dataEUnits <- read_stripped dataEUnitsSize ;;
     let bin_info := <[ "dataEUnits" := dataEUnits ]> bin_info in
     sizes <- lift (v <- getitem bin_info "dimEUnitsSize" ;; iterate v)%result ;;
     dimEUnits <- for_each sizes
                    (fun acc size =>
                       size <- lift (as_int size) ;;
                       s <- read_stripped size ;;
                       ret (acc ++ [s])) [] ;;
     let bin_info := <[ "dimEUnits" := PSeq dimEUnits ]> bin_info in
     let bin_info := <[ "dimLabels" := PSeq [] ]> bin_info in
     sizes <- lift (v <- getitem bin_info "dimLabelsSize" ;; iterate v)%result ;;
     dimLabels <- for_each sizes
                    (fun acc size =>
                       size <- lift (as_int size) ;;
                       s <- read size ;;
                       (* split null-delimited strings *)
                       let labels := split_nul s in
                       ret (acc ++ [PSeq (map PStr
                                            (filter (fun L => (0 < length L)%nat)
                                               labels))])) [] ;;
     let bin_info := <[ "dimLabels" := PSeq dimLabels ]> bin_info in
     type <- lift (getint (wave_info h) "type") ;;
     if type =? 0                     (* text wave *)
     then
       sIndicesSize <- lift (getint bin_info "sIndicesSize") ;;
       sIndices <- read sIndicesSize ;;
       ret (<[ "sIndices" := PStr sIndices ]> bin_info)
     else ret bin_info
   else ret bin_info)%io.

(** [ord(c)] *)
Definition ord (c : pyval) : result Z :=
  match c with
  | PStr [x] => Ok (byte_to_Z x)
  | _ => Raise TypeError
  end.

(** The loop that uses sIndices to split data into strings: [data] is the
    int8 payload, [offsets] the [ord] of each character of
    [bin_info['sIndices']]. *)
Fixpoint split_strings (data : list Z) (offsets : list Z) (start : Z)
    (strings : list (list byte)) : result (list (list byte)) :=
  match offsets with
  | [] => Ok strings
  | offset :: offsets' =>
      if offset >? start
      then
        (string <- rmapM chr (slice data start offset) ;;   (* ''.join(chr(x) ...) *)
         split_strings data offsets' offset (strings ++ [string]))%result
      else if offset =? 0
      then split_strings data offsets' start strings
      else Raise (AssertionError (PInt offset))
  end.

(** [loadibw], the text-wave part. *)
Definition loadibw_text (h : headers) (bin_info : gmap string pyval)
    (data : ndarray) : result array :=
  (type <- getint (wave_info h) "type" ;;
   if type =? 0                       (* text wave *)
   then
     sIndices <- getitem bin_info "sIndices" ;;
     chars <- iterate sIndices ;;
     offsets <- rmapM ord chars ;;
     strings <- split_strings (int8_elements data) offsets 0 [] ;;
     let data := Strings strings in
     nDim <- getitem (wave_info h) "nDim" ;;
     shape <- positive_extents nDim ;;
     (* data.reshape(shape): checked, and its value dropped *)
     if zprod shape =? Z.of_nat (length strings)
     then Ok data
     else Raise (ValueError MsgReshape)
   else Ok (Numeric data))%result.

(** Translated from ReadWave().  The stream [f] is the [file] of the world
    the computation runs in; opening it from a file name and closing it
    are left out. *)
Definition loadibw (strict : bool)
  : io (array * gmap string pyval * gmap string pyval) :=
  (h <- loadibw_headers ;;
   data <- loadibw_data h ;;
   bin_info <- loadibw_post_data strict h ;;
   data <- lift (loadibw_text h bin_info data) ;;
   ret (data, bin_info, wave_info h))%io.

End LoadIbw.

(** [loadibw(f, strict)] on a stream holding [contents], with an empty
    [sys.stderr]. *)
Definition run_loadibw (sys_byteorder : endian) (contents : list byte)
    (strict : bool) :=
  loadibw sys_byteorder strict {| file := contents; stderr := [] |}.

(** What a run returned: the shape of the data and an entry of the wave
    header mapping. *)
Definition returned_shape
    (r : result (array * gmap string pyval * gmap string pyval) * world)
  : option (list Z) :=
  match r with
  | (Ok (data, _, _), _) => Some (array_shape data)
  | (Raise _, _) => None
  end.

Definition returned_wave_info
    (r : result (array * gmap string pyval * gmap string pyval) * world)
    (k : string) : option pyval :=
  match r with
  | (Ok (_, _, wave_info), _) => wave_info !! k
  | (Raise _, _) => None
  end.

Definition returned_data
    (r : result (array * gmap string pyval * gmap string pyval) * world)
  : option array :=
  match r with
  | (Ok (data, _, _), _) => Some data
  | (Raise _, _) => None
  end.

(** ** Sample files

    Little-endian files written field by field: [le n z] is the [n]-byte
    little-endian two's complement of [z], [zeros n] is [n] zero bytes. *)

Definition le (n : nat) (z : Z) : list byte := Z_to_le n z.
Definition zeros (n : nat) : list byte := repeat x00 n.

(** A version-5 file of four int8 points whose extents are (2, 0, 2, 0). *)
Definition v5_int8_2_0_2_0 : list byte :=
  (* BinHeader5, 64 bytes *)
  le 2 5              (* version *)
  ++ le 2 (-345)      (* checksum *)
  ++ le 4 324         (* wfmSize = 320 + 4 bytes of data *)
  ++ zeros 56         (* formulaSize .. optionsSize2 *)
  (* WaveHeader5, 324 bytes *)
  ++ zeros 12         (* next, creationDate, modDate *)
  ++ le 4 4           (* npnts *)
  ++ le 2 8           (* type = NT_I8 *)
  ++ zeros 50         (* dLock .. dFolder *)
  ++ le 4 2 ++ le 4 0 ++ le 4 2 ++ le 4 0   (* nDim *)
  ++ zeros 236        (* sfA .. sIndices *)
  ++ [x01; x02; x03; x04].                   (* wData: the four points *)

(** The structure of the [Structure] docstring,
    [Structure(name='thing', fields=[Field('h', 'version'),
    Field('l', 'size', count=(3,2))])], set to big-endian, and the buffer
    [array.array('b', range(2+4*3*2))]. *)
Definition thing : Structure.t :=
  Structure.set_byte_order
    (Structure.__init__ "thing"
       [ Fld Fh "version"; FldN Fl "size" [3%nat; 2%nat] ] Native)
    Big.

Definition thing_bytes : list byte :=
  map (fun i => byte_of_Z (Z.of_nat i)) (seq 0 (2 + 4 * 3 * 2)).

Definition thing_values : list pyval :=
  [ PInt 1;
    PSeq [ PSeq [PInt 33752069; PInt 101124105];
           PSeq [PInt 168496141; PInt 235868177];
           PSeq [PInt 303240213; PInt 370612249] ] ].

(** A [BinHeader2] mapping that leaves out [pictSize], the one field of
    that record declared with [default=0]. *)
Definition bin2_without_pictSize : gmap string pyval :=
  <[ "version" := PInt 2 ]>
    (<[ "wfmSize" := PInt 142 ]>
       (<[ "noteSize" := PInt 0 ]>
          (<[ "checksum" := PInt 0 ]> ∅))).

(** ** The checksum in the words of the specification

    Every 2-byte window read as a signed 16-bit integer in the resolved
    order; the sum wrapped at 2^32, then, if still above 2^31, lowered by
    2^31; the low 16 bits of that. *)

Definition int16_of (e : endian) (b0 b1 : byte) : Z :=
  let u := match e with
           | LittleEndian => byte_to_Z b0 + 256 * byte_to_Z b1
           | BigEndian => 256 * byte_to_Z b0 + byte_to_Z b1
           end in
  if u <? 2 ^ 15 then u else u - 2 ^ 16.

Fixpoint windows16 (e : endian) (n : nat) (buffer : list byte) : list Z :=
  match n, buffer with
  | S k, b0 :: b1 :: r => int16_of e b0 b1 :: windows16 e k r
  | _, _ => []
  end.

Definition rollover32 (s : Z) : Z :=
  let s := s mod 2 ^ 32 in
  if s >? 2 ^ 31 then s - 2 ^ 31 else s.

Definition checksum_spec (e : endian) (buffer : list byte)
    (oldcksum numbytes : Z) : Z :=
  Z.land
    (rollover32 (oldcksum + sum (windows16 e (Z.to_nat (numbytes / 2)) buffer)))
    0xffff.

(** A version-1 file of 134 bytes that are zero but for the version: its
    16-bit words sum to 1. *)
Definition v1_checksum_1 : list byte := le 2 1 ++ zeros 132.

(** ** The text-wave splitter in the words of the specification

    Each index greater than the running start closes the run
    [[start, index)] of the payload; any other index closes nothing. *)
Fixpoint runs (payload : list byte) (table : list Z) (start : Z)
  : list (list byte) :=
  match table with
  | [] => []
  | index :: table' =>
      if index >? start
      then slice payload start index :: runs payload table' index
      else runs payload table' start
  end.

(** Successive entries of an index table that never repeats a non-zero
    offset: strictly increasing, or both zero. *)
Definition advances (a b : Z) : Prop := a < b \/ (a = 0 /\ b = 0).

Definition abcde : list byte := list_byte_of_string "abcde".

(** ** Well-formed records and the values they decode to *)

(** The format characters of one field, as [set_byte_order] lays them out. *)
Definition field_codes (f : Field.t) : list fmt :=
  repeat (Structure.replace_P (Field.format f)) (Field.total_count f).

Definition int_format (c : fmt) : bool :=
  match c with
  | Fb | FB | Fh | FH | Fi | FI | Fl | FL | Fq | FQ | FP => true
  | Fc | Ff | Fd => false
  end.

(** A field as the constructor builds it, of at least one element. *)
Definition wf_field (f : Field.t) : bool :=
  (Field.total_count f =? prod (Field.count f))%nat
  && (0 <? Field.total_count f)%nat.

(** A structure whose inherited format is that of its fields, which are
    well formed and have distinct names. *)
Definition wf_structure (self : Structure.t) : Prop :=
  st_codes (Structure.format self) = Structure.join_format (Structure.fields self)
  /\ forallb wf_field (Structure.fields self) = true
  /\ NoDup (Structure.names self).

(** What an integer field decodes to: an integer when it is a scalar, the
    array of its integers when it is repeated along one dimension. *)
Definition field_value (f : Field.t) (v : pyval) : Prop :=
  int_format (Field.format f) = true ->
  if (1 <? Field.total_count f)%nat
  then forall n, Field.count f = [n] ->
                 exists zs, v = PSeq (map PInt zs) /\ length zs = n
  else exists z, v = PInt z.

(** ** Shapes in the words of the specification

    The leading run of positive extents: the first extent that is not
    positive ends the list. *)
Fixpoint leading_positive (extents : list Z) : list Z :=
  match extents with
  | [] => []
  | n :: extents' => if 0 <? n then n :: leading_positive extents' else []
  end.

(** [shape or (0,)] *)
Definition or_0 (shape : list Z) : list Z :=
  match shape with
  | [] => [0]
  | _ => shape
  end.

(** A version-5 text wave: payload "abcde" (its first four bytes sit in
    [wData]), extents (3, 1, 0, 0), string indices 0, 1, 3, 5. *)
Definition v5_text_abcde : list byte :=
  (* BinHeader5, 64 bytes *)
  le 2 5              (* version *)
  ++ le 2 (-341)      (* checksum *)
  ++ le 4 325         (* wfmSize = 320 + 5 bytes of data *)
  ++ zeros 44         (* formulaSize .. dimLabelsSize *)
  ++ le 4 4           (* sIndicesSize *)
  ++ zeros 8          (* optionsSize1, optionsSize2 *)
  (* WaveHeader5, 324 bytes *)
  ++ zeros 12         (* next, creationDate, modDate *)
  ++ le 4 3           (* npnts *)
  ++ le 2 0           (* type = text *)
  ++ zeros 50         (* dLock .. dFolder *)
  ++ le 4 3 ++ le 4 1 ++ le 4 0 ++ le 4 0   (* nDim *)
  ++ zeros 236        (* sfA .. sIndices *)
  ++ list_byte_of_string "abcd"             (* wData *)
  (* the rest of the payload, then the string indices *)
  ++ list_byte_of_string "e"
  ++ [x00; x01; x03; x05].

(** A version-2 file whose wave type is 0 (text) and that holds no point,
    followed by the 16 bytes [pad] of padding and an empty note. *)
Definition v2_text (pad : list byte) : list byte :=
  (* BinHeader2, 16 bytes *)
  le 2 2              (* version *)
  ++ le 4 126         (* wfmSize: the wave header alone *)
  ++ le 4 0           (* noteSize *)
  ++ le 4 0           (* pictSize *)
  ++ le 2 (-128)      (* checksum *)
  (* WaveHeader2, 126 bytes: type = 0, npnts = 0 *)
  ++ zeros 126
  ++ pad.

(** A version-2 file of sixteen int8 points, all zero (they fill [wData]),
    followed by the 16 bytes [pad] of padding and the note " hi ". *)
Definition v2_int8 (pad : list byte) : list byte :=
  (* BinHeader2, 16 bytes *)
  le 2 2              (* version *)
  ++ le 4 142         (* wfmSize = 126 + 16 bytes of data *)
  ++ le 4 4           (* noteSize *)
  ++ le 4 0           (* pictSize *)
  ++ le 2 (-172)      (* checksum *)
  (* WaveHeader2, 126 bytes *)
  ++ le 2 8           (* type = NT_I8 *)
  ++ zeros 40         (* next .. xUnits *)
  ++ le 4 16          (* npnts *)
  ++ zeros 64         (* aModified .. waveNoteH *)
  ++ zeros 16         (* wData *)
  ++ pad
  ++ list_byte_of_string " hi ".

Definition pad_01 : list byte := x01 :: zeros 15.

(** A float that [struct] reads back as it wrote it: written with ['f'] it
    is not a signalling NaN, which the conversion to a C float quiets. *)
Definition exact_float (v : pyval) : Prop :=
  match v with
  | PFloat Single bits => quiet32 bits = bits
  | _ => True
  end.


(** A field whose bytes [pack] writes back whatever they are: not an ['f']
    field, whose signalling NaNs are quieted, and not a repeated ['c']
    field, whose NUL characters numpy gives back as empty strings. *)
Definition exact_field (f : Field.t) : Prop :=
  Field.format f <> Ff
  /\ (Field.format f = Fc -> (Field.total_count f <= 1)%nat).

(** A field whose [count] is an int or a 1-tuple. *)
Definition one_dimensional (f : Field.t) : Prop :=
  exists n, Field.count f = [n].

(** ** What a computation may do to the stream and to [sys.stderr] *)

(** [m] takes every world to one related to it by [R], whether it returns
    or raises. *)
Definition keeps (R : world -> world -> Prop) {A} (m : io A) : Prop :=
  forall w, R w (m w).2.

(** Reading only: the stream moves forward and nothing is written. *)
Definition reads_only (w w' : world) : Prop :=
  file w' `suffix_of` file w /\ stderr w' = stderr w.

(** The line [assert_null] writes for the padding [pad_b]. *)
Definition padding_warning (pad_b : list byte) : string :=
  ("warning: post-data padding not zero: "
   ++ hex_bytes pad_b (Some 1%nat) ++ newline)%string.

(** Reading, and at most one warning about the padding. *)
Definition reads_and_warns_once (w w' : world) : Prop :=
  file w' `suffix_of` file w
  /\ (stderr w' = stderr w
      \/ exists pad_b, stderr w' = stderr w ++ [padding_warning pad_b]).

(** ** The version and byte order of a stream

    What [loadibw] computes from the first two bytes [b0], [b1] of the
    stream: the version field in native order, whether to reorder, the
    byte order, and the version field read again when reordering. *)
Definition resolved_version (sys_byteorder : endian) (b0 b1 : byte)
  : Z * ByteOrder :=
  let version := bytes_to_signed sys_byteorder [b0; b1] in
  let needToReorderBytes := need_to_reorder_bytes version in
  let byteOrder := byte_order sys_byteorder needToReorderBytes in
  let version :=
    if needToReorderBytes
    then bytes_to_signed (resolve sys_byteorder byteOrder) [b0; b1]
    else version in
  (version, byteOrder).

(** ** More sample files *)

(** A version-2 file of four int8 points 1, 2, 3, 4: they sit in [wData],
    whose other twelve bytes are zero.  [after] is what follows the
    headers in the file. *)
Definition v2_int8_4 (after : list byte) : list byte :=
  (* BinHeader2, 16 bytes *)
  le 2 2              (* version *)
  ++ le 4 130         (* wfmSize = 126 + 4 bytes of data *)
  ++ le 4 4           (* noteSize *)
  ++ le 4 0           (* pictSize *)
  ++ le 2 (-1688)     (* checksum *)
  (* WaveHeader2, 126 bytes *)
  ++ le 2 8           (* type = NT_I8 *)
  ++ zeros 40         (* next .. xUnits *)
  ++ le 4 4           (* npnts *)
  ++ zeros 64         (* aModified .. waveNoteH *)
  ++ [x01; x02; x03; x04] ++ zeros 12   (* wData *)
  ++ after.

(** ** The entries [loadibw] adds to [bin_info] after the data, by version *)
Definition post_data_keys (version : Z) : list string :=
  if version =? 2 then ["note"]
  else if version =? 3 then ["note"; "formula"]
  else if version =? 5
  then ["formula"; "note"; "dataEUnits"; "dimEUnits"; "dimLabels"; "sIndices"]
  else [].

(** The version-5 file [v5_int8_2_0_2_0] with a dependency formula "ab"
    and a note " hi " after the data. *)
Definition v5_int8_formula_note : list byte :=
  (* BinHeader5, 64 bytes *)
  le 2 5              (* version *)
  ++ le 2 (-351)      (* checksum *)
  ++ le 4 324         (* wfmSize *)
  ++ le 4 2           (* formulaSize *)
  ++ le 4 4           (* noteSize *)
  ++ zeros 48         (* dataEUnitsSize .. optionsSize2 *)
  (* WaveHeader5 and the data *)
  ++ drop 64 v5_int8_2_0_2_0
  (* formula, note *)
  ++ list_byte_of_string "ab hi ".

(** A version-1 file of an int8 wave whose [npnts] is -1, followed in the
    file by [after]. *)
Definition v1_int8_all (after : list byte) : list byte :=
  (* BinHeader1, 8 bytes *)
  le 2 1              (* version *)
  ++ le 4 125         (* wfmSize = 126 - 1 *)
  ++ le 2 (-132)      (* checksum *)
  (* WaveHeader2, 126 bytes *)
  ++ le 2 8           (* type = NT_I8 *)
  ++ zeros 40         (* next .. xUnits *)
  ++ le 4 (-1)        (* npnts *)
  ++ zeros 64         (* aModified .. waveNoteH *)
  ++ zeros 16         (* wData *)
  ++ after.
(** * Properties *)

(** The doctests of [hex_bytes]. *)
Example hex_bytes_doc1 :
  hex_bytes [x00; x01; x02; x03; x04] None = "0001020304"%string.
Proof. reflexivity. Qed.

Example hex_bytes_doc2 :
  hex_bytes [x00; x01; x02; x03; x04; x05; x06] (Some 2%nat)
  = "0001 0203 0405 06"%string.
Proof. reflexivity. Qed.

Example hex_bytes_doc3 :
  hex_bytes [x00; x01; x02; x03; x04; x05; x06] (Some 3%nat)
  = "000102 030405 06"%string.
Proof. reflexivity. Qed.

(** ** Endianness resolver and version registry *)

(** The byte-order character of an endianness. *)
Lemma byte_order_cases (sys : endian) (reorder : bool) :
  byte_order sys reorder
  = match (if reorder then swap_endian sys else sys) with
    | LittleEndian => Little
    | BigEndian => Big
    end.
Proof. by destruct sys, reorder. Qed.

(** C2: [need_to_reorder_bytes version] is true exactly when
    [version & 0xFF == 0], and [byte_order] answers with the order opposite
    to the machine's exactly when it is given that flag (the machine's own
    order otherwise); the answer is always one of ['<'] and ['>']. *)
Theorem C2_reorder_iff_low_byte_zero (sys : endian) (version : Z) :
  need_to_reorder_bytes version = bool_decide (Z.land version 0xFF = 0)
  /\ resolve sys (byte_order sys (need_to_reorder_bytes version))
     = (if need_to_reorder_bytes version then swap_endian sys else sys)
  /\ byte_order sys (need_to_reorder_bytes version) <> Native.
Proof.
  split; [|split].
  - unfold need_to_reorder_bytes.
    destruct (Z.eqb_spec (Z.land version 255) 0) as [E|E].
    + by rewrite bool_decide_eq_true_2.
    + by rewrite bool_decide_eq_false_2.
  - rewrite byte_order_cases.
    by destruct (need_to_reorder_bytes version), sys.
  - rewrite byte_order_cases.
    by destruct (need_to_reorder_bytes version), sys.
Qed.

(** Whatever order a structure was left in, [set_byte_order] leaves it with
    the requested order and the format of its fields. *)
Lemma set_byte_order_history (self : Structure.t) (a bo : ByteOrder) :
  st_codes (Structure.format self) = Structure.join_format (Structure.fields self) ->
  Structure.set_byte_order (Structure.set_byte_order self a) bo
  = Structure.set_byte_order self bo.
Proof.
  intros Hc. unfold Structure.set_byte_order.
  destruct self as [n fs [o cs]]; simpl in *; subst cs.
  repeat (case_bool_decide; simpl in * ); congruence.
Qed.

Lemma set_byte_order_size (self : Structure.t) (bo : ByteOrder) :
  st_codes (Structure.format self) = Structure.join_format (Structure.fields self) ->
  Structure.size (Structure.set_byte_order self bo) = Structure.size self.
Proof.
  intros Hc. unfold Structure.set_byte_order, Structure.size, Struct_size.
  case_bool_decide; simpl; by rewrite ?Hc.
Qed.

(** C3: the version lookup maps 1, 2, 3 and 5 to their header pair, set to
    the requested byte order, with a checksum window of the two record
    sizes, less 4 bytes for version 5 only; every other version raises the
    error that carries the version it was given. *)
Theorem C3_version_structs_table (version : Z) (bo : ByteOrder) :
  version_structs 1 bo
  = Ok (Structure.set_byte_order BinHeader1 bo,
        Structure.set_byte_order WaveHeader2 bo,
        Z.of_nat (Structure.size BinHeader1 + Structure.size WaveHeader2))
  /\ version_structs 2 bo
     = Ok (Structure.set_byte_order BinHeader2 bo,
           Structure.set_byte_order WaveHeader2 bo,
           Z.of_nat (Structure.size BinHeader2 + Structure.size WaveHeader2))
  /\ version_structs 3 bo
     = Ok (Structure.set_byte_order BinHeader3 bo,
           Structure.set_byte_order WaveHeader2 bo,
           Z.of_nat (Structure.size BinHeader3 + Structure.size WaveHeader2))
  /\ version_structs 5 bo
     = Ok (Structure.set_byte_order BinHeader5 bo,
           Structure.set_byte_order WaveHeader5 bo,
           Z.of_nat (Structure.size BinHeader5 + Structure.size WaveHeader5) - 4)
  /\ (version ∉ [1; 2; 3; 5] ->
      version_structs version bo = Raise (ValueError (MsgVersion version))).
Proof.
  repeat split; try reflexivity.
  intros Hv. unfold version_structs.
  repeat match goal with
         | |- context [?v =? ?k] =>
             destruct (Z.eqb_spec v k); [subst; exfalso; apply Hv; set_solver|]
         end.
  reflexivity.
Qed.

Lemma C3_version_structs_table_witness :
  (4 ∉ [1; 2; 3; 5])
  /\ version_structs 4 Little = Raise (ValueError (MsgVersion 4)).
Proof.
  assert (H : (4:Z) ∉ [1; 2; 3; 5]).
  { rewrite !not_elem_of_cons. repeat split; try discriminate.
    apply not_elem_of_nil. }
  split; [exact H|].
  exact (proj2 (proj2 (proj2 (proj2 (C3_version_structs_table 4 Little)))) H).
Defined.

(** The windows in bytes: 134, 142, 144 and 384. *)
Lemma checksum_windows (bo : ByteOrder) :
  (fun r => match r with Ok (_, _, n) => Some n | Raise _ => None end)
    <$> [version_structs 1 bo; version_structs 2 bo;
         version_structs 3 bo; version_structs 5 bo]
  = [Some 134; Some 142; Some 144; Some 384].
Proof. reflexivity. Qed.

(** ** Record descriptor engine: defaults and multi-dimensional fields *)

(** The constructor drops the default it is given. *)
Lemma Field_default_None (format : fmt) (name : string)
    (default : option pyval) (count : list nat) :
  Field.default (Field.__init__ format name default count) = None.
Proof. reflexivity. Qed.

(** With no default ever stored, [_clean_dict] raises at the first field
    that is absent from the mapping. *)
Lemma clean_dict_absent (fields : list Field.t) (dict : gmap string pyval)
    (f : Field.t) :
  Forall (fun g => Field.default g = None) fields ->
  f ∈ fields -> dict !! Field.name f = None ->
  exists g, g ∈ fields /\ dict !! Field.name g = None
    /\ Structure.clean_loop fields dict
       = Raise (ValueError (MsgFieldNotSet (Field.name g)
                              Structure.__class____name__)).
Proof.
  induction 1 as [|g fields Hg Hall IH]; intros Hin Hf.
  - by apply elem_of_nil in Hin.
  - simpl. destruct (dict !! Field.name g) eqn:Eg.
    + apply elem_of_cons in Hin as [->|Hin]; [congruence|].
      destruct (IH Hin Hf) as (g' & ? & ? & ?).
      exists g'. split; [by apply list_elem_of_further|done].
    + exists g. rewrite Hg. split; [by apply list_elem_of_here|done].
Qed.

(** C9 (the code departs from the specification): [BinHeader2] declares
    [pictSize] with [default=0], yet packing a mapping that leaves
    [pictSize] out raises the missing-field error instead of writing the
    default; the error names the class [Structure], not the record. *)
Theorem C9_declared_default_not_used (sys : endian) :
  Structure.pack_dict sys BinHeader2 bin2_without_pictSize
  = Raise (ValueError (MsgFieldNotSet "pictSize" "Structure")).
Proof. by destruct sys; vm_compute. Qed.

(** The docstring example: unpacking the 26 bytes yields the version and
    the (3, 2) array. *)
Lemma thing_unpack (sys : endian) :
  Structure.unpack sys thing thing_bytes = Ok thing_values.
Proof. by destruct sys; vm_compute. Qed.

(** C6 (the code departs from the specification): for the record of the
    docstring, whose field [size] has the shape (3, 2), the values that
    [unpack] produces cannot be packed again: [_flatten_args] extends the
    argument list with the three rows, not with the six integers, and
    [struct.Struct.pack] raises. *)
Theorem C6_pack_of_unpacked_shape_3_2_raises (sys : endian) :
  Structure.unpack sys thing thing_bytes = Ok thing_values
  /\ Structure.pack sys thing thing_values = Raise StructError.
Proof. by destruct sys; vm_compute. Qed.

(** ** Checksum validator *)

Lemma byte_to_Z_range (b : byte) : 0 <= byte_to_Z b < 256.
Proof.
  unfold byte_to_Z. pose proof (Byte.to_N_bounded b) as H.
  lia.
Qed.

Lemma bytes_to_signed_pair (e : endian) (b0 b1 : byte) :
  bytes_to_signed e [b0; b1] = int16_of e b0 b1.
Proof.
  unfold bytes_to_signed, to_signed, int16_of, bytes_to_unsigned.
  destruct e; simpl; rewrite ?Z.mul_0_r, ?Z.add_0_r;
    replace (byte_to_Z b1 + 256 * byte_to_Z b0)
      with (256 * byte_to_Z b0 + byte_to_Z b1) by lia; reflexivity.
Qed.

Lemma windows_of_chunks (e : endian) (n : nat) (buffer : list byte) :
  (2 * n <= length buffer)%nat ->
  map (bytes_to_signed e) (chunks 2 n buffer) = windows16 e n buffer.
Proof.
  revert buffer. induction n as [|n IH]; intros buffer Hlen; [done|].
  destruct buffer as [|b0 [|b1 r]]; simpl in Hlen; try lia.
  simpl. rewrite bytes_to_signed_pair. f_equal.
  rewrite drop_0. apply IH. lia.
Qed.

Lemma windows16_length (e : endian) (n : nat) (buffer : list byte) :
  (2 * n <= length buffer)%nat -> length (windows16 e n buffer) = n.
Proof.
  revert buffer. induction n as [|n IH]; intros buffer Hlen; [done|].
  destruct buffer as [|b0 [|b1 r]]; simpl in Hlen; try lia.
  simpl. f_equal. apply IH. lia.
Qed.

(** The windows do not look past the first [2 * n] bytes. *)
Lemma windows16_take (e : endian) (n : nat) (buffer : list byte) :
  windows16 e n (take (2 * n) buffer) = windows16 e n buffer.
Proof.
  revert buffer. induction n as [|n IH]; intros buffer; [by destruct buffer|].
  replace (2 * S n)%nat with (S (S (2 * n))) by lia.
  destruct buffer as [|b0 [|b1 r]]; simpl; try done.
  f_equal. apply IH.
Qed.

(** The rollover of the code and that of the specification leave the same
    low 16 bits, which are those of the plain sum. *)
Lemma land_rollover (s : Z) :
  Z.land (if s >? 2 ^ 31
          then (if s mod 2 ^ 32 >? 2 ^ 31
                then s mod 2 ^ 32 - 2 ^ 31 else s mod 2 ^ 32)
          else s) 0xffff
  = s mod 2 ^ 16
  /\ Z.land (rollover32 s) 0xffff = s mod 2 ^ 16.
Proof.
  assert (Hland : forall x, Z.land x 0xffff = x mod 2 ^ 16).
  { intros x. change 0xffff with (Z.ones 16). by rewrite Z.land_ones. }
  assert (H32 : (s mod 2 ^ 32) mod 2 ^ 16 = s mod 2 ^ 16).
  { apply Z.mod_mod_divide. exists (2 ^ 16). reflexivity. }
  assert (H31 : (s mod 2 ^ 32 - 2 ^ 31) mod 2 ^ 16 = s mod 2 ^ 16).
  { rewrite <- H32.
    replace (s mod 2 ^ 32 - 2 ^ 31)
      with (s mod 2 ^ 32 + (- 2 ^ 15) * 2 ^ 16) by lia.
    apply Z.mod_add. lia. }
  unfold rollover32. rewrite !Hland.
  split; repeat (destruct (_ >? _)); congruence.
Qed.

Lemma checksum_eq_spec (sys : endian) (buffer : list byte) (bo : ByteOrder)
    (oldcksum numbytes : Z) :
  0 <= numbytes ->
  2 * (numbytes / 2) <= Z.of_nat (length buffer) ->
  checksum sys buffer bo oldcksum numbytes
  = Ok (checksum_spec (resolve sys bo) buffer oldcksum numbytes).
Proof.
  intros H0 Hlen. unfold checksum, ndarray_int16, checksum_spec.
  assert (0 <= numbytes / 2) by (apply Z.div_pos; lia).
  destruct (Z.eqb_spec (numbytes / 2) (-1)); [lia|].
  destruct (Z.ltb_spec (Z.of_nat (length buffer)) (2 * (numbytes / 2))); [lia|].
  destruct (Z.ltb_spec (numbytes / 2) 0); [lia|].
  simpl. rewrite windows_of_chunks by lia.
  f_equal.
  destruct (land_rollover
              (oldcksum
               + sum (windows16 (resolve sys bo) (Z.to_nat (numbytes / 2)) buffer)))
    as [-> ->].
  reflexivity.
Qed.

(** The rollover never shows in the result: the checksum is the sum
    modulo 2^16. *)
Lemma checksum_mod_2_16 (sys : endian) (buffer : list byte) (bo : ByteOrder)
    (oldcksum numbytes : Z) :
  0 <= numbytes ->
  2 * (numbytes / 2) <= Z.of_nat (length buffer) ->
  checksum sys buffer bo oldcksum numbytes
  = Ok ((oldcksum
         + sum (windows16 (resolve sys bo) (Z.to_nat (numbytes / 2)) buffer))
        mod 2 ^ 16).
Proof.
  intros H0 Hlen. rewrite checksum_eq_spec by done.
  unfold checksum_spec. by rewrite (proj2 (land_rollover _)).
Qed.

(** C1: over a buffer that holds the window, [checksum] reads exactly
    [numbytes / 2] consecutive 2-byte windows as signed 16-bit integers in
    the resolved byte order (a trailing odd byte is never looked at), adds
    them to [oldcksum], applies the 32-bit rollover (wrap at 2^32, then, if
    still above 2^31, subtract 2^31) and keeps the low 16 bits; and
    [loadibw] raises the checksum error, carrying that value, whenever the
    value computed over the header bytes is not zero. *)
Theorem C1_checksum_windows_rollover_rejection
    (sys : endian) (buffer : list byte) (bo : ByteOrder)
    (oldcksum numbytes : Z) (strict : bool) (w : world) :
  0 <= numbytes ->
  2 * (numbytes / 2) <= Z.of_nat (length buffer) ->
  let e := resolve sys bo in
  let n := Z.to_nat (numbytes / 2) in
  checksum sys buffer bo oldcksum numbytes
  = Ok (Z.land (rollover32 (oldcksum + sum (windows16 e n buffer))) 0xffff)
  /\ length (windows16 e n buffer) = n
  /\ windows16 e n (take (2 * n) buffer) = windows16 e n buffer
  /\ (forall p w1 c,
        loadibw_preamble sys w = (Ok p, w1) ->
        checksum sys (p_b p) (p_byteOrder p) 0 (p_checkSumSize p) = Ok c ->
        c <> 0 ->
        loadibw sys strict w = (Raise (ValueError (MsgChecksum c)), w1)).
Proof.
  intros H0 Hlen e n. repeat split.
  - by apply checksum_eq_spec.
  - apply windows16_length. subst n. lia.
  - apply windows16_take.
  - intros p w1 c Hp Hc Hne.
    unfold loadibw, loadibw_headers, bind, lift. rewrite Hp, Hc.
    by destruct (Z.eqb_spec c 0).
Qed.

Lemma C1_checksum_windows_rollover_rejection_witness :
  checksum LittleEndian v1_checksum_1 Little 0 134 = Ok 1
  /\ run_loadibw LittleEndian v1_checksum_1 true
     = (Raise (ValueError (MsgChecksum 1)), {| file := []; stderr := [] |}).
Proof.
  assert (H0 : 0 <= 134) by lia.
  assert (Hlen : 2 * (134 / 2) <= Z.of_nat (length v1_checksum_1))
    by (vm_compute; discriminate).
  destruct (C1_checksum_windows_rollover_rejection
              LittleEndian v1_checksum_1 Little 0 134 true
              {| file := v1_checksum_1; stderr := [] |} H0 Hlen)
    as (Hsum & _ & _ & Hraise).
  split.
  - rewrite Hsum. vm_compute. reflexivity.
  - unfold run_loadibw.
    eapply Hraise; [vm_compute; reflexivity|vm_compute; reflexivity|discriminate].
Defined.

(** ** Text-wave splitter *)

Lemma byte_of_to_Z (x : byte) : byte_of_Z (byte_to_Z x) = x.
Proof.
  unfold byte_of_Z, byte_to_Z.
  rewrite Z.mod_small by (pose proof (Byte.to_N_bounded x); lia).
  by rewrite N2Z.id, Byte.of_to_N.
Qed.

Lemma chr_int8_ascii (x : byte) :
  byte_to_Z x < 128 -> chr (int8_of_byte x) = Ok x.
Proof.
  intros Hx. pose proof (byte_to_Z_range x) as Hr.
  unfold int8_of_byte, to_signed.
  change (2 ^ (8 * Z.of_nat 1 - 1)) with 128.
  destruct (Z.ltb_spec (byte_to_Z x) 128); [|lia].
  unfold chr.
  destruct (Z.leb_spec 0 (byte_to_Z x)); [|lia].
  destruct (Z.ltb_spec (byte_to_Z x) 256); [|lia].
  cbn [andb]. by rewrite byte_of_to_Z.
Qed.

Lemma rmapM_chr_ascii (l : list byte) :
  Forall (fun x => byte_to_Z x < 128) l ->
  rmapM chr (map int8_of_byte l) = Ok l.
Proof.
  induction 1 as [|x l Hx _ IH]; [done|].
  simpl. by rewrite chr_int8_ascii, IH.
Qed.

Lemma slice_map {A B} (f : A -> B) (l : list A) (start stop : Z) :
  slice (map f l) start stop = map f (slice l start stop).
Proof. unfold slice. by rewrite <- fmap_drop, <- fmap_take. Qed.

Lemma slice_ascii (l : list byte) (start stop : Z) :
  Forall (fun x => byte_to_Z x < 128) l ->
  Forall (fun x => byte_to_Z x < 128) (slice l start stop).
Proof. intros H. unfold slice. by apply Forall_take, Forall_drop. Qed.

(** The loop, from any running start the table can have reached. *)
Lemma split_strings_runs (payload : list byte) (table : list Z) :
  Forall (fun x => byte_to_Z x < 128) payload ->
  forall (start : Z) (strings : list (list byte)),
    Forall (fun o => 0 <= o) table ->
    Sorted advances table ->
    0 <= start ->
    HdRel advances start table \/ start = 0 ->
    split_strings (map int8_of_byte payload) table start strings
    = Ok (strings ++ runs payload table start).
Proof.
  intros Hascii. induction table as [|o table IH];
    intros start strings Hpos Hsorted Hstart Hhd.
  - simpl. by rewrite app_nil_r.
  - apply Forall_cons in Hpos as [Ho Hpos].
    apply Sorted_inv in Hsorted as [Hsorted Hhd'].
    simpl. destruct (Z.gtb_spec o start).
    + rewrite slice_map, rmapM_chr_ascii by by apply slice_ascii.
      simpl. rewrite IH; [|done|done|lia|by left].
      by rewrite <- app_assoc.
    + assert (start = 0 /\ o = 0) as [-> ->].
      { destruct Hhd as [Hhd| ->]; [|lia].
        apply HdRel_inv in Hhd. unfold advances in Hhd. lia. }
      simpl. apply IH; auto.
Qed.

(** C7 (as amended): for a payload of bytes below 0x80 and an index table
    that is non-decreasing and never repeats a non-zero offset, the
    splitter produces exactly the consecutive runs closed by each index
    greater than the running start, each run [[start, index)] with its
    bytes as characters, a zero index before any advance closing nothing;
    and "abcde" with the table [0,1,3,5] yields ["a","bc","de"]. *)
Theorem C7_split_strings_runs (payload sIndices : list byte) :
  Forall (fun x => byte_to_Z x < 128) payload ->
  Sorted advances (map byte_to_Z sIndices) ->
  split_strings (map int8_of_byte payload) (map byte_to_Z sIndices) 0 []
  = Ok (runs payload (map byte_to_Z sIndices) 0)
  /\ split_strings (map int8_of_byte abcde) [0; 1; 3; 5] 0 []
     = Ok (map list_byte_of_string ["a"; "bc"; "de"]%string).
Proof.
  intros Hascii Hsorted. split; [|by vm_compute].
  rewrite (split_strings_runs payload _ Hascii 0 []); auto; try lia.
  apply Forall_forall. intros o Ho.
  apply list_elem_of_fmap in Ho as (x & -> & _).
  apply byte_to_Z_range.
Qed.

Lemma C7_split_strings_runs_witness :
  split_strings (map int8_of_byte abcde)
    (map byte_to_Z [x00; x01; x03; x05]) 0 []
  = Ok (runs abcde (map byte_to_Z [x00; x01; x03; x05]) 0).
Proof.
  apply (C7_split_strings_runs abcde [x00; x01; x03; x05]).
  - repeat constructor; vm_compute; reflexivity.
  - repeat constructor; unfold advances; vm_compute; intuition congruence.
Defined.

(** C7, as stated, fails: the table [1,1,3,5] is non-decreasing and the
    runs it closes are "a", "bc", "de", but the second 1 is neither above
    the running start nor zero, and the loop's assertion fails. *)
Lemma C7_counterexample :
  Sorted Z.le [1; 1; 3; 5]
  /\ runs abcde [1; 1; 3; 5] 0 = map list_byte_of_string ["a"; "bc"; "de"]%string
  /\ split_strings (map int8_of_byte abcde) [1; 1; 3; 5] 0 []
     = Raise (AssertionError (PInt 1)).
Proof.
  split; [|split]; [|by vm_compute..].
  repeat constructor; lia.
Qed.

(** A payload byte of 0x80 or more reads as a negative int8, which [chr]
    refuses. *)
Lemma split_strings_high_byte :
  split_strings (map int8_of_byte [x80]) [1] 0 []
  = Raise (ValueError (MsgChr (-128))).
Proof. by vm_compute. Qed.

(** ** Record descriptor engine: what [unpack] yields *)

Lemma unpack_codes_length (e : endian) (codes : list fmt) (bs : list byte) :
  length (unpack_codes e codes bs) = length codes.
Proof.
  revert bs. induction codes as [|c codes IH]; intros bs; [done|].
  simpl. by rewrite IH.
Qed.

Lemma unpack_codes_app (e : endian) (c1 c2 : list fmt) (bs : list byte) :
  unpack_codes e (c1 ++ c2) bs
  = unpack_codes e c1 bs ++ unpack_codes e c2 (drop (codes_size c1) bs).
Proof.
  revert bs. induction c1 as [|c c1 IH]; intros bs; [done|].
  simpl. rewrite IH, drop_drop. reflexivity.
Qed.

Lemma join_format_cons (f : Field.t) (fs : list Field.t) :
  Structure.join_format (f :: fs) = field_codes f ++ Structure.join_format fs.
Proof.
  unfold Structure.join_format, field_codes. simpl.
  by rewrite map_app, map_repeat.
Qed.

Lemma unpack_one_int (e : endian) (c : fmt) (bs : list byte) :
  int_format c = true ->
  exists z, unpack_one e (Structure.replace_P c) bs = PInt z.
Proof. destruct c; intros H; try discriminate; simpl; eauto. Qed.

Lemma unpack_codes_repeat_int (e : endian) (c : fmt) (n : nat) (bs : list byte) :
  int_format c = true ->
  exists zs, unpack_codes e (repeat (Structure.replace_P c) n) bs = map PInt zs
             /\ length zs = n.
Proof.
  intros Hc. revert bs. induction n as [|n IH]; intros bs.
  - by exists [].
  - simpl. destruct (unpack_one_int e c (take (fmt_size (Structure.replace_P c)) bs) Hc)
      as [z ->].
    destruct (IH (drop (fmt_size (Structure.replace_P c)) bs)) as (zs & -> & Hlen).
    exists (z :: zs). simpl. by rewrite Hlen.
Qed.

Lemma wf_field_spec (f : Field.t) :
  wf_field f = true ->
  Field.total_count f = prod (Field.count f) /\ (0 < Field.total_count f)%nat.
Proof.
  unfold wf_field. intros [H1 H2]%andb_true_iff.
  apply Nat.eqb_eq in H1. apply Nat.ltb_lt in H2. done.
Qed.

(** Unflattening what [struct] unpacked for the fields, wherever in the
    argument list that starts. *)
Lemma unflatten_unpack (e : endian) (fields : list Field.t) :
  forallb wf_field fields = true ->
  forall (pre : list pyval) (bs : list byte),
  exists vs,
    Structure.unflatten_loop fields
      (pre ++ unpack_codes e (Structure.join_format fields) bs) (length pre)
    = Ok vs
    /\ Forall2 field_value fields vs.
Proof.
  induction fields as [|f fields IH]; intros Hwf pre bs.
  - exists []. split; [done|constructor].
  - simpl in Hwf. apply andb_true_iff in Hwf as [Hf Hwf].
    apply wf_field_spec in Hf as [Hprod Hpos].
    rewrite join_format_cons, unpack_codes_app.
    set (Af := unpack_codes e (field_codes f) bs).
    set (bs' := drop (codes_size (field_codes f)) bs).
    assert (HAf : length Af = Field.total_count f).
    { unfold Af. rewrite unpack_codes_length. unfold field_codes.
      by rewrite repeat_length. }
    destruct (IH Hwf (pre ++ Af) bs') as (vs & Hvs & Hall).
    rewrite length_app, HAf, <- app_assoc in Hvs.
    cbn [Structure.unflatten_loop]. rewrite Hvs.
    destruct (Nat.ltb_spec 1 (Field.total_count f)) as [Hmany|Hone].
    + rewrite drop_app_length, take_app_length' by done.
      unfold reshape. rewrite bool_decide_eq_true_2 by congruence.
      eexists. split; [reflexivity|].
      constructor; [|done].
      unfold field_value. intros Hint.
      destruct (Nat.ltb_spec 1 (Field.total_count f)); [|lia].
      intros n Hn.
      destruct (unpack_codes_repeat_int e (Field.format f)
                  (Field.total_count f) bs Hint) as (zs & Hzs & Hlen).
      exists zs. rewrite Hn. simpl. fold (field_codes f) in Hzs. fold Af in Hzs.
      rewrite Hzs, map_map. split; [done|].
      rewrite Hlen, Hprod, Hn. simpl. lia.
    + assert (Hone' : Field.total_count f = 1%nat) by lia.
      destruct Af as [|a [|? ?]] eqn:EAf; simpl in HAf; try lia.
      rewrite lookup_app_r, Nat.sub_diag by done. simpl.
      eexists. split; [reflexivity|].
      constructor; [|done].
      unfold field_value. intros Hint.
      destruct (Nat.ltb_spec 1 (Field.total_count f)); [lia|].
      unfold Af, field_codes in EAf. rewrite Hone' in EAf. simpl in EAf.
      destruct (unpack_one_int e (Field.format f)
                  (take (fmt_size (Structure.replace_P (Field.format f))) bs) Hint)
        as [z Hz].
      exists z. congruence.
Qed.

(** [dict(zip(names, values))] *)

Lemma dict_fold_notin {V} (names : list string) (values : list V)
    (d : gmap string V) (k : string) :
  k ∉ names ->
  fold_left (fun d kv => <[ kv.1 := kv.2 ]> d) (zip names values) d !! k
  = d !! k.
Proof.
  revert values d. induction names as [|n names IH]; intros values d Hk; [done|].
  destruct values as [|v values]; [done|].
  apply not_elem_of_cons in Hk as [Hne Hk].
  simpl. rewrite IH by done. by rewrite lookup_insert_ne.
Qed.

Lemma dict_zip_notin {V} (names : list string) (values : list V) (k : string) :
  k ∉ names -> dict_zip names values !! k = None.
Proof. intros Hk. unfold dict_zip. by rewrite dict_fold_notin. Qed.

Lemma dict_fold_Forall2 {A V} (R : A -> V -> Prop) (key : A -> string)
    (xs : list A) (vs : list V) (d : gmap string V) (x : A) :
  NoDup (map key xs) -> Forall2 R xs vs -> x ∈ xs ->
  exists v,
    fold_left (fun d kv => <[ kv.1 := kv.2 ]> d) (zip (map key xs) vs) d
      !! key x = Some v
    /\ R x v.
Proof.
  intros Hnd Hall. revert d Hnd.
  induction Hall as [|y v xs vs Hyv Hall IH]; intros d Hnd Hin.
  - by apply elem_of_nil in Hin.
  - simpl in Hnd. apply NoDup_cons in Hnd as [Hy Hnd].
    simpl. destruct (decide (key x = key y)) as [Hk|Hk].
    + apply elem_of_cons in Hin as [->|Hin].
      * exists v. rewrite dict_fold_notin by done.
        by rewrite lookup_insert_eq.
      * exfalso. apply Hy. rewrite <- Hk. apply list_elem_of_fmap. eauto.
    + apply elem_of_cons in Hin as [->|Hin]; [done|].
      by apply IH.
Qed.

(** Every path of [unpack_from] that returns, returns the unflattening of
    what [struct] unpacked from some buffer. *)
Lemma unpack_from_Ok (sys : endian) (self : Structure.t) (buffer : list byte)
    (offset : nat) (vs : list pyval) :
  Structure.unpack_from sys self buffer offset = Ok vs ->
  exists bs,
    Structure._unflatten_args self
      (unpack_codes (resolve sys (st_order (Structure.format self)))
         (st_codes (Structure.format self)) bs) = Ok vs.
Proof.
  unfold Structure.unpack_from, Struct_unpack_from.
  destruct (_ <? _) eqn:Hshort; [|by eauto].
  destruct (negb _); [done|].
  match goal with
  | |- context [if ?c then Raise StructError else _] => destruct c; [done|]
  end.
  cbn [rbind]. intros H.
  destruct (Structure._unflatten_args self _) as [unpacked|] eqn:Hun; [|done].
  cbn [rbind] in H.
  destruct (getitem _ _) as [npnts|]; [|done].
  cbn [rbind] in H. destruct (eq_int npnts 0); [|done].
  injection H as <-. eauto.
Qed.

(** The mapping [unpack_dict_from] returns for a well-formed record: every
    field is bound, integer fields to integers, and nothing else is. *)
Lemma unpack_dict_from_fields (sys : endian) (self : Structure.t)
    (buffer : list byte) (offset : nat) (d : gmap string pyval) :
  wf_structure self ->
  Structure.unpack_dict_from sys self buffer offset = Ok d ->
  (forall f, f ∈ Structure.fields self ->
             exists v, d !! Field.name f = Some v /\ field_value f v)
  /\ (forall k, k ∉ Structure.names self -> d !! k = None).
Proof.
  intros (Hcodes & Hwf & Hnd). unfold Structure.unpack_dict_from.
  destruct (Structure.unpack_from sys self buffer offset) as [vs|] eqn:Hvs;
    [|done].
  cbn [rbind]. intros [= <-].
  apply unpack_from_Ok in Hvs as [bs Hvs].
  rewrite Hcodes in Hvs. unfold Structure._unflatten_args in Hvs.
  destruct (unflatten_unpack (resolve sys (st_order (Structure.format self)))
              (Structure.fields self) Hwf [] bs) as (vs' & Hvs' & Hall).
  simpl in Hvs'. rewrite Hvs in Hvs'. injection Hvs' as <-.
  split.
  - intros f Hf. unfold dict_zip, Structure.names.
    by apply dict_fold_Forall2.
  - intros k Hk. by apply dict_zip_notin.
Qed.

(** The header tables are well formed, in any byte order. *)

Lemma wf_set_byte_order (self : Structure.t) (bo : ByteOrder) :
  wf_structure self -> wf_structure (Structure.set_byte_order self bo).
Proof.
  intros (Hcodes & Hwf & Hnd). unfold Structure.set_byte_order.
  case_bool_decide; [done|]. by split.
Qed.

Lemma set_byte_order_fields (self : Structure.t) (bo : ByteOrder) :
  Structure.fields (Structure.set_byte_order self bo) = Structure.fields self
  /\ Structure.name (Structure.set_byte_order self bo) = Structure.name self.
Proof. unfold Structure.set_byte_order. by case_bool_decide. Qed.

Ltac wf_table :=
  split; [reflexivity|split; [by vm_compute|]];
  apply (bool_decide_unpack _); by vm_compute.

Lemma wf_BinHeaderCommon : wf_structure BinHeaderCommon.
Proof. wf_table. Qed.
Lemma wf_BinHeader1 : wf_structure BinHeader1.
Proof. wf_table. Qed.
Lemma wf_BinHeader2 : wf_structure BinHeader2.
Proof. wf_table. Qed.
Lemma wf_BinHeader3 : wf_structure BinHeader3.
Proof. wf_table. Qed.
Lemma wf_BinHeader5 : wf_structure BinHeader5.
Proof. wf_table. Qed.
Lemma wf_WaveHeader2 : wf_structure WaveHeader2.
Proof. wf_table. Qed.
Lemma wf_WaveHeader5 : wf_structure WaveHeader5.
Proof. wf_table. Qed.

Lemma rbind_Ok {A B} (r : result A) (k : A -> result B) (b : B) :
  rbind r k = Ok b -> exists a, r = Ok a /\ k a = Ok b.
Proof. destruct r; [eauto|discriminate]. Qed.

(** The value [dict(zip(names, values))] binds a name to, the names being
    distinct. *)
Lemma dict_zip_lookup {V} (names : list string) (values : list V) (i : nat)
    (k : string) (v : V) :
  NoDup names -> names !! i = Some k -> values !! i = Some v ->
  dict_zip names values !! k = Some v.
Proof.
  unfold dict_zip. generalize (∅ : gmap string V) as d.
  revert values i. induction names as [|n names IH]; intros values i d Hnd Hn Hv;
    [done|].
  destruct values as [|x values]; [by destruct i|].
  apply NoDup_cons in Hnd as [Hnot Hnd]. simpl.
  destruct i as [|i]; simpl in Hn, Hv.
  - injection Hn as ->. injection Hv as ->.
    rewrite dict_fold_notin by done. by rewrite lookup_insert_eq.
  - by apply (IH values i).
Qed.

Lemma codes_size_app (c1 c2 : list fmt) :
  codes_size (c1 ++ c2) = (codes_size c1 + codes_size c2)%nat.
Proof.
  induction c1 as [|c c1 IH]; [done|]. simpl. rewrite IH. lia.
Qed.

(** What unflattening yields for a scalar field: the value [struct] decodes
    from the bytes at the field's place in the record. *)
Lemma unflatten_unpack_scalar (e : endian) (fields : list Field.t) :
  forall (pre : list pyval) (bs : list byte) (vs : list pyval),
    Structure.unflatten_loop fields
      (pre ++ unpack_codes e (Structure.join_format fields) bs) (length pre)
    = Ok vs ->
    forall i f,
      fields !! i = Some f -> Field.total_count f = 1%nat ->
      let c := Structure.replace_P (Field.format f) in
      vs !! i
      = Some (unpack_one e c
                (take (fmt_size c)
                   (drop (codes_size (Structure.join_format (take i fields)))
                      bs))).
Proof.
  induction fields as [|a fields IH]; intros pre bs vs H i f Hi Hone c; [done|].
  cbn [Structure.unflatten_loop] in H.
  rewrite join_format_cons, unpack_codes_app in H.
  apply rbind_Ok in H as (v & Hv & H).
  apply rbind_Ok in H as (rest & Hrest & [= <-]).
  assert (Hlen : length (unpack_codes e (field_codes a) bs)
                 = Field.total_count a).
  { rewrite unpack_codes_length. unfold field_codes. by rewrite repeat_length. }
  destruct i as [|i]; simpl in Hi.
  - injection Hi as ->. rewrite Hone in Hv. cbn [Nat.ltb Nat.leb] in Hv.
    unfold field_codes in Hv. rewrite Hone in Hv. cbn [repeat unpack_codes] in Hv.
    rewrite lookup_app_r, Nat.sub_diag in Hv by done.
    cbn [app lookup list_lookup] in Hv. injection Hv as <-.
    cbn [take Structure.join_format flat_map map codes_size foldr drop]. done.
  - rewrite app_assoc in Hrest.
    rewrite <- Hlen, <- length_app in Hrest.
    specialize (IH _ _ _ Hrest i f Hi Hone). cbv zeta in IH.
    change ((v :: rest) !! S i) with (rest !! i). rewrite IH. unfold c.
    rewrite drop_drop. cbn [take]. rewrite join_format_cons, codes_size_app.
    done.
Qed.

(** C5: when fewer bytes remain than the record packs to, [unpack_from]
    raises [struct.error], unless the record is WaveHeader2 or WaveHeader5
    (in whatever byte order).  For these two the outcome is fixed by the
    bytes: with [record] the bytes from [offset] on followed by zero bytes
    up to the record's size, and [npnts] the signed 32-bit integer at the
    place of the [npnts] field in it (byte 42 of a WaveHeader2, byte 12 of
    a WaveHeader5), [unpack_from] returns what [unpack] returns for
    [record] if [npnts] is zero, and raises an [AssertionError] carrying
    [npnts] otherwise; [unpack] does return for [record], and binds the
    field [npnts] to that integer. *)
Theorem C5_unpack_from_truncated (sys : endian) (self : Structure.t)
    (buffer : list byte) (offset : nat) :
  Z.of_nat (length buffer) - Z.of_nat offset < Z.of_nat (Structure.size self) ->
  (Structure.name self ∉ ["WaveHeader2"; "WaveHeader5"]%string ->
   Structure.unpack_from sys self buffer offset = Raise StructError)
  /\ (forall bo at_npnts,
        (self = Structure.set_byte_order WaveHeader2 bo /\ at_npnts = 42%nat)
        \/ (self = Structure.set_byte_order WaveHeader5 bo /\ at_npnts = 12%nat) ->
        let record :=
          drop offset
            (buffer
             ++ repeat x00 (Structure.size self + offset - length buffer)) in
        let npnts :=
          bytes_to_signed (resolve sys bo) (take 4 (drop at_npnts record)) in
        length record = Structure.size self
        /\ (exists unpacked,
              Structure.unpack sys self record = Ok unpacked
              /\ dict_zip (Structure.names self) unpacked !! "npnts"%string
                 = Some (PInt npnts))
        /\ Structure.unpack_from sys self buffer offset
           = (if npnts =? 0
              then Structure.unpack sys self record
              else Raise (AssertionError (PInt npnts)))).
Proof.
  intros Hshort. split.
  - intros Hname. unfold Structure.unpack_from, Struct_unpack_from.
    fold (Structure.size self).
    destruct (Z.ltb_spec (Z.of_nat (length buffer) - Z.of_nat offset)
                (Z.of_nat (Structure.size self))); [|lia].
    apply not_elem_of_cons in Hname as [H2 Hname].
    apply not_elem_of_cons in Hname as [H5 _].
    by rewrite !bool_decide_eq_false_2.
  - intros bo at_npnts Hself record npnts.
    assert (Hwf : exists i,
               wf_structure self
               /\ (Structure.name self = "WaveHeader2"
                   \/ Structure.name self = "WaveHeader5")%string
               /\ st_order (Structure.format self) = bo
               /\ Structure.fields self !! i = Some (Fld Fl "npnts")
               /\ codes_size
                    (Structure.join_format (take i (Structure.fields self)))
                  = at_npnts).
    { destruct Hself as [[-> ->] | [-> ->]];
        [exists 8%nat|exists 3%nat];
        (split; [apply wf_set_byte_order; wf_table|]);
        rewrite !(proj1 (set_byte_order_fields _ _)),
                !(proj2 (set_byte_order_fields _ _));
        (split; [auto|]);
        (split; [unfold Structure.set_byte_order; by case_bool_decide|]);
        split; reflexivity. }
    destruct Hwf as (i & Hwf & Hname & Horder & Hi & Hat).
    assert (Hrec : length record = Structure.size self).
    { unfold record. rewrite length_drop, length_app, repeat_length. lia. }
    destruct Hwf as (Hcodes & Hfields & Hnd).
    set (e := resolve sys (st_order (Structure.format self))).
    destruct (unflatten_unpack e (Structure.fields self) Hfields [] record)
      as (unpacked & Hun & _).
    pose proof (unflatten_unpack_scalar e (Structure.fields self) [] record
                  unpacked Hun i _ Hi eq_refl) as Hval.
    cbv zeta in Hval. rewrite Hat in Hval. simpl in Hun.
    rewrite <- Hcodes in Hun.
    change (unpack_one e (Structure.replace_P (Field.format (Fld Fl "npnts")))
              (take (fmt_size
                       (Structure.replace_P (Field.format (Fld Fl "npnts"))))
                 (drop at_npnts record)))
      with (PInt (bytes_to_signed e (take 4 (drop at_npnts record)))) in Hval.
    unfold e in Hval. rewrite Horder in Hval. fold npnts in Hval.
    assert (Hnpnts : dict_zip (Structure.names self) unpacked !! "npnts"%string
                     = Some (PInt npnts)).
    { apply (dict_zip_lookup _ _ i); [done| |done].
      unfold Structure.names. by rewrite list_lookup_fmap, Hi. }
    assert (Hunpack : Structure.unpack sys self record = Ok unpacked).
    { unfold Structure.unpack, Struct_unpack.
      rewrite bool_decide_eq_true_2 by done. exact Hun. }
    split; [done|]. split; [eauto|].
    unfold Structure.unpack_from, Struct_unpack_from.
    fold (Structure.size self).
    destruct (Z.ltb_spec (Z.of_nat (length buffer) - Z.of_nat offset)
                (Z.of_nat (Structure.size self))); [|lia].
    replace (negb _) with false
      by (destruct Hname as [-> | ->]; reflexivity).
    match goal with
    | |- context [if ?c then Raise StructError else _] =>
        destruct c eqn:Hc; [apply Z.ltb_lt in Hc; rewrite length_app,
                              repeat_length in Hc; lia|]
    end.
    fold record. cbn [rbind]. fold e.
    unfold Structure._unflatten_args in *. rewrite Hun.
    cbn [rbind]. unfold getitem. rewrite Hnpnts. cbn [rbind eq_int].
    rewrite Hunpack. reflexivity.
Qed.

Lemma C5_unpack_from_truncated_witness :
  Structure.unpack_from LittleEndian BinHeader1 (zeros 7) 0 = Raise StructError
  /\ Structure.unpack_from LittleEndian
       (Structure.set_byte_order WaveHeader5 Little) (zeros 12 ++ le 4 1) 0
     = Raise (AssertionError (PInt 1))
  /\ exists unpacked,
       Structure.unpack_from LittleEndian
         (Structure.set_byte_order WaveHeader2 Big) (zeros 110) 0
       = Ok unpacked
       /\ Structure.unpack LittleEndian
            (Structure.set_byte_order WaveHeader2 Big) (zeros 126)
          = Ok unpacked.
Proof.
  split; [|split].
  - apply (C5_unpack_from_truncated LittleEndian BinHeader1 (zeros 7) 0).
    + vm_compute. reflexivity.
    + rewrite !not_elem_of_cons.
      repeat split; try (intros H; vm_compute in H; discriminate).
      apply not_elem_of_nil.
  - assert (Hshort : Z.of_nat (length (zeros 12 ++ le 4 1)) - Z.of_nat 0
                     < Z.of_nat (Structure.size
                                   (Structure.set_byte_order WaveHeader5 Little)))
      by (vm_compute; reflexivity).
    destruct (proj2 (C5_unpack_from_truncated LittleEndian
                       (Structure.set_byte_order WaveHeader5 Little)
                       (zeros 12 ++ le 4 1) 0 Hshort) Little 12%nat
                (or_intror (conj eq_refl eq_refl)))
      as (_ & _ & Hres).
    exact Hres.
  - assert (Hshort : Z.of_nat (length (zeros 110)) - Z.of_nat 0
                     < Z.of_nat (Structure.size
                                   (Structure.set_byte_order WaveHeader2 Big)))
      by (vm_compute; reflexivity).
    destruct (proj2 (C5_unpack_from_truncated LittleEndian
                       (Structure.set_byte_order WaveHeader2 Big)
                       (zeros 110) 0 Hshort) Big 42%nat
                (or_introl (conj eq_refl eq_refl)))
      as (_ & (unpacked & Hun & _) & Hres).
    exists unpacked. split; [|exact Hun].
    etransitivity; [exact Hres|exact Hun].
Defined.

(** A wave header cut short whose [npnts] is 1: the assertion fails. *)
Lemma unpack_from_truncated_npnts_1 :
  Structure.unpack_from LittleEndian
    (Structure.set_byte_order WaveHeader5 Little) (zeros 12 ++ le 4 1) 0
  = Raise (AssertionError (PInt 1)).
Proof. by vm_compute. Qed.

(** ** Reasoning about [io] computations *)

Lemma bind_Ok {A B} (m : io A) (k : A -> io B) (w w' : world) (b : B) :
  bind m k w = (Ok b, w') ->
  exists a w1, m w = (Ok a, w1) /\ k a w1 = (Ok b, w').
Proof.
  unfold bind. destruct (m w) as [[a|e] w1]; [eauto|discriminate].
Qed.

Lemma lift_Ok {A} (r : result A) (w w' : world) (a : A) :
  lift r w = (Ok a, w') -> r = Ok a /\ w' = w.
Proof. unfold lift. by intros [= -> ->]. Qed.

Lemma ret_Ok {A} (x a : A) (w w' : world) :
  ret x w = (Ok a, w') -> a = x /\ w' = w.
Proof. unfold ret. by intros [= -> ->]. Qed.

Lemma read_Ok (size : Z) (w w' : world) (s : list byte) :
  read size w = (Ok s, w') ->
  file w = s ++ file w' /\ stderr w' = stderr w
  /\ (0 <= size -> s = take (Z.to_nat size) (file w)).
Proof.
  unfold read, read_count. intros [= <- <-]. simpl.
  split; [by rewrite take_drop|]. split; [done|].
  intros Hs. by destruct (Z.ltb_spec size 0); [lia|].
Qed.

Ltac io_inv :=
  repeat
    (cbv beta zeta in *;
     match goal with
     | H : bind _ _ _ = (Ok _, _) |- _ =>
         let a := fresh "a" in
         let w := fresh "w" in
         let H1 := fresh "H" in
         apply bind_Ok in H as (a & w & H1 & H)
     | H : lift _ _ = (Ok _, _) |- _ =>
         let E := fresh "E" in apply lift_Ok in H as [H E]; subst
     | H : ret _ _ = (Ok _, _) |- _ =>
         let E := fresh "E" in apply ret_Ok in H as [H E]; subst
     | H : raise _ _ = (Ok _, _) |- _ => discriminate H
     | H : rbind _ _ = Ok _ |- _ =>
         let a := fresh "a" in
         let H1 := fresh "H" in
         apply rbind_Ok in H as (a & H1 & H)
     | H : Raise _ = Ok _ |- _ => discriminate H
     | H : Ok _ = Ok _ |- _ => injection H as H
     end).

(** ** The stages of [loadibw] *)

Lemma loadibw_preamble_inv (sys : endian) (w : world) (p : preamble) (w0 : world) :
  loadibw_preamble sys w = (Ok p, w0) ->
  version_structs (p_version p) (p_byteOrder p)
  = Ok (p_bin_struct p, p_wave_struct p, p_checkSumSize p)
  /\ stderr w0 = stderr w.
Proof.
  unfold loadibw_preamble. intros H. io_inv. simpl.
  apply read_Ok in H0 as (_ & Hs0 & _). apply read_Ok in H4 as (_ & Hs4 & _).
  split.
  - rewrite H3. by destruct a2 as [[? ?] ?].
  - rewrite Hs4. destruct (need_to_reorder_bytes a0); io_inv; congruence.
Qed.

Lemma version_structs_inv (v : Z) (bo : ByteOrder) (bs ws : Structure.t) (css : Z) :
  version_structs v bo = Ok (bs, ws, css) ->
  (v = 1 /\ bs = Structure.set_byte_order BinHeader1 bo
   /\ ws = Structure.set_byte_order WaveHeader2 bo)
  \/ (v = 2 /\ bs = Structure.set_byte_order BinHeader2 bo
      /\ ws = Structure.set_byte_order WaveHeader2 bo)
  \/ (v = 3 /\ bs = Structure.set_byte_order BinHeader3 bo
      /\ ws = Structure.set_byte_order WaveHeader2 bo)
  \/ (v = 5 /\ bs = Structure.set_byte_order BinHeader5 bo
      /\ ws = Structure.set_byte_order WaveHeader5 bo).
Proof.
  unfold version_structs.
  destruct (Z.eqb_spec v 1) as [->|];
    [|destruct (Z.eqb_spec v 2) as [->|];
      [|destruct (Z.eqb_spec v 3) as [->|];
        [|destruct (Z.eqb_spec v 5) as [->|]; [|discriminate]]]];
    simpl; intros [= <- <- <-]; auto 10.
Qed.

Lemma loadibw_headers_inv (sys : endian) (w : world) (h : headers) (w1 : world) :
  loadibw_headers sys w = (Ok h, w1) ->
  (exists css, version_structs (version h) (byteOrder h)
               = Ok (bin_struct h, wave_struct h, css))
  /\ Structure.unpack_dict_from sys (bin_struct h) (b h) 0 = Ok (bin_info h)
  /\ Structure.unpack_dict_from sys (wave_struct h) (b h)
       (Structure.size (bin_struct h)) = Ok (wave_info h)
  /\ stderr w1 = stderr w.
Proof.
  unfold loadibw_headers. intros H. io_inv.
  destruct (negb (a0 =? 0)); io_inv. simpl.
  apply loadibw_preamble_inv in H0 as [Hvs Hst]. eauto 10.
Qed.

(** The records a decoded header pair was read with. *)
Lemma headers_records (sys : endian) (w : world) (h : headers) (w1 : world) :
  loadibw_headers sys w = (Ok h, w1) ->
  (version h = 1 /\ bin_struct h = Structure.set_byte_order BinHeader1 (byteOrder h)
   /\ wave_struct h = Structure.set_byte_order WaveHeader2 (byteOrder h))
  \/ (version h = 2 /\ bin_struct h = Structure.set_byte_order BinHeader2 (byteOrder h)
      /\ wave_struct h = Structure.set_byte_order WaveHeader2 (byteOrder h))
  \/ (version h = 3 /\ bin_struct h = Structure.set_byte_order BinHeader3 (byteOrder h)
      /\ wave_struct h = Structure.set_byte_order WaveHeader2 (byteOrder h))
  \/ (version h = 5 /\ bin_struct h = Structure.set_byte_order BinHeader5 (byteOrder h)
      /\ wave_struct h = Structure.set_byte_order WaveHeader5 (byteOrder h)).
Proof.
  intros H. apply loadibw_headers_inv in H as ([css Hvs] & _).
  by apply version_structs_inv in Hvs.
Qed.

(** ** Text waves in version 1, 2 and 3 files *)

Lemma elem_of_123 (v : Z) : v ∈ [1; 2; 3] -> v = 1 \/ v = 2 \/ v = 3.
Proof.
  rewrite !elem_of_cons. intros [?|[?|[?|H]]]; auto.
  by apply elem_of_nil in H.
Qed.

(** The bin headers of versions 1, 2 and 3 have no [sIndices] entry. *)
Lemma bin_info_no_sIndices (sys : endian) (w : world) (h : headers) (w1 : world) :
  loadibw_headers sys w = (Ok h, w1) ->
  version h ∈ [1; 2; 3] ->
  bin_info h !! "sIndices"%string = None.
Proof.
  intros H Hv. pose proof (headers_records _ _ _ _ H) as Hrec.
  apply loadibw_headers_inv in H as (_ & Hbin & _).
  apply elem_of_123 in Hv.
  assert (Hcase : exists S, wf_structure S
                    /\ bin_struct h = Structure.set_byte_order S (byteOrder h)
                    /\ "sIndices"%string ∉ Structure.names S).
  { destruct Hrec as [(?&?&?)|[(?&?&?)|[(?&?&?)|(?&?&?)]]]; [| | |lia].
    - exists BinHeader1. split; [apply wf_BinHeader1|]. split; [done|].
      apply (bool_decide_unpack _). by vm_compute.
    - exists BinHeader2. split; [apply wf_BinHeader2|]. split; [done|].
      apply (bool_decide_unpack _). by vm_compute.
    - exists BinHeader3. split; [apply wf_BinHeader3|]. split; [done|].
      apply (bool_decide_unpack _). by vm_compute. }
  destruct Hcase as (S & Hwf & HS & Hnot).
  apply unpack_dict_from_fields in Hbin as [_ Hnone].
  - apply Hnone. rewrite HS. unfold Structure.names.
    by rewrite (proj1 (set_byte_order_fields _ _)).
  - rewrite HS. by apply wf_set_byte_order.
Qed.

(** The post-data stage of versions 1, 2 and 3 adds only [note] and
    [formula]. *)
Lemma post_data_sIndices (strict : bool) (h : headers) (w w' : world)
    (bi : gmap string pyval) :
  version h ∈ [1; 2; 3] ->
  loadibw_post_data strict h w = (Ok bi, w') ->
  bi !! "sIndices"%string = bin_info h !! "sIndices"%string.
Proof.
  intros Hv H. apply elem_of_123 in Hv. unfold loadibw_post_data in H.
  destruct Hv as [Hv|[Hv|Hv]]; rewrite Hv in H; simpl in H; io_inv.
  - reflexivity.
  - unfold read_stripped in *. io_inv. by rewrite lookup_insert_ne.
  - unfold read_stripped in *. io_inv. by rewrite !lookup_insert_ne.
Qed.

Lemma loadibw_text_no_sIndices (h : headers) (bi : gmap string pyval)
    (data : ndarray) :
  getint (wave_info h) "type" = Ok 0 ->
  bi !! "sIndices"%string = None ->
  loadibw_text h bi data = Raise (KeyError "sIndices").
Proof.
  intros Ht Hs. unfold loadibw_text. rewrite Ht. simpl.
  unfold getitem. by rewrite Hs.
Qed.

(** C10: a file whose headers decode as version 1, 2 or 3 with wave type 0
    never yields a result: [loadibw] raises, and when the payload and the
    post-data stages get through, what it raises is the [KeyError] of
    [bin_info['sIndices']], which only the version-5 branch fills in. *)
Theorem C10_text_wave_v123_never_returns (sys : endian) (strict : bool)
    (w : world) (h : headers) (w1 : world) :
  loadibw_headers sys w = (Ok h, w1) ->
  version h ∈ [1; 2; 3] ->
  getint (wave_info h) "type" = Ok 0 ->
  exists e w2,
    loadibw sys strict w = (Raise e, w2)
    /\ (forall data w' bi w'',
          loadibw_data h w1 = (Ok data, w') ->
          loadibw_post_data strict h w' = (Ok bi, w'') ->
          e = KeyError "sIndices" /\ w2 = w'').
Proof.
  intros Hh Hv Ht.
  pose proof (bin_info_no_sIndices _ _ _ _ Hh Hv) as Hnone.
  unfold loadibw, bind. rewrite Hh.
  destruct (loadibw_data h w1) as [[data|e] w'] eqn:Hdata.
  2:{ exists e, w'. split; [done|]. intros; discriminate. }
  destruct (loadibw_post_data strict h w') as [[bi|e] w''] eqn:Hpost.
  2:{ exists e, w''. split; [done|].
      intros ? ? ? ? [= <- <-] Hp. rewrite Hpost in Hp. discriminate. }
  pose proof (post_data_sIndices _ _ _ _ _ Hv Hpost) as Hbi.
  rewrite Hnone in Hbi.
  unfold lift. rewrite (loadibw_text_no_sIndices h bi data Ht Hbi).
  exists (KeyError "sIndices"), w''. split; [done|].
  intros ? ? ? ? [= <- <-] Hp. rewrite Hpost in Hp. by injection Hp as <- <-.
Qed.

(** Facts about the value of a stage run on a given file, read off by
    evaluation. *)
Lemma stage_fact {A} (P : A -> bool) (r : result A * world) (a : A) (w : world) :
  r = (Ok a, w) ->
  match r with (Ok x, _) => P x | (Raise _, _) => false end = true ->
  P a = true.
Proof. by intros ->. Qed.

Lemma stage_returns {A} (r : result A * world) (e : exn) (w : world) :
  r = (Raise e, w) ->
  match r with (Ok _, _) => true | (Raise _, _) => false end = true ->
  False.
Proof. by intros ->. Qed.

Lemma C10_text_wave_v123_never_returns_witness :
  exists e w2,
    run_loadibw LittleEndian (v2_text (zeros 16)) true = (Raise e, w2).
Proof.
  unfold run_loadibw.
  destruct (loadibw_headers LittleEndian
              {| file := v2_text (zeros 16); stderr := [] |})
    as [[h|e] w1] eqn:Hh.
  - assert (Hv : bool_decide (version h ∈ [1; 2; 3]) = true).
    { apply (stage_fact (fun h => bool_decide (version h ∈ [1; 2; 3])) _ _ _ Hh).
      vm_compute. reflexivity. }
    apply bool_decide_eq_true_1 in Hv.
    assert (Ht : getint (wave_info h) "type" = Ok 0).
    { assert (Ht : match getint (wave_info h) "type" with
                   | Ok 0 => true
                   | _ => false
                   end = true).
      { apply (stage_fact
                 (fun h => match getint (wave_info h) "type" with
                           | Ok 0 => true
                           | _ => false
                           end) _ _ _ Hh).
        vm_compute. reflexivity. }
      by destruct (getint (wave_info h) "type") as [[| |]|]. }
    destruct (C10_text_wave_v123_never_returns LittleEndian true _ h w1 Hh Hv Ht)
      as (e & w2 & Hraise & _).
    exists e, w2. exact Hraise.
  - exfalso. apply (stage_returns _ _ _ Hh). vm_compute. reflexivity.
Defined.

(** The same file, run: the error is the [KeyError]. *)
Lemma v2_text_raises_KeyError :
  run_loadibw LittleEndian (v2_text (zeros 16)) true
  = (Raise (KeyError "sIndices"), {| file := []; stderr := [] |}).
Proof. by vm_compute. Qed.

(** ** Payload decoder: the shape of the result *)

Lemma zprod_nonneg (s : list Z) : Forall (fun n => 0 <= n) s -> 0 <= zprod s.
Proof.
  induction 1 as [|n s Hn _ IH]; simpl; [lia|]. by apply Z.mul_nonneg_nonneg.
Qed.

Lemma itemsize_pos (t : dtype) : 0 < itemsize t.
Proof. by destruct t. Qed.

(** The array [numpy.ndarray] builds on a buffer: the shape is the one
    asked for, but for [(-1,)], which stands for the items the buffer
    holds; no extent is negative and the buffer holds the items. *)
Lemma numpy_ndarray_inv (s : list Z) (t : dtype) (bo : ByteOrder)
    (buf : list byte) (a : ndarray) :
  numpy_ndarray s t bo buf = Ok a ->
  dtype_of a = t /\ byteorder a = bo /\ buffer a = buf
  /\ (s <> [-1] -> shape a = s)
  /\ (s = [-1] -> shape a = [Z.of_nat (length buf) / itemsize t])
  /\ Forall (fun n => 0 <= n) (shape a)
  /\ zprod (shape a) * itemsize t <= Z.of_nat (length buf).
Proof.
  unfold numpy_ndarray. pose proof (itemsize_pos t) as Ht.
  case_bool_decide as Hs.
  - intros [= <-]. cbn [shape dtype_of byteorder buffer].
    assert (0 <= Z.of_nat (length buf) / itemsize t) by (apply Z.div_pos; lia).
    repeat split; try done.
    + by repeat constructor.
    + cbn [zprod foldr].
      pose proof (Z.mul_div_le (Z.of_nat (length buf)) (itemsize t) Ht). lia.
  - destruct (Z.ltb_spec (Z.of_nat (length buf)) (zprod s * itemsize t));
      [done|].
    destruct (existsb _ _) eqn:Hneg; [done|].
    intros [= <-]. cbn [shape dtype_of byteorder buffer].
    repeat split; try done.
    apply Forall_forall. intros n Hn.
    destruct (Z.ltb_spec n 0) as [Hlt|]; [|done].
    assert (existsb (fun n => n <? 0) s = true) as Hex; [|congruence].
    apply existsb_exists. exists n. split; [by apply list_elem_of_In|].
    by apply Z.ltb_lt.
Qed.

Lemma getint_Ok (d : gmap string pyval) (k : string) (z : Z) :
  getint d k = Ok z <-> d !! k = Some (PInt z).
Proof.
  unfold getint, getitem. destruct (d !! k) as [[]|]; simpl; split; congruence.
Qed.

(** The shapes [loadibw] takes from [nDim] are never [(-1,)]. *)
Lemma positive_extents_not_all (v : pyval) (s : list Z) :
  positive_extents v = Ok s -> s <> [-1].
Proof.
  unfold positive_extents. intros H.
  apply rbind_Ok in H as (l & _ & H). apply rbind_Ok in H as (ns & _ & H).
  destruct (filter (fun n => 0 < n) ns) as [|n s'] eqn:E.
  - injection H as <-. discriminate.
  - injection H as <-. intros [= -> ->].
    assert (Hin : -1 ∈ filter (fun n => 0 < n) ns)
      by (rewrite E; apply list_elem_of_here).
    apply list_elem_of_filter in Hin as [Hin _]. lia.
Qed.

Lemma loadibw_data_shape (h : headers) (w : world) (nd : ndarray) (w' : world) :
  loadibw_data h w = (Ok nd, w') ->
  exists t,
    getint (wave_info h) "type" = Ok t
    /\ (t <> 0 ->
        (version h = 5 ->
         exists v, getitem (wave_info h) "nDim" = Ok v
                   /\ positive_extents v = Ok (shape nd))
        /\ (version h <> 5 ->
            exists npnts, getint (wave_info h) "npnts" = Ok npnts
                          /\ (npnts <> -1 -> shape nd = [npnts])))
    /\ stderr w' = stderr w.
Proof.
  unfold loadibw_data. intros H. io_inv.
  exists a1. split; [done|]. split.
  - intros Ht. apply numpy_ndarray_inv in H as (_ & _ & _ & Hshape & _).
    destruct (Z.eqb_spec a1 0); [done|].
    destruct (TYPE_TABLE !! a1); [|done]. io_inv.
    destruct (a.2 =? _); [|done]. io_inv. subst a2. simpl in Hshape.
    destruct (Z.eqb_spec (version h) 5) as [Hv|Hv]; io_inv.
    + split; [|done]. intros _. exists a2. split; [done|].
      rewrite Hshape; [done|]. by eapply positive_extents_not_all.
    + subst a0. split; [done|]. intros _. exists a2. split; [done|].
      intros Hn. apply Hshape. congruence.
  - destruct (a3 =? 0); io_inv; [done|].
    match goal with
    | Hr : read _ _ = _ |- _ => by apply read_Ok in Hr as (_ & ? & _)
    end.
Qed.

Lemma rmapM_as_int (zs : list Z) : rmapM as_int (map PInt zs) = Ok zs.
Proof. induction zs as [|z zs IH]; [done|]. simpl. by rewrite IH. Qed.

Lemma positive_extents_ints (zs : list Z) :
  positive_extents (PSeq (map PInt zs)) = Ok (or_0 (filter (fun n => 0 < n) zs)).
Proof.
  unfold positive_extents. simpl. rewrite rmapM_as_int. simpl.
  by destruct (filter _ zs).
Qed.

(** Keeping the positive extents keeps the leading run when nothing
    positive follows the first extent that is not. *)
Lemma filter_leading_positive (extents : list Z) :
  Forall (fun n => n <= 0) (drop (length (leading_positive extents)) extents) ->
  filter (fun n => 0 < n) extents = leading_positive extents.
Proof.
  induction extents as [|n extents IH]; [done|].
  simpl. destruct (Z.ltb_spec 0 n) as [Hn|Hn].
  - simpl. intros H. rewrite filter_cons_True by done. by rewrite IH.
  - simpl. intros H. rewrite filter_cons_False by lia.
    apply Forall_cons in H as [_ H].
    clear IH. induction H as [|m l Hm _ IH]; [done|].
    rewrite filter_cons_False by lia. done.
Qed.

Lemma loadibw_inv (sys : endian) (strict : bool) (w w2 : world)
    (data : array) (bi wi : gmap string pyval) :
  loadibw sys strict w = (Ok (data, bi, wi), w2) ->
  exists h w1 nd w',
    loadibw_headers sys w = (Ok h, w1)
    /\ loadibw_data h w1 = (Ok nd, w')
    /\ loadibw_post_data strict h w' = (Ok bi, w2)
    /\ loadibw_text h bi nd = Ok data
    /\ wi = wave_info h.
Proof.
  unfold loadibw. intros H. io_inv. injection H as -> -> ->. eauto 10.
Qed.

(** ** Trailing sections: the padding of version 2 and 3 files *)

Lemma byte_to_Z_zero (x : byte) : byte_to_Z x = 0 <-> x = x00.
Proof.
  split; [|by intros ->].
  intros H. rewrite <- (byte_of_to_Z x), H. reflexivity.
Qed.

Lemma max_byte_zero (buffer : list byte) :
  max_byte buffer = 0 <-> Forall (fun x => x = x00) buffer.
Proof.
  induction buffer as [|x buffer IH]; simpl.
  - split; [constructor|done].
  - pose proof (byte_to_Z_range x).
    assert (0 <= max_byte buffer).
    { clear. induction buffer as [|y l IHl]; simpl; [done|].
      pose proof (byte_to_Z_range y). lia. }
    rewrite Forall_cons, <- IH, <- byte_to_Z_zero. lia.
Qed.


Lemma assert_null_zero (buffer : list byte) (strict : bool) (w : world) :
  Forall (fun x => x = x00) buffer ->
  assert_null buffer strict w = (Ok tt, w).
Proof.
  intros H. apply max_byte_zero in H. unfold assert_null.
  rewrite H. simpl. by rewrite andb_false_r.
Qed.


Lemma read_run (size : Z) (w : world) :
  read size w
  = (Ok (take (read_count size (file w)) (file w)),
     {| file := drop (read_count size (file w)) (file w); stderr := stderr w |}).
Proof. reflexivity. Qed.

Lemma read_stripped_run (size : Z) (w : world) :
  read_stripped size w
  = (Ok (PStr (strip (take (read_count size (file w)) (file w)))),
     {| file := drop (read_count size (file w)) (file w); stderr := stderr w |}).
Proof. reflexivity. Qed.




Lemma loadibw_text_numeric (h : headers) (bi : gmap string pyval)
    (data : ndarray) (t : Z) :
  getint (wave_info h) "type" = Ok t -> t <> 0 ->
  loadibw_text h bi data = Ok (Numeric data).
Proof.
  intros Ht Hne. unfold loadibw_text. rewrite Ht. simpl.
  by destruct (Z.eqb_spec t 0).
Qed.

(** Facts about two chained stages run on a given file, read off by
    evaluation. *)
Lemma stage2_fact {A B} (P : B -> world -> bool) (m : io A) (k : A -> io B)
    (w w1 w2 : world) (a : A) (b : B) :
  m w = (Ok a, w1) -> k a w1 = (Ok b, w2) ->
  match bind m k w with (Ok x, w') => P x w' | (Raise _, _) => false end = true ->
  P b w2 = true.
Proof. unfold bind. by intros -> ->. Qed.

Lemma stage2_returns {A B} (m : io A) (k : A -> io B)
    (w w1 w2 : world) (a : A) (e : exn) :
  m w = (Ok a, w1) -> k a w1 = (Raise e, w2) ->
  match bind m k w with (Ok _, _) => true | (Raise _, _) => false end = true ->
  False.
Proof. unfold bind. by intros -> ->. Qed.

(** The numeric file of the same version, run in both modes. *)
Lemma v2_int8_runs :
  run_loadibw LittleEndian (v2_int8 pad_01) true
  = (Raise (ValueError (MsgHex "01 00 00 00 00 00 00 00 00 00 00 00 00 00 00 00")),
     {| file := list_byte_of_string " hi "; stderr := [] |})
  /\ returned_shape (run_loadibw LittleEndian (v2_int8 pad_01) false) = Some [16]
  /\ returned_shape (run_loadibw LittleEndian (v2_int8 (zeros 16)) true) = Some [16]
  /\ stderr (run_loadibw LittleEndian (v2_int8 (zeros 16)) true).2 = [].
Proof. split; [|split; [|split]]; by vm_compute. Qed.

(** A version-5 text wave: the strings are split as in the splitter's
    example, and although the extents are (3, 1, 0, 0) the returned array
    has the shape (3), the reshaped array being dropped. *)
Lemma v5_text_abcde_runs :
  returned_data (run_loadibw LittleEndian v5_text_abcde true)
  = Some (Strings (map list_byte_of_string ["a"; "bc"; "de"]%string))
  /\ returned_wave_info (run_loadibw LittleEndian v5_text_abcde true) "nDim"
     = Some (PSeq [PInt 3; PInt 1; PInt 0; PInt 0])
  /\ returned_shape (run_loadibw LittleEndian v5_text_abcde true) = Some [3].
Proof. split; [|split]; by vm_compute. Qed.

(** ** Record descriptor engine: the round trip of one-dimensional records *)

Lemma byte_to_of_Z (z : Z) : byte_to_Z (byte_of_Z z) = z mod 256.
Proof.
  unfold byte_to_Z, byte_of_Z.
  assert (Hr : 0 <= z mod 256 < 256) by (apply Z.mod_pos_bound; lia).
  destruct (Byte.of_N (Z.to_N (z mod 256))) as [x|] eqn:E.
  - apply Byte.to_of_N in E. rewrite E. lia.
  - apply Byte.of_N_None_iff in E. lia.
Qed.

Lemma Z_to_le_length (n : nat) (z : Z) : length (Z_to_le n z) = n.
Proof. revert z. induction n as [|n IH]; intros z; simpl; [done|by rewrite IH]. Qed.

Lemma le_to_Z_to_le (n : nat) (z : Z) :
  0 <= z < 2 ^ (8 * Z.of_nat n) -> le_to_Z (Z_to_le n z) = z.
Proof.
  revert z. induction n as [|n IH]; intros z Hz.
  - simpl in *. lia.
  - simpl. rewrite byte_to_of_Z.
    replace (8 * Z.of_nat (S n)) with (8 + 8 * Z.of_nat n) in Hz by lia.
    rewrite Z.pow_add_r in Hz by lia. change (2 ^ 8) with 256 in Hz.
    rewrite IH.
    + pose proof (Z.div_mod z 256). lia.
    + split; [apply Z.div_pos; lia|]. apply Z.div_lt_upper_bound; lia.
Qed.

Lemma unsigned_round_trip (e : endian) (n : nat) (z : Z) :
  0 <= z < 2 ^ (8 * Z.of_nat n) ->
  bytes_to_unsigned e (unsigned_to_bytes e n z) = z
  /\ length (unsigned_to_bytes e n z) = n.
Proof.
  intros Hz. unfold bytes_to_unsigned, unsigned_to_bytes.
  destruct e; rewrite ?rev_involutive, ?length_rev, Z_to_le_length,
    le_to_Z_to_le; done.
Qed.

Lemma to_signed_mod (n : nat) (z : Z) :
  (0 < n)%nat ->
  - 2 ^ (8 * Z.of_nat n - 1) <= z < 2 ^ (8 * Z.of_nat n - 1) ->
  to_signed n (z mod 2 ^ (8 * Z.of_nat n)) = z.
Proof.
  intros Hn Hz. unfold to_signed.
  assert (Hp : 2 ^ (8 * Z.of_nat n) = 2 * 2 ^ (8 * Z.of_nat n - 1)).
  { rewrite <- Z.pow_succ_r by lia. f_equal. lia. }
  assert (0 < 2 ^ (8 * Z.of_nat n - 1)) by (apply Z.pow_pos_nonneg; lia).
  destruct (Z.le_gt_cases 0 z) as [Hpos|Hneg].
  - rewrite Z.mod_small by lia.
    destruct (Z.ltb_spec z (2 ^ (8 * Z.of_nat n - 1))); lia.
  - replace (z mod 2 ^ (8 * Z.of_nat n)) with (z + 2 ^ (8 * Z.of_nat n)).
    + destruct (Z.ltb_spec (z + 2 ^ (8 * Z.of_nat n))
                  (2 ^ (8 * Z.of_nat n - 1))); lia.
    + symmetry. rewrite <- (Z.mod_add z 1) by lia.
      rewrite Z.mod_small; lia.
Qed.

Lemma unsigned_to_bytes_length (e : endian) (n : nat) (z : Z) :
  length (unsigned_to_bytes e n z) = n.
Proof.
  unfold unsigned_to_bytes. destruct e; by rewrite ?length_rev, Z_to_le_length.
Qed.

(** One format character: what [pack] wrote has the size of the format,
    and it is what is unpacked, for a float that is exact. *)
Lemma unpack_pack_one (e : endian) (c : fmt) (v : pyval) (bs : list byte) :
  pack_one e c v = Ok bs ->
  (exact_float v -> unpack_one e c bs = v) /\ length bs = fmt_size c.
Proof.
  assert (Hs : forall n, (0 < n)%nat ->
                pack_signed e n v = Ok bs ->
                PInt (bytes_to_signed e bs) = v /\ length bs = n).
  { intros n Hn. unfold pack_signed. destruct v as [z| | |]; try done.
    destruct (Z.leb_spec (- 2 ^ (8 * Z.of_nat n - 1)) z); [|done].
    destruct (Z.ltb_spec z (2 ^ (8 * Z.of_nat n - 1))); [|done].
    simpl. intros [= <-].
    assert (Hm : 0 <= z mod 2 ^ (8 * Z.of_nat n) < 2 ^ (8 * Z.of_nat n))
      by (apply Z.mod_pos_bound, Z.pow_pos_nonneg; lia).
    destruct (unsigned_round_trip e n _ Hm) as [Hu Hl].
    unfold bytes_to_signed. rewrite Hu, Hl, to_signed_mod by lia. done. }
  assert (Hu : forall n,
                pack_unsigned e n v = Ok bs ->
                PInt (bytes_to_unsigned e bs) = v /\ length bs = n).
  { intros n. unfold pack_unsigned. destruct v as [z| | |]; try done.
    destruct (Z.leb_spec 0 z); [|done].
    destruct (Z.ltb_spec z (2 ^ (8 * Z.of_nat n))); [|done].
    simpl. intros [= <-].
    destruct (unsigned_round_trip e n z) as [-> ->]; done. }
  assert (Hf : pack_float e Single 4 v = Ok bs ->
               (exact_float v ->
                PFloat Single (quiet32 (bytes_to_unsigned e bs)) = v)
               /\ length bs = 4%nat).
  { unfold pack_float. destruct v as [|w' bits| |]; try done.
    case_bool_decide; [|done]. subst w'.
    destruct (Z.leb_spec 0 bits); [|done].
    destruct (Z.ltb_spec bits (2 ^ (8 * Z.of_nat 4))); [|done].
    simpl. intros [= <-]. split; [|apply unsigned_to_bytes_length].
    intros Hq. rewrite Hq.
    destruct (unsigned_round_trip e 4 bits) as [-> _]; [done|].
    by rewrite Hq. }
  assert (Hd : pack_float e Double 8 v = Ok bs ->
               PFloat Double (bytes_to_unsigned e bs) = v /\ length bs = 8%nat).
  { unfold pack_float. destruct v as [|w' bits| |]; try done.
    case_bool_decide; [|done]. subst w'.
    destruct (Z.leb_spec 0 bits); [|done].
    destruct (Z.ltb_spec bits (2 ^ (8 * Z.of_nat 8))); [|done].
    simpl. intros [= <-].
    destruct (unsigned_round_trip e 8 bits) as [-> ->]; done. }
  destruct c; simpl; try exact Hf;
    try (intros H; apply Hs in H as [? ?]; [done|lia]);
    try (intros H; apply Hu in H as [? ?]; done);
    try (intros H; apply Hd in H as [? ?]; done);
    try done.
  destruct v as [| |[|x [|? ?]]|]; try done. by intros [= <-].
Qed.

Lemma unpack_pack_codes (e : endian) (codes : list fmt) (args : list pyval)
    (bs : list byte) :
  pack_codes e codes args = Ok bs ->
  (Forall exact_float args -> unpack_codes e codes bs = args)
  /\ length bs = codes_size codes.
Proof.
  revert args bs. induction codes as [|c codes IH]; intros args bs.
  - destruct args; [|done]. by intros [= <-].
  - destruct args as [|a args]; [done|]. simpl.
    destruct (pack_one e c a) as [b|] eqn:Hb; [|done]. simpl.
    destruct (pack_codes e codes args) as [bs'|] eqn:Hbs; [|done]. simpl.
    intros [= <-].
    apply unpack_pack_one in Hb as [Hb Hlen].
    apply IH in Hbs as [Hbs Hlen'].
    rewrite take_app_length', drop_app_length', length_app by done.
    split; [|lia].
    intros [Ha Hargs]%Forall_cons. by rewrite Hb, Hbs.
Qed.


Lemma map_numpy_item (l : list pyval) :
  Forall (fun x => numpy_item x = x) l -> map numpy_item l = l.
Proof. induction 1 as [|x l Hx _ IH]; [done|]. simpl. by rewrite Hx, IH. Qed.



(** What is not kept.  A NUL character of a repeated ['c'] field is packed,
    and comes back from [unpack] as the empty string, which [pack] refuses:
    so it is with the values [unpack] reads from a WaveHeader2 of zero
    bytes.  The bytes of a signalling NaN in an ['f'] field are read as the
    quiet NaN, and written back as such. *)
Lemma round_trip_not_kept (e : endian) :
  let c := Structure.__init__ "c" [ FldN Fc "c" [2%nat] ] Little in
  let f := Structure.__init__ "f" [ Fld Ff "f" ] Little in
  Structure.pack e c [ PSeq [PStr [x00]; PStr [x61]] ] = Ok [x00; x61]
  /\ Structure.unpack e c [x00; x61] = Ok [ PSeq [PStr []; PStr [x61]] ]
  /\ Structure.pack e c [ PSeq [PStr []; PStr [x61]] ] = Raise StructError
  /\ (values <- Structure.unpack e WaveHeader2 (zeros 126) ;;
      Structure.pack e WaveHeader2 values)%result
     = Raise StructError
  /\ Structure.unpack e f [x01; x00; x80; x7f] = Ok [ PFloat Single 0x7fc00001 ]
  /\ Structure.pack e f [ PFloat Single 0x7fc00001 ] = Ok [x01; x00; xc0; x7f].
Proof. by destruct e; vm_compute. Qed.

(** The round trip at the bounds of the signed and unsigned 16- and 32-bit
    fields, little- and big-endian. *)
Lemma round_trip_bounds (e : endian) :
  let s := Structure.__init__ "bounds"
             [ Fld Fh "a"; Fld FH "b"; FldN Fl "c" [2%nat]; FldN FL "d" [2%nat] ]
             Native in
  let values := [ PInt (-32768); PInt 65535;
                  PSeq [PInt (-2147483648); PInt 2147483647];
                  PSeq [PInt 0; PInt 4294967295] ] in
  (bs <- Structure.pack e s values ;; Structure.unpack e s bs)%result
  = Ok values.
Proof. by destruct e; vm_compute. Qed.

(** * Further properties of the code *)

(** ** Record descriptor engine: sizes, offsets and the reverse round trip *)

Lemma unpack_codes_prefix (e : endian) (codes : list fmt) (body post : list byte) :
  (codes_size codes <= length body)%nat ->
  unpack_codes e codes (body ++ post) = unpack_codes e codes body.
Proof.
  revert body. induction codes as [|c codes IH]; intros body Hlen; [done|].
  simpl in *. rewrite take_app_le, drop_app_le by lia.
  rewrite IH; [done|]. rewrite length_drop. lia.
Qed.

(** X1: [unpack_from] at an offset reads the record's bytes there and nothing
    else: it agrees with [unpack] on that slice of the buffer. *)
Theorem unpack_from_is_unpack_of_slice (sys : endian) (self : Structure.t)
    (pre body post : list byte) :
  length body = Structure.size self ->
  Structure.unpack_from sys self (pre ++ body ++ post) (length pre)
  = Structure.unpack sys self body.
Proof.
  intros Hlen. unfold Structure.size in Hlen.
  unfold Structure.unpack_from, Structure.unpack, Struct_unpack_from,
    Struct_unpack.
  rewrite (bool_decide_eq_true_2 _ Hlen), !length_app.
  destruct (Z.ltb_spec
              (Z.of_nat (length pre + (length body + length post))
               - Z.of_nat (length pre))
              (Z.of_nat (Struct_size (Structure.format self)))); [lia|].
  rewrite drop_app_length, unpack_codes_prefix; [done|].
  unfold Struct_size in Hlen. lia.
Qed.

Lemma unpack_from_is_unpack_of_slice_witness :
  Structure.unpack_from LittleEndian BinHeader1
    ([xff] ++ (le 2 1 ++ le 4 134 ++ le 2 (-135)) ++ [xee; xdd]) 1
  = Structure.unpack LittleEndian BinHeader1 (le 2 1 ++ le 4 134 ++ le 2 (-135)).
Proof.
  apply (unpack_from_is_unpack_of_slice LittleEndian BinHeader1 [xff]
           (le 2 1 ++ le 4 134 ++ le 2 (-135)) [xee; xdd]).
  reflexivity.
Defined.

Lemma le_to_Z_range (bs : list byte) :
  0 <= le_to_Z bs < 2 ^ (8 * Z.of_nat (length bs)).
Proof.
  induction bs as [|x bs IH]; simpl le_to_Z.
  - simpl. lia.
  - pose proof (byte_to_Z_range x).
    replace (8 * Z.of_nat (length (x :: bs)))
      with (8 + 8 * Z.of_nat (length bs)) by (simpl length; lia).
    rewrite Z.pow_add_r by lia. change (2 ^ 8) with 256. lia.
Qed.

Lemma Z_to_le_to_Z (bs : list byte) : Z_to_le (length bs) (le_to_Z bs) = bs.
Proof.
  induction bs as [|x bs IH]; [done|].
  pose proof (byte_to_Z_range x). pose proof (le_to_Z_range bs).
  assert (Hm : (byte_to_Z x + 256 * le_to_Z bs) mod 256 = byte_to_Z x).
  { replace (byte_to_Z x + 256 * le_to_Z bs)
      with (byte_to_Z x + le_to_Z bs * 256) by lia.
    rewrite Z.mod_add by lia. apply Z.mod_small. lia. }
  assert (Hd : (byte_to_Z x + 256 * le_to_Z bs) / 256 = le_to_Z bs).
  { replace (byte_to_Z x + 256 * le_to_Z bs)
      with (byte_to_Z x + le_to_Z bs * 256) by lia.
    rewrite Z.div_add by lia. rewrite Z.div_small by lia. lia. }
  simpl. rewrite Hd, IH. f_equal.
  unfold byte_of_Z. rewrite Hm.
  rewrite <- (byte_of_to_Z x) at 2. unfold byte_of_Z.
  by rewrite Z.mod_small by lia.
Qed.

Lemma bytes_round_trip (e : endian) (bs : list byte) :
  unsigned_to_bytes e (length bs) (bytes_to_unsigned e bs) = bs
  /\ 0 <= bytes_to_unsigned e bs < 2 ^ (8 * Z.of_nat (length bs)).
Proof.
  unfold unsigned_to_bytes, bytes_to_unsigned. destruct e.
  - split; [apply Z_to_le_to_Z|apply le_to_Z_range].
  - rewrite <- (length_rev bs), Z_to_le_to_Z, rev_involutive.
    split; [done|apply le_to_Z_range].
Qed.

Lemma to_signed_range (n : nat) (u : Z) :
  (0 < n)%nat -> 0 <= u < 2 ^ (8 * Z.of_nat n) ->
  - 2 ^ (8 * Z.of_nat n - 1) <= to_signed n u < 2 ^ (8 * Z.of_nat n - 1)
  /\ to_signed n u mod 2 ^ (8 * Z.of_nat n) = u.
Proof.
  intros Hn Hu. unfold to_signed.
  assert (Hp : 2 ^ (8 * Z.of_nat n) = 2 * 2 ^ (8 * Z.of_nat n - 1)).
  { rewrite <- Z.pow_succ_r by lia. f_equal. lia. }
  assert (0 < 2 ^ (8 * Z.of_nat n - 1)) by (apply Z.pow_pos_nonneg; lia).
  destruct (Z.ltb_spec u (2 ^ (8 * Z.of_nat n - 1))).
  - split; [lia|]. apply Z.mod_small. lia.
  - split; [lia|].
    rewrite <- (Z.mod_add _ 1) by lia.
    replace (u - 2 ^ (8 * Z.of_nat n) + 1 * 2 ^ (8 * Z.of_nat n)) with u by lia.
    apply Z.mod_small. lia.
Qed.

(** One format character, other than ['f']; ['P'] never reaches [struct]. *)
Lemma pack_unpack_one (e : endian) (c : fmt) (bs : list byte) :
  c <> FP -> c <> Ff -> length bs = fmt_size c ->
  pack_one e c (unpack_one e c bs) = Ok bs.
Proof.
  intros Hc Hf Hlen.
  destruct (bytes_round_trip e bs) as [Hb Hr].
  assert (Hs : (0 < fmt_size c)%nat ->
               pack_signed e (fmt_size c) (PInt (bytes_to_signed e bs)) = Ok bs).
  { intros Hn. unfold pack_signed, bytes_to_signed. rewrite Hlen in *.
    destruct (to_signed_range (fmt_size c) _ Hn Hr) as [[Hlo Hhi] Hmod].
    destruct (Z.leb_spec (- 2 ^ (8 * Z.of_nat (fmt_size c) - 1))
                (to_signed (fmt_size c) (bytes_to_unsigned e bs))); [|lia].
    destruct (Z.ltb_spec (to_signed (fmt_size c) (bytes_to_unsigned e bs))
                (2 ^ (8 * Z.of_nat (fmt_size c) - 1))); [|lia].
    simpl. by rewrite Hmod, Hb. }
  assert (Hu : pack_unsigned e (fmt_size c) (PInt (bytes_to_unsigned e bs))
               = Ok bs).
  { unfold pack_unsigned. rewrite Hlen in *.
    destruct (Z.leb_spec 0 (bytes_to_unsigned e bs)); [|lia].
    destruct (Z.ltb_spec (bytes_to_unsigned e bs)
                (2 ^ (8 * Z.of_nat (fmt_size c)))); [|lia].
    simpl. by rewrite Hb. }
  assert (Hd : pack_float e Double (fmt_size c)
                 (PFloat Double (bytes_to_unsigned e bs))
               = Ok bs).
  { unfold pack_float. rewrite Hlen in *.
    rewrite bool_decide_eq_true_2 by done.
    destruct (Z.leb_spec 0 (bytes_to_unsigned e bs)); [|lia].
    destruct (Z.ltb_spec (bytes_to_unsigned e bs)
                (2 ^ (8 * Z.of_nat (fmt_size c)))); [|lia].
    simpl. by rewrite Hb. }
  destruct c; try done; try (apply Hs; simpl; lia); try apply Hu;
    try apply Hd.
  simpl in Hlen. by destruct bs as [|x [|? ?]].
Qed.

Lemma pack_unpack_codes (e : endian) (codes : list fmt) (bs : list byte) :
  FP ∉ codes -> Ff ∉ codes -> length bs = codes_size codes ->
  pack_codes e codes (unpack_codes e codes bs) = Ok bs.
Proof.
  revert bs. induction codes as [|c codes IH]; intros bs Hp Hf Hlen.
  - by destruct bs.
  - apply not_elem_of_cons in Hp as [Hc Hp].
    apply not_elem_of_cons in Hf as [Hc' Hf]. simpl in *.
    rewrite pack_unpack_one; [|done|done|rewrite length_take; lia]. simpl.
    rewrite IH; [|done|done|rewrite length_drop; lia]. simpl.
    by rewrite take_drop.
Qed.

Lemma join_format_no_P (fields : list Field.t) :
  FP ∉ Structure.join_format fields.
Proof.
  unfold Structure.join_format. intros H.
  apply list_elem_of_fmap in H as (c & Hc & _). by destruct c.
Qed.

Lemma join_format_no_f (fields : list Field.t) :
  Forall exact_field fields -> Ff ∉ Structure.join_format fields.
Proof.
  induction 1 as [|f fields [Hf _] _ IH]; [apply not_elem_of_nil|].
  rewrite join_format_cons. apply not_elem_of_app. split; [|done].
  unfold field_codes. intros Hin. apply list_elem_of_In, repeat_spec in Hin.
  destruct (Field.format f); done.
Qed.

Lemma join_format_length_cons (f : Field.t) (fields : list Field.t) :
  length (Structure.join_format (f :: fields))
  = (Field.total_count f + length (Structure.join_format fields))%nat.
Proof.
  rewrite join_format_cons, length_app. unfold field_codes.
  by rewrite repeat_length.
Qed.

(** What [struct] unpacks is, but for the characters of a ['c'], what
    [numpy.array] hands back unchanged. *)
Lemma unpack_codes_items (e : endian) (codes : list fmt) (bs : list byte) :
  Forall2 (fun c v => c <> Fc -> numpy_item v = v) codes
    (unpack_codes e codes bs).
Proof.
  revert bs. induction codes as [|c codes IH]; intros bs; [constructor|].
  simpl. constructor; [|apply IH]. by destruct c.
Qed.

Lemma unflatten_flatten (fields : list Field.t) :
  forallb wf_field fields = true ->
  Forall one_dimensional fields ->
  Forall exact_field fields ->
  forall pre flat post args,
    Forall2 (fun c v => c <> Fc -> numpy_item v = v)
      (Structure.join_format fields) flat ->
    Structure.unflatten_loop fields (pre ++ flat ++ post) (length pre) = Ok args ->
    Structure.flatten_loop args fields = Ok flat.
Proof.
  induction fields as [|f fields IH];
    intros Hwf Hdim Hexact pre flat post args Hitems Hun.
  - simpl in Hun. injection Hun as <-.
    by apply Forall2_nil_inv_l in Hitems as ->.
  - simpl in Hwf. apply andb_true_iff in Hwf as [Hf Hwf].
    apply wf_field_spec in Hf as [Hprod Hpos].
    apply Forall_cons in Hdim as [[n Hn] Hdim].
    apply Forall_cons in Hexact as [[_ Hchar] Hexact].
    rewrite join_format_cons in Hitems.
    apply Forall2_app_inv_l in Hitems as (l1 & l2 & H1 & H2 & ->).
    assert (Hl1 : length l1 = Field.total_count f).
    { apply Forall2_length in H1. unfold field_codes in H1.
      by rewrite repeat_length in H1. }
    cbn [Structure.unflatten_loop] in Hun.
    apply rbind_Ok in Hun as (v & Hv & Hun).
    apply rbind_Ok in Hun as (rest & Hrest & [= <-]).
    replace (pre ++ (l1 ++ l2) ++ post) with ((pre ++ l1) ++ l2 ++ post)
      in Hrest by (by rewrite <- !app_assoc).
    rewrite <- Hl1, <- length_app in Hrest.
    apply IH in Hrest; [|done..].
    cbn [Structure.flatten_loop]. rewrite Hrest.
    revert Hv.
    destruct (Nat.ltb_spec 1 (Field.total_count f)) as [Hmany|Hone]; intros Hv.
    + rewrite drop_app_length, <- app_assoc, take_app_length' in Hv by done.
      unfold reshape in Hv.
      rewrite bool_decide_eq_true_2 in Hv by congruence.
      rewrite Hn in Hv. cbn [reshape_rows] in Hv. injection Hv as <-.
      rewrite map_numpy_item; [done|].
      assert (Hc : Structure.replace_P (Field.format f) <> Fc).
      { intros Hc. destruct (Field.format f) eqn:E; try done.
        specialize (Hchar eq_refl). lia. }
      clear -H1 Hc. unfold field_codes in H1.
      remember (repeat _ _) as cs eqn:Hcs.
      assert (Hall : Forall (fun c => c = Structure.replace_P (Field.format f)) cs).
      { subst cs. apply Forall_forall. intros c Hin.
        by apply list_elem_of_In, repeat_spec in Hin. }
      clear Hcs. induction H1 as [|c x cs l Hx _ IHl]; [constructor|].
      apply Forall_cons in Hall as [-> Hall]. constructor; auto.
    + destruct l1 as [|a [|? ?]]; simpl in Hl1; try lia.
      rewrite lookup_app_r, Nat.sub_diag in Hv by done.
      cbn [app lookup list_lookup] in Hv. by injection Hv as <-.
Qed.

Lemma pack_unpack_values (sys : endian) (self : Structure.t)
    (bs : list byte) (args : list pyval) :
  wf_structure self ->
  Forall one_dimensional (Structure.fields self) ->
  Forall exact_field (Structure.fields self) ->
  Structure.unpack sys self bs = Ok args ->
  Structure.pack sys self args = Ok bs.
Proof.
  intros (Hcodes & Hwf & _) Hdim Hexact.
  unfold Structure.unpack, Structure.pack, Struct_unpack, Struct_pack,
    Structure._unflatten_args, Structure._flatten_args, Struct_size.
  case_bool_decide as Hlen; [|done]. cbn [rbind]. intros Hun.
  pose proof (unflatten_flatten _ Hwf Hdim Hexact []
                (unpack_codes (resolve sys (st_order (Structure.format self)))
                   (st_codes (Structure.format self)) bs) [] args) as Hflat.
  rewrite app_nil_r in Hflat. simpl in Hflat.
  rewrite Hflat; [| |done].
  - cbn [rbind]. apply pack_unpack_codes; [| |done]; rewrite Hcodes.
    + apply join_format_no_P.
    + by apply join_format_no_f.
  - rewrite <- Hcodes. apply unpack_codes_items.
Qed.

(** X2: For a well-formed record whose repeated fields are one-dimensional
    and whose fields are exact (no ['f'] field, no repeated ['c'] field):
    packing the values that [unpack] read from a string gives the string
    back. *)
Theorem pack_of_unpacked_one_dimensional (sys : endian) (self : Structure.t)
    (bs : list byte) (args : list pyval) :
  wf_structure self ->
  Forall one_dimensional (Structure.fields self) ->
  Forall exact_field (Structure.fields self) ->
  Structure.unpack sys self bs = Ok args ->
  Structure.pack sys self args = Ok bs.
Proof. apply pack_unpack_values. Qed.

Lemma pack_of_unpacked_one_dimensional_witness :
  Structure.pack LittleEndian BinHeader3
    [PInt 3; PInt 142; PInt (-1); PInt 65536; PInt 0; PInt (-32768)]
  = Ok (le 2 3 ++ le 2 142 ++ le 4 (-1) ++ le 4 65536 ++ zeros 4 ++ le 2 (-32768)).
Proof.
  apply (pack_of_unpacked_one_dimensional LittleEndian BinHeader3).
  - wf_table.
  - repeat constructor; by eexists.
  - repeat constructor; done.
  - vm_compute. reflexivity.
Defined.

(** ** What [loadibw] does to the stream and to [sys.stderr] *)

Section Keeps.

Variable R : world -> world -> Prop.
Hypothesis R_refl : forall w, R w w.
Hypothesis R_trans : forall a b c, R a b -> R b c -> R a c.
Hypothesis R_read : forall size, keeps R (read size).

Lemma keeps_ret {A} (a : A) : keeps R (ret a).
Proof. intros w. apply R_refl. Qed.

Lemma keeps_raise {A} (e : exn) : keeps R (@raise A e).
Proof. intros w. apply R_refl. Qed.

Lemma keeps_lift {A} (r : result A) : keeps R (lift r).
Proof. intros w. apply R_refl. Qed.

Lemma keeps_bind {A B} (m : io A) (k : A -> io B) :
  keeps R m -> (forall a, keeps R (k a)) -> keeps R (bind m k).
Proof.
  intros Hm Hk w. unfold bind. specialize (Hm w).
  destruct (m w) as [[a|e] w1]; simpl in *; [|done].
  eapply R_trans; [exact Hm|apply Hk].
Qed.

Lemma keeps_for_each {A S} (l : list A) (body : S -> A -> io S) (acc : S) :
  (forall acc x, keeps R (body acc x)) -> keeps R (for_each l body acc).
Proof.
  intros Hbody. revert acc. induction l as [|x l IH]; intros acc; simpl.
  - apply keeps_ret.
  - apply keeps_bind; [apply Hbody|apply IH].
Qed.

Ltac keeps_io :=
  repeat first
    [ apply keeps_ret | apply keeps_raise | apply keeps_lift | apply R_read
    | apply keeps_bind; [|intros ?]
    | apply keeps_for_each; intros ? ?
    | match goal with
      | |- keeps _ (if ?c then _ else _) => destruct c
      end
    | progress cbv zeta ].

Lemma keeps_read_stripped (size : Z) : keeps R (read_stripped size).
Proof. unfold read_stripped. keeps_io. Qed.

Lemma keeps_preamble (sys : endian) : keeps R (loadibw_preamble sys).
Proof. unfold loadibw_preamble. keeps_io. Qed.

Lemma keeps_headers (sys : endian) : keeps R (loadibw_headers sys).
Proof.
  unfold loadibw_headers. apply keeps_bind; [apply keeps_preamble|].
  intros p. keeps_io.
Qed.

Lemma keeps_data (h : headers) : keeps R (loadibw_data h).
Proof. unfold loadibw_data. keeps_io. Qed.

Lemma keeps_post_data (strict : bool) (h : headers) :
  (forall pad_b, keeps R (assert_null pad_b strict)) ->
  keeps R (loadibw_post_data strict h).
Proof.
  intros Hnull. unfold loadibw_post_data.
  repeat first
    [ apply Hnull | apply keeps_read_stripped | progress keeps_io ].
Qed.

Lemma keeps_loadibw (sys : endian) (strict : bool) :
  (forall pad_b, keeps R (assert_null pad_b strict)) ->
  keeps R (loadibw sys strict).
Proof.
  intros Hnull. unfold loadibw.
  apply keeps_bind; [apply keeps_headers|]. intros h.
  apply keeps_bind; [apply keeps_data|]. intros data.
  apply keeps_bind; [by apply keeps_post_data|]. intros bi.
  keeps_io.
Qed.

End Keeps.

Lemma reads_only_refl (w : world) : reads_only w w.
Proof. by split. Qed.

Lemma reads_only_trans (a b c : world) :
  reads_only a b -> reads_only b c -> reads_only a c.
Proof.
  intros [H1 E1] [H2 E2]. split; [|congruence].
  by etrans.
Qed.

Lemma reads_only_read (size : Z) : keeps reads_only (read size).
Proof.
  intros w. unfold read. simpl. split; [|done]. apply suffix_drop.
Qed.

(** X28: In strict mode [loadibw] writes nothing to [sys.stderr], whether it
    returns or raises, and what it leaves of the stream is a suffix of what
    it was given. *)
Theorem loadibw_strict_reads_only (sys : endian) (w : world) :
  reads_only w (loadibw sys true w).2.
Proof.
  apply (keeps_loadibw reads_only reads_only_refl reads_only_trans
           reads_only_read sys true).
  intros pad_b w0. unfold assert_null.
  destruct (negb (bool_decide (pad_b = [])) && negb (max_byte pad_b =? 0));
    apply reads_only_refl.
Qed.

Lemma keeps_seq {A B} (R1 R2 R3 : world -> world -> Prop)
    (m : io A) (k : A -> io B) :
  (forall a b, R1 a b -> R3 a b) ->
  (forall a b c, R1 a b -> R2 b c -> R3 a c) ->
  keeps R1 m -> (forall a, keeps R2 (k a)) -> keeps R3 (bind m k).
Proof.
  intros Hsub Hcomp Hm Hk w. unfold bind. specialize (Hm w).
  destruct (m w) as [[a|e] w1]; simpl in *; [|by apply Hsub].
  eapply Hcomp; [exact Hm|apply Hk].
Qed.

Lemma reads_only_warns (a b : world) :
  reads_only a b -> reads_and_warns_once a b.
Proof. intros [H E]. split; [done|by left]. Qed.

Lemma reads_then_warns (a b c : world) :
  reads_only a b -> reads_and_warns_once b c -> reads_and_warns_once a c.
Proof.
  intros [H1 E1] [H2 E2]. split; [by etrans|]. by rewrite <- E1.
Qed.

Lemma warns_then_reads (a b c : world) :
  reads_and_warns_once a b -> reads_only b c -> reads_and_warns_once a c.
Proof.
  intros [H1 E1] [H2 E2]. split; [by etrans|]. by rewrite E2.
Qed.

Lemma assert_null_warns_once (pad_b : list byte) (strict : bool) :
  keeps reads_and_warns_once (assert_null pad_b strict).
Proof.
  intros w. unfold assert_null.
  destruct (negb (bool_decide (pad_b = [])) && negb (max_byte pad_b =? 0));
    [destruct strict|]; simpl; (split; [done|]); eauto.
Qed.

Lemma post_data_warns_once (strict : bool) (h : headers) :
  keeps reads_and_warns_once (loadibw_post_data strict h).
Proof.
  pose proof (keeps_read_stripped reads_only reads_only_read) as Hstripped.
  assert (Hpad : forall k : gmap string pyval -> io (gmap string pyval),
             (forall bi, keeps reads_only (k bi)) ->
             keeps reads_and_warns_once
               (pad_b <- read 16 ;; assert_null pad_b strict ;;;
                k (bin_info h))%io).
  { intros k Hk.
    apply (keeps_seq reads_only reads_and_warns_once);
      [apply reads_only_warns|apply reads_then_warns
      |apply reads_only_read|].
    intros pad_b.
    apply (keeps_seq reads_and_warns_once reads_only);
      [done|apply warns_then_reads|apply assert_null_warns_once|].
    intros _. apply Hk. }
  assert (Hquiet : forall m : io (gmap string pyval),
             keeps reads_only m -> keeps reads_and_warns_once m).
  { intros m Hm w. apply reads_only_warns, Hm. }
  unfold loadibw_post_data. cbv zeta.
  destruct (version h =? 1); [apply Hquiet, keeps_ret, reads_only_refl|].
  destruct (version h =? 2).
  { apply (Hpad (fun bin_info =>
                   noteSize <- lift (getint bin_info "noteSize") ;;
                   note <- read_stripped noteSize ;;
                   ret (<[ "note" := note ]> bin_info))%io).
    intros bi.
    repeat first
      [ apply Hstripped
      | apply (keeps_bind _ reads_only_trans); [|intros ?]
      | apply (keeps_lift _ reads_only_refl)
      | apply (keeps_ret _ reads_only_refl) ]. }
  destruct (version h =? 3).
  { apply (Hpad (fun bin_info =>
                   noteSize <- lift (getint bin_info "noteSize") ;;
                   note <- read_stripped noteSize ;;
                   let bin_info := <[ "note" := note ]> bin_info in
                   formulaSize <- lift (getint bin_info "formulaSize") ;;
                   formula <- read_stripped formulaSize ;;
                   ret (<[ "formula" := formula ]> bin_info))%io).
    intros bi. cbv zeta.
    repeat first
      [ apply Hstripped
      | apply (keeps_bind _ reads_only_trans); [|intros ?]
      | apply (keeps_lift _ reads_only_refl)
      | apply (keeps_ret _ reads_only_refl) ]. }
  apply Hquiet.
  repeat first
    [ apply Hstripped
    | apply reads_only_read
    | apply (keeps_bind _ reads_only_trans); [|intros ?]
    | apply (keeps_for_each _ reads_only_refl reads_only_trans); intros ? ?
    | apply (keeps_lift _ reads_only_refl)
    | apply (keeps_ret _ reads_only_refl)
    | match goal with
      | |- keeps _ (if ?c then _ else _) => destruct c
      end
    | progress cbv zeta ].
Qed.

(** X29: In either mode [loadibw] only reads forward in the stream, and all it
    can add to [sys.stderr] is one warning about the padding. *)
Theorem loadibw_reads_and_warns_once (sys : endian) (strict : bool) (w : world) :
  reads_and_warns_once w (loadibw sys strict w).2.
Proof.
  revert w. change (keeps reads_and_warns_once (loadibw sys strict)).
  unfold loadibw.
  apply (keeps_seq reads_only reads_and_warns_once);
    [apply reads_only_warns|apply reads_then_warns
    |apply (keeps_headers _ reads_only_refl reads_only_trans reads_only_read)|].
  intros h.
  apply (keeps_seq reads_only reads_and_warns_once);
    [apply reads_only_warns|apply reads_then_warns
    |apply (keeps_data _ reads_only_refl reads_only_trans reads_only_read)|].
  intros data.
  apply (keeps_seq reads_and_warns_once reads_only);
    [done|apply warns_then_reads|apply post_data_warns_once|].
  intros bi.
  apply (keeps_bind _ reads_only_trans);
    [apply (keeps_lift _ reads_only_refl)|].
  intros ?. apply (keeps_ret _ reads_only_refl).
Qed.

(** ** Strict and lenient mode *)

Lemma assert_null_modes (pad_b : list byte) (w : world) :
  (forall strict, assert_null pad_b strict w = (Ok tt, w))
  \/ assert_null pad_b true w
     = (Raise (ValueError (MsgHex (hex_bytes pad_b (Some 1%nat)))), w).
Proof.
  unfold assert_null.
  destruct (negb (bool_decide (pad_b = [])) && negb (max_byte pad_b =? 0));
    [by right|left; by intros []].
Qed.

Lemma post_data_strict_lenient (h : headers) (w w' : world)
    (r : result (gmap string pyval)) :
  loadibw_post_data true h w = (r, w') ->
  (forall s, r <> Raise (ValueError (MsgHex s))) ->
  loadibw_post_data false h w = (r, w').
Proof.
  unfold loadibw_post_data. cbv zeta.
  destruct (version h =? 1); [done|].
  assert (Hpad : forall k : io (gmap string pyval),
             (pad_b <- read 16 ;; assert_null pad_b true ;;; k)%io w = (r, w') ->
             (forall s, r <> Raise (ValueError (MsgHex s))) ->
             (pad_b <- read 16 ;; assert_null pad_b false ;;; k)%io w = (r, w')).
  { intros k. unfold bind at 1 3. rewrite read_run. unfold bind.
    destruct (assert_null_modes
                (take (read_count 16 (file w)) (file w))
                {| file := drop (read_count 16 (file w)) (file w);
                   stderr := stderr w |}) as [Hnull|Hnull].
    - by rewrite !Hnull.
    - rewrite Hnull. intros [= <- <-] Hr. exfalso. by eapply Hr. }
  destruct (version h =? 2); [apply Hpad|].
  destruct (version h =? 3); [apply Hpad|].
  done.
Qed.

(** X30: Unless strict mode raises the padding error, lenient mode does exactly
    what strict mode does: the same result or the same exception, and the
    same stream and [sys.stderr] afterwards. *)
Theorem loadibw_lenient_agrees_with_strict (sys : endian) (w w' : world)
    (r : result (array * gmap string pyval * gmap string pyval)) :
  loadibw sys true w = (r, w') ->
  (forall s, r <> Raise (ValueError (MsgHex s))) ->
  loadibw sys false w = (r, w').
Proof.
  unfold loadibw. unfold bind at 1 5.
  destruct (loadibw_headers sys w) as [[h|e] w1]; [|done].
  unfold bind at 1 4.
  destruct (loadibw_data h w1) as [[data|e] w2]; [|done].
  unfold bind at 1 3.
  destruct (loadibw_post_data true h w2) as [[bi|e] w3] eqn:Hpost.
  - apply post_data_strict_lenient in Hpost; [|done]. by rewrite Hpost.
  - intros [= <- <-] Hr.
    apply post_data_strict_lenient in Hpost;
      [|intros s [= ->]; by eapply Hr].
    by rewrite Hpost.
Qed.

Lemma loadibw_lenient_agrees_with_strict_witness :
  run_loadibw LittleEndian (v2_int8 (zeros 16)) false
  = run_loadibw LittleEndian (v2_int8 (zeros 16)) true.
Proof.
  unfold run_loadibw.
  destruct (loadibw LittleEndian true
              {| file := v2_int8 (zeros 16); stderr := [] |}) as [r w'] eqn:H.
  apply (loadibw_lenient_agrees_with_strict LittleEndian _ w' r H).
  intros s Hs. subst r.
  apply (stage_returns _ _ _ H). by vm_compute.
Defined.

(** ** The machine's byte order and the file's *)

Lemma resolve_fixed (sys sys' : endian) (bo : ByteOrder) :
  bo <> Native -> resolve sys bo = resolve sys' bo.
Proof. by destruct bo. Qed.

Lemma set_byte_order_order (self : Structure.t) (bo : ByteOrder) :
  st_order (Structure.format (Structure.set_byte_order self bo)) = bo.
Proof. unfold Structure.set_byte_order. by case_bool_decide. Qed.

Lemma unpack_dict_from_fixed (sys sys' : endian) (self : Structure.t)
    (buffer : list byte) (offset : nat) :
  st_order (Structure.format self) <> Native ->
  Structure.unpack_dict_from sys self buffer offset
  = Structure.unpack_dict_from sys' self buffer offset.
Proof.
  intros H. unfold Structure.unpack_dict_from, Structure.unpack_from,
    Struct_unpack_from.
  by rewrite (resolve_fixed sys sys' _ H).
Qed.

Lemma checksum_fixed (sys sys' : endian) (buffer : list byte) (bo : ByteOrder)
    (oldcksum numbytes : Z) :
  bo <> Native ->
  checksum sys buffer bo oldcksum numbytes
  = checksum sys' buffer bo oldcksum numbytes.
Proof.
  intros H. unfold checksum, ndarray_int16.
  by rewrite (resolve_fixed sys sys' _ H).
Qed.

Lemma common_version (sys : endian) (bo : ByteOrder) (b0 b1 : byte) :
  (d <- Structure.unpack_dict_from sys
          (Structure.set_byte_order BinHeaderCommon bo) [b0; b1] 0 ;;
   getint d "version")%result
  = Ok (bytes_to_signed (resolve sys bo) [b0; b1]).
Proof. by destruct bo. Qed.

Lemma common_version_twice (sys : endian) (bo : ByteOrder) (b0 b1 : byte) :
  (d <- Structure.unpack_dict_from sys
          (Structure.set_byte_order
             (Structure.set_byte_order BinHeaderCommon Native) bo) [b0; b1] 0 ;;
   getint d "version")%result
  = Ok (bytes_to_signed (resolve sys bo) [b0; b1]).
Proof. by destruct bo. Qed.

(** The header bytes [loadibw] reads, from the first two bytes on. *)
Lemma preamble_two_bytes (sys : endian) (b0 b1 : byte) (rest : list byte)
    (err : list string) :
  loadibw_preamble sys {| file := b0 :: b1 :: rest; stderr := err |}
  = (let version := (resolved_version sys b0 b1).1 in
     let byteOrder := (resolved_version sys b0 b1).2 in
     s <- lift (version_structs version byteOrder) ;;
     more <- read (Z.of_nat (Structure.size s.1.1)
                   + Z.of_nat (Structure.size s.1.2) - 2) ;;
     ret {| p_version := version; p_byteOrder := byteOrder;
            p_bin_struct := s.1.1; p_wave_struct := s.1.2;
            p_checkSumSize := s.2; p_b := [b0; b1] ++ more |})%io
      {| file := rest; stderr := err |}.
Proof.
  unfold loadibw_preamble. cbv zeta.
  unfold bind at 1. rewrite read_run.
  change (read_count _ _) with 2%nat. cbn [file stderr take drop].
  unfold bind at 1, lift at 1.
  change (take 0 rest) with (@nil byte). change (drop 0 rest) with rest.
  rewrite (common_version sys Native b0 b1). cbn [resolve].
  unfold resolved_version. cbv zeta. cbn [fst snd].
  unfold bind at 1.
  destruct (need_to_reorder_bytes (bytes_to_signed sys [b0; b1])).
  - unfold lift at 1. by rewrite common_version_twice.
  - done.
Qed.

Lemma int16_of_low_byte (e : endian) (b0 b1 : byte) :
  Z.land (int16_of e b0 b1) 0xFF
  = byte_to_Z (match e with LittleEndian => b0 | BigEndian => b1 end).
Proof.
  pose proof (byte_to_Z_range b0). pose proof (byte_to_Z_range b1).
  change 0xFF with (Z.ones 8). rewrite Z.land_ones by lia.
  change (2 ^ 8) with 256. unfold int16_of.
  destruct e.
  - destruct (_ <? _).
    + replace (byte_to_Z b0 + 256 * byte_to_Z b1)
        with (byte_to_Z b0 + byte_to_Z b1 * 256) by lia.
      rewrite Z.mod_add by lia. apply Z.mod_small. lia.
    + replace (byte_to_Z b0 + 256 * byte_to_Z b1 - 2 ^ 16)
        with (byte_to_Z b0 + (byte_to_Z b1 - 256) * 256) by lia.
      rewrite Z.mod_add by lia. apply Z.mod_small. lia.
  - destruct (_ <? _).
    + replace (256 * byte_to_Z b0 + byte_to_Z b1)
        with (byte_to_Z b1 + byte_to_Z b0 * 256) by lia.
      rewrite Z.mod_add by lia. apply Z.mod_small. lia.
    + replace (256 * byte_to_Z b0 + byte_to_Z b1 - 2 ^ 16)
        with (byte_to_Z b1 + (byte_to_Z b0 - 256) * 256) by lia.
      rewrite Z.mod_add by lia. apply Z.mod_small. lia.
Qed.

Lemma reorder_low_byte (sys : endian) (b0 b1 : byte) :
  need_to_reorder_bytes (bytes_to_signed sys [b0; b1])
  = bool_decide
      (match sys with LittleEndian => b0 | BigEndian => b1 end = x00).
Proof.
  unfold need_to_reorder_bytes.
  rewrite bytes_to_signed_pair, int16_of_low_byte.
  case_bool_decide as Hz.
  - rewrite Hz. reflexivity.
  - apply Z.eqb_neq. by rewrite byte_to_Z_zero.
Qed.

(** A version field that reads as 1, 2, 3 or 5 has a zero high byte. *)
Lemma valid_version_bytes (e : endian) (b0 b1 : byte) :
  bytes_to_signed e [b0; b1] ∈ [1; 2; 3; 5] ->
  match e with LittleEndian => b1 | BigEndian => b0 end = x00
  /\ bytes_to_signed e [b0; b1]
     = byte_to_Z (match e with LittleEndian => b0 | BigEndian => b1 end).
Proof.
  rewrite bytes_to_signed_pair.
  pose proof (byte_to_Z_range b0). pose proof (byte_to_Z_range b1).
  intros Hv.
  assert (Hsmall : 0 < int16_of e b0 b1 < 6).
  { rewrite !elem_of_cons in Hv. destruct Hv as [Hv|[Hv|[Hv|[Hv|Hv]]]];
      [lia..|by apply elem_of_nil in Hv]. }
  unfold int16_of in *.
  clear Hv. cbv zeta in *.
  destruct e.
  - destruct (Z.ltb_spec (byte_to_Z b0 + 256 * byte_to_Z b1) (2 ^ 15)); [|lia].
    assert (byte_to_Z b1 = 0) as Hz by lia.
    split; [by apply byte_to_Z_zero|lia].
  - destruct (Z.ltb_spec (256 * byte_to_Z b0 + byte_to_Z b1) (2 ^ 15)); [|lia].
    assert (byte_to_Z b0 = 0) as Hz by lia.
    split; [by apply byte_to_Z_zero|lia].
Qed.

Lemma resolved_version_valid (sys : endian) (b0 b1 : byte) :
  (resolved_version sys b0 b1).1 ∈ [1; 2; 3; 5] ->
  resolved_version sys b0 b1
  = (byte_to_Z (if bool_decide (b0 = x00) then b1 else b0),
     if bool_decide (b0 = x00) then Big else Little).
Proof.
  unfold resolved_version. cbv zeta. rewrite reorder_low_byte. cbn [fst].
  destruct sys; case_bool_decide as Hz; cbn [byte_order resolve negb];
    rewrite ?bool_decide_eq_true_2 by done;
    rewrite ?bool_decide_eq_false_2 by done;
    cbn [negb]; intros Hv;
    destruct (valid_version_bytes _ _ _ Hv) as [Hhi Hlo]; rewrite Hlo.
  - done.
  - done.
  - change (byte_order BigEndian true) with Little in *. cbn [resolve] in *.
    rewrite Hlo in Hv.
    assert (b0 <> x00) as Hb0.
    { intros ->. change (byte_to_Z x00) with 0 in Hv.
      rewrite !elem_of_cons in Hv.
      destruct Hv as [?|[?|[?|[?|Hv]]]]; try done.
      by apply elem_of_nil in Hv. }
    by rewrite !bool_decide_eq_false_2.
  - subst b0. by rewrite !bool_decide_eq_true_2.
Qed.

Lemma resolved_version_fixed (b0 b1 : byte) :
  b0 = x00 \/ b1 = x00 ->
  resolved_version LittleEndian b0 b1 = resolved_version BigEndian b0 b1
  \/ ((resolved_version LittleEndian b0 b1).1 = 0
      /\ (resolved_version BigEndian b0 b1).1 = 0).
Proof.
  intros Hz. unfold resolved_version. cbv zeta. rewrite !reorder_low_byte.
  destruct (decide (b0 = x00)) as [->|H0], (decide (b1 = x00)) as [->|H1].
  - right. by vm_compute.
  - left. rewrite bool_decide_eq_true_2 by done.
    rewrite bool_decide_eq_false_2 by done. reflexivity.
  - left. rewrite bool_decide_eq_false_2 by done.
    rewrite bool_decide_eq_true_2 by done. reflexivity.
  - by destruct Hz.
Qed.

Lemma preamble_order (sys : endian) (w w' : world) (p : preamble) :
  loadibw_preamble sys w = (Ok p, w') ->
  p_byteOrder p <> Native
  /\ st_order (Structure.format (p_bin_struct p)) = p_byteOrder p
  /\ st_order (Structure.format (p_wave_struct p)) = p_byteOrder p.
Proof.
  intros H. pose proof (loadibw_preamble_inv _ _ _ _ H) as [Hvs _].
  split.
  - unfold loadibw_preamble in H. io_inv. simpl.
    by destruct sys, (need_to_reorder_bytes _).
  - apply version_structs_inv in Hvs
      as [(_ & -> & ->)|[(_ & -> & ->)|[(_ & -> & ->)|(_ & -> & ->)]]];
      by rewrite !set_byte_order_order.
Qed.

Lemma preamble_short (sys : endian) (w : world) :
  (length (file w) < 2)%nat ->
  loadibw_preamble sys w
  = (Raise StructError, {| file := []; stderr := stderr w |}).
Proof.
  destruct w as [[|b0 [|b1 rest]] err]; simpl; intros Hlen; [done|done|lia].
Qed.

Lemma preamble_fixed (w : world) :
  (forall b0 b1 rest, file w = b0 :: b1 :: rest -> b0 = x00 \/ b1 = x00) ->
  loadibw_preamble LittleEndian w = loadibw_preamble BigEndian w.
Proof.
  destruct w as [[|b0 [|b1 rest]] err]; simpl; intros Hz.
  - by rewrite !preamble_short by (simpl; lia).
  - by rewrite !preamble_short by (simpl; lia).
  - rewrite !preamble_two_bytes.
    destruct (resolved_version_fixed b0 b1 (Hz _ _ _ eq_refl)) as [->|[-> ->]];
      done.
Qed.

Lemma headers_fixed (w : world) :
  (forall b0 b1 rest, file w = b0 :: b1 :: rest -> b0 = x00 \/ b1 = x00) ->
  loadibw_headers LittleEndian w = loadibw_headers BigEndian w.
Proof.
  intros Hz. unfold loadibw_headers. unfold bind at 1 5.
  rewrite (preamble_fixed w Hz).
  destruct (loadibw_preamble BigEndian w) as [[p|e] w1] eqn:Hp; [|done].
  apply preamble_order in Hp as (Hbo & Hbin & Hwave).
  rewrite (checksum_fixed LittleEndian BigEndian) by done.
  rewrite (unpack_dict_from_fixed LittleEndian BigEndian (p_bin_struct p))
    by (by rewrite Hbin).
  rewrite (unpack_dict_from_fixed LittleEndian BigEndian (p_wave_struct p))
    by (by rewrite Hwave).
  done.
Qed.

(** X16: Unless both of its first two bytes are non-zero, a stream is loaded
    alike on a little-endian and on a big-endian machine: the same result or
    the same exception, the same stream and [sys.stderr] afterwards. *)
Theorem loadibw_machine_independent (strict : bool) (w : world) :
  (forall b0 b1 rest, file w = b0 :: b1 :: rest -> b0 = x00 \/ b1 = x00) ->
  loadibw LittleEndian strict w = loadibw BigEndian strict w.
Proof.
  intros Hz. unfold loadibw. unfold bind at 1 5.
  by rewrite (headers_fixed w Hz).
Qed.

Lemma loadibw_machine_independent_witness :
  run_loadibw LittleEndian (x00 :: x05 :: zeros 386) true
  = run_loadibw BigEndian (x00 :: x05 :: zeros 386) true.
Proof.
  apply (loadibw_machine_independent true
           {| file := x00 :: x05 :: zeros 386; stderr := [] |}).
  intros b0 b1 rest [= <- <- _]. by left.
Defined.

(** X15: When the headers decode, the byte order and the version are those the
    first two bytes of the stream spell out, whatever the machine: a zero
    first byte means big-endian, and the other byte is the version. *)
Theorem headers_byte_order_from_stream (sys : endian) (w w1 : world)
    (h : headers) (b0 b1 : byte) (rest : list byte) :
  loadibw_headers sys w = (Ok h, w1) ->
  file w = b0 :: b1 :: rest ->
  byteOrder h = (if bool_decide (b0 = x00) then Big else Little)
  /\ version h = byte_to_Z (if bool_decide (b0 = x00) then b1 else b0)
  /\ version h ∈ [1; 2; 3; 5].
Proof.
  intros H Hfile. unfold loadibw_headers in H. io_inv.
  destruct (negb (a0 =? 0)); io_inv. simpl.
  destruct w as [f err]. simpl in Hfile. subst f.
  rewrite preamble_two_bytes in H0. io_inv.
  cbn [byteOrder version p_byteOrder p_version].
  assert (Hv : (resolved_version sys b0 b1).1 ∈ [1; 2; 3; 5]).
  { match goal with
    | Hvs : version_structs _ _ = Ok ?s |- _ =>
        destruct s as [[bs ws] css];
        apply version_structs_inv in Hvs
          as [(Hvs & _)|[(Hvs & _)|[(Hvs & _)|(Hvs & _)]]];
        rewrite Hvs, !elem_of_cons; auto
    end. }
  clear - Hv. split; [|split; [|exact Hv]];
    by rewrite (resolved_version_valid _ _ _ Hv).
Qed.

Lemma headers_byte_order_from_stream_witness :
  exists h w1,
    loadibw_headers BigEndian {| file := v5_int8_2_0_2_0; stderr := [] |}
    = (Ok h, w1)
    /\ byteOrder h = Little /\ version h = 5.
Proof.
  destruct (loadibw_headers BigEndian
              {| file := v5_int8_2_0_2_0; stderr := [] |})
    as [[h|e] w1] eqn:H.
  - exists h, w1. split; [done|].
    destruct (headers_byte_order_from_stream BigEndian _ w1 h x05 x00
                (skipn 2 v5_int8_2_0_2_0) H eq_refl) as (Hbo & Hv & _).
    by split.
  - exfalso. apply (stage_returns _ _ _ H). by vm_compute.
Defined.

(** ** More on the record descriptor engine *)

Lemma result_returns {A} (r : result A) (e : exn) :
  r = Raise e ->
  match r with Ok _ => true | Raise _ => false end = true ->
  False.
Proof. by intros ->. Qed.

Lemma pack_one_length (e : endian) (c : fmt) (v : pyval) (bs : list byte) :
  pack_one e c v = Ok bs -> length bs = fmt_size c.
Proof. intros H. by apply unpack_pack_one in H as [_ ?]. Qed.

(** X4: Whatever the values, the string [pack] returns has the record's size. *)
Theorem pack_length (sys : endian) (self : Structure.t) (args : list pyval)
    (bs : list byte) :
  Structure.pack sys self args = Ok bs ->
  length bs = Structure.size self.
Proof.
  unfold Structure.pack, Struct_pack, Structure.size, Struct_size.
  intros H. apply rbind_Ok in H as (flat & _ & H).
  by apply unpack_pack_codes in H as [_ ?].
Qed.

Lemma pack_length_witness :
  exists bs, Structure.pack BigEndian BinHeader1 [PInt 1; PInt 134; PInt (-135)]
             = Ok bs
             /\ length bs = 8%nat.
Proof.
  destruct (Structure.pack BigEndian BinHeader1
              [PInt 1; PInt 134; PInt (-135)]) as [bs|e] eqn:H.
  - exists bs. split; [done|].
    apply (pack_length BigEndian BinHeader1 _ bs H).
  - exfalso. apply (result_returns _ _ H). by vm_compute.
Defined.

(** X5: [unpack] of a well-formed record returns exactly when the string has
    the record's size; any other length is a [struct.error]. *)
Theorem unpack_returns_iff_size (sys : endian) (self : Structure.t)
    (s : list byte) :
  wf_structure self ->
  (length s = Structure.size self ->
   exists values, Structure.unpack sys self s = Ok values
                  /\ length values = length (Structure.fields self))
  /\ (length s <> Structure.size self ->
      Structure.unpack sys self s = Raise StructError).
Proof.
  intros (Hcodes & Hwf & _).
  unfold Structure.unpack, Struct_unpack, Structure.size,
    Structure._unflatten_args.
  split; intros Hlen.
  - rewrite bool_decide_eq_true_2 by done. cbn [rbind].
    rewrite Hcodes.
    destruct (unflatten_unpack
                (resolve sys (st_order (Structure.format self)))
                _ Hwf [] s) as (vs & Hvs & Hfields).
    simpl in Hvs. exists vs. split; [done|].
    symmetry. by eapply Forall2_length.
  - by rewrite bool_decide_eq_false_2.
Qed.

Lemma unpack_returns_iff_size_witness :
  (exists values,
     Structure.unpack LittleEndian WaveHeader5 (zeros 324) = Ok values
     /\ length values = length (Structure.fields WaveHeader5))
  /\ Structure.unpack LittleEndian WaveHeader5 (zeros 320) = Raise StructError.
Proof.
  destruct (unpack_returns_iff_size LittleEndian WaveHeader5 (zeros 324)
              wf_WaveHeader5) as [Hok _].
  destruct (unpack_returns_iff_size LittleEndian WaveHeader5 (zeros 320)
              wf_WaveHeader5) as [_ Hraise].
  split; [apply Hok; reflexivity|apply Hraise; by vm_compute].
Defined.

(** X6: Once a byte order other than native is set, [unpack] and [pack] no
    longer depend on the machine. *)
Theorem set_byte_order_fixes_the_order (self : Structure.t) (bo : ByteOrder)
    (s : list byte) (args : list pyval) :
  bo <> Native ->
  let self' := Structure.set_byte_order self bo in
  Structure.unpack LittleEndian self' s = Structure.unpack BigEndian self' s
  /\ Structure.pack LittleEndian self' args = Structure.pack BigEndian self' args
  /\ Structure.fields self' = Structure.fields self
  /\ Structure.name self' = Structure.name self.
Proof.
  intros Hbo self'.
  assert (Horder : st_order (Structure.format self') <> Native).
  { unfold self'. by rewrite set_byte_order_order. }
  unfold Structure.unpack, Structure.pack, Struct_unpack, Struct_pack.
  rewrite !(resolve_fixed LittleEndian BigEndian _ Horder).
  repeat split; apply set_byte_order_fields.
Qed.

Lemma set_byte_order_fixes_the_order_witness :
  Structure.unpack LittleEndian (Structure.set_byte_order BinHeader1 Big)
    [x00; x01; x00; x00; x00; x86; xff; x79]
  = Structure.unpack BigEndian (Structure.set_byte_order BinHeader1 Big)
      [x00; x01; x00; x00; x00; x86; xff; x79].
Proof.
  apply (set_byte_order_fixes_the_order BinHeader1 Big
           [x00; x01; x00; x00; x00; x86; xff; x79] []).
  discriminate.
Defined.

Lemma clean_loop_present (fields : list Field.t) (dict : gmap string pyval) :
  (forall f, f ∈ fields -> is_Some (dict !! Field.name f)) ->
  Structure.clean_loop fields dict = Ok dict.
Proof.
  induction fields as [|f fields IH]; intros Hall; [done|]. simpl.
  destruct (Hall f) as [v ->]; [apply list_elem_of_here|].
  apply IH. intros g Hg. apply Hall. by apply list_elem_of_further.
Qed.

Lemma getitem_dict_fold (fields : list Field.t) :
  NoDup (map Field.name fields) ->
  forall (values : list pyval) (d : gmap string pyval),
    length values = length fields ->
    rmapM (fun f =>
             getitem (fold_left (fun d kv => <[ kv.1 := kv.2 ]> d)
                        (zip (map Field.name fields) values) d)
               (Field.name f)) fields
    = Ok values
    /\ forall f, f ∈ fields ->
         is_Some (fold_left (fun d kv => <[ kv.1 := kv.2 ]> d)
                    (zip (map Field.name fields) values) d !! Field.name f).
Proof.
  induction fields as [|f fields IH]; intros Hnd values d Hlen.
  - destruct values; [|done]. split; [done|]. intros f Hf.
    by apply elem_of_nil in Hf.
  - destruct values as [|v values]; [done|].
    apply NoDup_cons in Hnd as [Hnotin Hnd]. simpl in Hlen.
    assert (Hhead : fold_left (fun d kv => <[ kv.1 := kv.2 ]> d)
                      (zip (map Field.name fields) values)
                      (<[ Field.name f := v ]> d) !! Field.name f = Some v).
    { rewrite dict_fold_notin by done. apply lookup_insert_eq. }
    destruct (IH Hnd values (<[ Field.name f := v ]> d)) as [Hvalues Hsome];
      [lia|].
    split.
    + cbn [rmapM map zip zip_with fold_left fst snd].
      unfold getitem at 1. rewrite Hhead. cbn [rbind].
      by rewrite Hvalues.
    + intros g Hg. cbn [map zip zip_with fold_left fst snd].
      apply elem_of_cons in Hg as [->|Hg]; [by rewrite Hhead|by apply Hsome].
Qed.

Lemma unflatten_loop_length (fields : list Field.t) (args : list pyval)
    (i : nat) (values : list pyval) :
  Structure.unflatten_loop fields args i = Ok values ->
  length values = length fields.
Proof.
  revert i values. induction fields as [|f fields IH]; intros i values H.
  - by injection H as <-.
  - cbn [Structure.unflatten_loop] in H.
    apply rbind_Ok in H as (v & _ & H). apply rbind_Ok in H as (rest & Hrest & H).
    injection H as <-. simpl. f_equal. by eapply IH.
Qed.

(** X7: For a well-formed record whose repeated fields are one-dimensional
    and whose fields are exact (no ['f'] field, no repeated ['c'] field):
    [pack_dict] of the mapping that [unpack_dict] read from a string gives
    the string back. *)
Theorem pack_dict_of_unpacked_dict (sys : endian) (self : Structure.t)
    (s : list byte) (dict : gmap string pyval) :
  wf_structure self ->
  Forall one_dimensional (Structure.fields self) ->
  Forall exact_field (Structure.fields self) ->
  Structure.unpack_dict sys self s = Ok dict ->
  Structure.pack_dict sys self dict = Ok s.
Proof.
  intros Hwf Hdim Hexact H. pose proof Hwf as (_ & _ & Hnd).
  unfold Structure.unpack_dict in H. apply rbind_Ok in H as (values & Hun & H).
  injection H as <-.
  assert (Hlen : length values = length (Structure.fields self)).
  { unfold Structure.unpack in Hun. apply rbind_Ok in Hun as (flat & _ & Hun).
    by apply unflatten_loop_length in Hun. }
  destruct (getitem_dict_fold _ Hnd values ∅ Hlen) as [Hvalues Hsome].
  unfold Structure.pack_dict, Structure._clean_dict.
  unfold dict_zip, Structure.names.
  rewrite clean_loop_present by done. cbn [rbind].
  rewrite Hvalues. cbn [rbind].
  by apply pack_unpack_values.
Qed.

Lemma pack_dict_of_unpacked_dict_witness :
  exists dict,
    Structure.unpack_dict BigEndian BinHeader5 (zeros 60 ++ [x12; x34; x56; x78])
    = Ok dict
    /\ Structure.pack_dict BigEndian BinHeader5 dict
       = Ok (zeros 60 ++ [x12; x34; x56; x78]).
Proof.
  destruct (Structure.unpack_dict BigEndian BinHeader5
              (zeros 60 ++ [x12; x34; x56; x78])) as [dict|e] eqn:H.
  - exists dict. split; [done|].
    apply (pack_dict_of_unpacked_dict BigEndian BinHeader5 _ dict
             wf_BinHeader5); [| |done].
    + repeat constructor; by eexists.
    + repeat constructor; done.
  - exfalso. apply (result_returns _ _ H). by vm_compute.
Defined.

Lemma clean_loop_extends (fields : list Field.t) :
  forall dict dict' : gmap string pyval,
    Structure.clean_loop fields dict = Ok dict' ->
    dict ⊆ dict'
    /\ forall f, f ∈ fields -> is_Some (dict' !! Field.name f).
Proof.
  induction fields as [|f fields IH]; intros dict dict' H.
  - injection H as <-. split; [done|]. intros f Hf. by apply elem_of_nil in Hf.
  - simpl in H. destruct (dict !! Field.name f) as [v|] eqn:Hf.
    + destruct (IH _ _ H) as [Hsub Hall]. split; [done|].
      intros g Hg. apply elem_of_cons in Hg as [->|Hg]; [|by apply Hall].
      exists v. by eapply lookup_weaken.
    + destruct (Field.default f) as [d|]; [|done].
      destruct (IH _ _ H) as [Hsub Hall]. split.
      * etrans; [|exact Hsub]. by apply insert_subseteq.
      * intros g Hg. apply elem_of_cons in Hg as [->|Hg]; [|by apply Hall].
        exists d. eapply lookup_weaken; [|exact Hsub]. apply lookup_insert_eq.
Qed.

(** X8: [_clean_dict] never changes or removes an entry of the mapping it is
    given, and when it returns every field of the record has an entry. *)
Theorem clean_dict_extends (self : Structure.t) (dict dict' : gmap string pyval) :
  Structure._clean_dict self dict = Ok dict' ->
  dict ⊆ dict'
  /\ forall name, name ∈ Structure.names self -> is_Some (dict' !! name).
Proof.
  unfold Structure._clean_dict, Structure.names. intros H.
  destruct (clean_loop_extends _ _ _ H) as [Hsub Hall]. split; [done|].
  intros name Hname. apply list_elem_of_fmap in Hname as (f & -> & Hf).
  by apply Hall.
Qed.

Lemma clean_dict_extends_witness :
  exists dict',
    Structure._clean_dict BinHeaderCommon
      (<[ "version" := PInt 5 ]> (<[ "other" := PInt 7 ]> ∅))
    = Ok dict'
    /\ dict' !! "other"%string = Some (PInt 7)
    /\ is_Some (dict' !! "version"%string).
Proof.
  destruct (Structure._clean_dict BinHeaderCommon
              (<[ "version" := PInt 5 ]> (<[ "other" := PInt 7 ]> ∅)))
    as [dict'|e] eqn:H.
  - exists dict'. split; [done|].
    destruct (clean_dict_extends BinHeaderCommon _ dict' H) as [Hsub Hall].
    split.
    + eapply lookup_weaken; [|exact Hsub]. by vm_compute.
    + apply Hall. apply list_elem_of_here.
  - exfalso. apply (result_returns _ _ H). by vm_compute.
Defined.

(** ** More on the checksum *)

Lemma sum_app (l1 l2 : list Z) : sum (l1 ++ l2) = sum l1 + sum l2.
Proof. unfold sum. induction l1 as [|x l1 IH]; simpl; lia. Qed.

Lemma windows16_app (e : endian) (k1 k2 : nat) (b1 b2 : list byte) :
  length b1 = (2 * k1)%nat ->
  windows16 e (k1 + k2) (b1 ++ b2) = windows16 e k1 b1 ++ windows16 e k2 b2.
Proof.
  revert b1. induction k1 as [|k1 IH]; intros b1 Hlen.
  - by destruct b1.
  - destruct b1 as [|x [|y b1]]; simpl in Hlen; try lia.
    simpl. f_equal. apply IH. lia.
Qed.

(** X9: The checksum of a buffer can be computed piece by piece: the checksum
    of an even-sized first piece, passed as [oldcksum] to the checksum of
    the rest, is the checksum of the whole. *)
Theorem checksum_chains (sys : endian) (b1 b2 : list byte) (bo : ByteOrder)
    (oldcksum n2 : Z) :
  Nat.Even (length b1) ->
  0 <= n2 ->
  2 * (n2 / 2) <= Z.of_nat (length b2) ->
  checksum sys (b1 ++ b2) bo oldcksum (Z.of_nat (length b1) + n2)
  = (c <- checksum sys b1 bo oldcksum (Z.of_nat (length b1)) ;;
     checksum sys b2 bo c n2)%result.
Proof.
  intros [k1 Hk1] Hn2 Hlen2.
  assert (Hdiv : Z.of_nat (length b1) / 2 = Z.of_nat k1).
  { rewrite Hk1, Nat2Z.inj_mul, Z.mul_comm, Z.div_mul by lia. lia. }
  assert (Hdiv' : (Z.of_nat (length b1) + n2) / 2 = Z.of_nat k1 + n2 / 2).
  { rewrite Hk1, Nat2Z.inj_mul, Z.add_comm, (Z.mul_comm (Z.of_nat 2)).
    rewrite Z.div_add by lia. lia. }
  assert (0 <= n2 / 2) by (apply Z.div_pos; lia).
  rewrite !checksum_mod_2_16; try lia.
  - cbn [rbind]. rewrite checksum_mod_2_16 by lia. f_equal.
    rewrite Hdiv, Hdiv', Z2Nat.inj_add, Nat2Z.id by lia.
    rewrite windows16_app by done. rewrite sum_app.
    rewrite Z.add_assoc. by rewrite Zplus_mod_idemp_l.
  - rewrite length_app. lia.
Qed.

Lemma checksum_chains_witness :
  checksum LittleEndian ([x01; x02; x03; x04] ++ [x05; x06; x07]) Little 9
    (Z.of_nat 4 + 3)
  = (c <- checksum LittleEndian [x01; x02; x03; x04] Little 9 (Z.of_nat 4) ;;
     checksum LittleEndian [x05; x06; x07] Little c 3)%result.
Proof.
  apply (checksum_chains LittleEndian [x01; x02; x03; x04] [x05; x06; x07]
           Little 9 3).
  - by exists 2%nat.
  - lia.
  - by vm_compute.
Defined.

Lemma int16_of_unsigned (e : endian) (b0 b1 : byte) :
  exists q,
    int16_of e b0 b1
    = match e with
      | LittleEndian => byte_to_Z b0 + 256 * byte_to_Z b1
      | BigEndian => 256 * byte_to_Z b0 + byte_to_Z b1
      end + 65536 * q.
Proof.
  unfold int16_of. destruct e; destruct (_ <? _);
    first [by exists 0; lia | by exists (-1); lia].
Qed.

(** Changing one byte inside the first [k] windows changes their sum by a
    non-zero amount modulo 2^16. *)
Lemma windows16_one_byte (e : endian) (m : nat) :
  forall (k : nat) (pre post : list byte) (x y : byte),
    (length pre <= m)%nat ->
    (length pre < 2 * k)%nat ->
    (2 * k <= length (pre ++ x :: post))%nat ->
    exists weight q,
      (weight = 1 \/ weight = 256)
      /\ sum (windows16 e k (pre ++ x :: post))
         - sum (windows16 e k (pre ++ y :: post))
         = (byte_to_Z x - byte_to_Z y) * weight + 65536 * q.
Proof.
  induction m as [|m IH]; intros k pre post x y Hm Hk Hlen.
  - destruct pre; [|simpl in Hm; lia].
    destruct k as [|k]; [simpl in Hk; lia|].
    destruct post as [|b1 post]; [simpl in Hlen; lia|].
    cbn [app windows16 sum foldr].
    destruct (int16_of_unsigned e x b1) as [q1 ->].
    destruct (int16_of_unsigned e y b1) as [q2 ->].
    destruct e; [exists 1|exists 256]; exists (q1 - q2); split; auto; lia.
  - destruct pre as [|p0 [|p1 pre]].
    + apply (IH k [] post x y); simpl in *; lia.
    + destruct k as [|k]; [simpl in Hk; lia|].
      cbn [app windows16 sum foldr].
      destruct (int16_of_unsigned e p0 x) as [q1 ->].
      destruct (int16_of_unsigned e p0 y) as [q2 ->].
      destruct e; [exists 256|exists 1]; exists (q1 - q2); split; auto; lia.
    + destruct k as [|k]; [simpl in Hk; lia|].
      destruct (IH k pre post x y) as (weight & q & Hw & Hsum);
        [simpl in *; lia..|].
      exists weight, q. split; [done|].
      cbn [app windows16 sum foldr]. fold (sum (windows16 e k (pre ++ x :: post))).
      fold (sum (windows16 e k (pre ++ y :: post))). lia.
Qed.

Lemma checksum_one_byte (sys : endian) (bo : ByteOrder) (oldcksum numbytes : Z)
    (pre post : list byte) (x y : byte) :
  x <> y ->
  0 <= numbytes ->
  Z.of_nat (length pre) < 2 * (numbytes / 2) ->
  2 * (numbytes / 2) <= Z.of_nat (length (pre ++ x :: post)) ->
  exists c c',
    checksum sys (pre ++ x :: post) bo oldcksum numbytes = Ok c
    /\ checksum sys (pre ++ y :: post) bo oldcksum numbytes = Ok c'
    /\ c <> c'.
Proof.
  intros Hxy Hn Hpre Hlen.
  assert (0 <= numbytes / 2) by (apply Z.div_pos; lia).
  rewrite !checksum_mod_2_16; try lia;
    [|rewrite length_app in *; simpl in *; lia].
  eexists _, _. split; [done|]. split; [done|].
  destruct (windows16_one_byte (resolve sys bo) (length pre)
              (Z.to_nat (numbytes / 2)) pre post x y)
    as (weight & q & Hw & Hsum); [lia..|].
  intros Heq.
  set (S := sum (windows16 (resolve sys bo) (Z.to_nat (numbytes / 2))
                   (pre ++ x :: post))) in *.
  set (S' := sum (windows16 (resolve sys bo) (Z.to_nat (numbytes / 2))
                    (pre ++ y :: post))) in *.
  assert (Hdiff : (oldcksum + S - (oldcksum + S')) mod 2 ^ 16 = 0).
  { rewrite Zminus_mod, Heq, Z.sub_diag. reflexivity. }
  replace (oldcksum + S - (oldcksum + S')) with (S - S') in Hdiff by lia.
  rewrite Hsum in Hdiff. change (2 ^ 16) with 65536 in Hdiff.
  rewrite (Z.mul_comm 65536 q), Z.mod_add in Hdiff by lia.
  apply Z.mod_divide in Hdiff; [|lia]. destruct Hdiff as [d Hd].
  pose proof (byte_to_Z_range x). pose proof (byte_to_Z_range y).
  assert (byte_to_Z x <> byte_to_Z y).
  { intros E. apply Hxy. by rewrite <- (byte_of_to_Z x), E, byte_of_to_Z. }
  destruct Hw as [-> | ->]; lia.
Qed.

(** X10: The checksum tells any two buffers apart that differ in one byte of the
    summed words. *)
Theorem checksum_detects_one_byte (sys : endian) (bo : ByteOrder)
    (oldcksum numbytes : Z) (pre post : list byte) (x y : byte) :
  x <> y ->
  0 <= numbytes ->
  Z.of_nat (length pre) < 2 * (numbytes / 2) ->
  2 * (numbytes / 2) <= Z.of_nat (length (pre ++ x :: post)) ->
  checksum sys (pre ++ x :: post) bo oldcksum numbytes
  <> checksum sys (pre ++ y :: post) bo oldcksum numbytes.
Proof.
  intros Hxy Hn Hpre Hlen.
  destruct (checksum_one_byte sys bo oldcksum numbytes pre post x y)
    as (c & c' & -> & -> & Hc); try done.
  by intros [= ?].
Qed.

Lemma checksum_detects_one_byte_witness :
  checksum BigEndian ([x00; x05; x00] ++ x07 :: [x01]) Native 0 4
  <> checksum BigEndian ([x00; x05; x00] ++ x08 :: [x01]) Native 0 4.
Proof.
  apply (checksum_detects_one_byte BigEndian Native 0 4 [x00; x05; x00] [x01]
           x07 x08).
  - discriminate.
  - lia.
  - by vm_compute.
  - by vm_compute.
Defined.

(** ** The header bytes and the checksum in [loadibw] *)

Lemma version_structs_sizes (v : Z) (bo : ByteOrder) (bin wave : Structure.t)
    (css : Z) :
  version_structs v bo = Ok (bin, wave, css) ->
  134 <= css
  /\ 2 * (css / 2) = css
  /\ css <= Z.of_nat (Structure.size bin) + Z.of_nat (Structure.size wave)
  /\ 2 <= Z.of_nat (Structure.size bin) + Z.of_nat (Structure.size wave).
Proof.
  unfold version_structs.
  destruct (Z.eqb_spec v 1) as [->|];
    [|destruct (Z.eqb_spec v 2) as [->|];
      [|destruct (Z.eqb_spec v 3) as [->|];
        [|destruct (Z.eqb_spec v 5) as [->|]; [|discriminate]]]];
    simpl; intros [= <- <- <-]; destruct bo; by vm_compute.
Qed.

Lemma preamble_run (sys : endian) (b0 b1 : byte) (rest : list byte)
    (err : list string) (bin wave : Structure.t) (css : Z) :
  version_structs (resolved_version sys b0 b1).1 (resolved_version sys b0 b1).2
  = Ok (bin, wave, css) ->
  let n := Z.to_nat (Z.of_nat (Structure.size bin)
                     + Z.of_nat (Structure.size wave) - 2) in
  loadibw_preamble sys {| file := b0 :: b1 :: rest; stderr := err |}
  = (Ok {| p_version := (resolved_version sys b0 b1).1;
           p_byteOrder := (resolved_version sys b0 b1).2;
           p_bin_struct := bin; p_wave_struct := wave;
           p_checkSumSize := css;
           p_b := [b0; b1] ++ take n rest |},
     {| file := drop n rest; stderr := err |}).
Proof.
  intros Hvs n. rewrite preamble_two_bytes. cbv zeta.
  unfold bind at 1, lift at 1. rewrite Hvs. cbn [fst snd].
  unfold bind at 1. rewrite read_run. cbn [file stderr]. unfold ret.
  apply version_structs_sizes in Hvs as (_ & _ & _ & Hsize).
  unfold read_count.
  destruct (Z.ltb_spec (Z.of_nat (Structure.size bin)
                        + Z.of_nat (Structure.size wave) - 2) 0); [lia|].
  done.
Qed.

Lemma checksum_Ok_length (sys : endian) (buffer : list byte) (bo : ByteOrder)
    (oldcksum numbytes c : Z) :
  checksum sys buffer bo oldcksum numbytes = Ok c ->
  2 * (numbytes / 2) <= Z.of_nat (length buffer).
Proof.
  unfold checksum, ndarray_int16.
  destruct (Z.eqb_spec (numbytes / 2) (-1)); [lia|].
  destruct (Z.ltb_spec (Z.of_nat (length buffer)) (2 * (numbytes / 2)));
    [done|lia].
Qed.

Lemma headers_run (sys : endian) (w w1 : world) (p : preamble) (c : Z) :
  loadibw_preamble sys w = (Ok p, w1) ->
  checksum sys (p_b p) (p_byteOrder p) 0 (p_checkSumSize p) = Ok c ->
  c <> 0 ->
  loadibw_headers sys w = (Raise (ValueError (MsgChecksum c)), w1).
Proof.
  intros Hp Hc Hnz. unfold loadibw_headers. unfold bind at 1. rewrite Hp.
  unfold bind at 1, lift at 1. rewrite Hc.
  by destruct (Z.eqb_spec c 0).
Qed.

(** X18: A file whose headers decode stops decoding when one byte of the
    checksummed part of its header, past the version field, is changed:
    [loadibw] then raises the checksum error. *)
Theorem loadibw_detects_a_changed_header_byte (sys : endian) (strict : bool)
    (pre post : list byte) (x y : byte) (err : list string)
    (h : headers) (w1 : world) (css : Z) :
  loadibw_headers sys {| file := pre ++ x :: post; stderr := err |}
  = (Ok h, w1) ->
  version_structs (version h) (byteOrder h)
  = Ok (bin_struct h, wave_struct h, css) ->
  (2 <= length pre)%nat ->
  Z.of_nat (length pre) < css ->
  x <> y ->
  exists c w2,
    c <> 0
    /\ loadibw sys strict {| file := pre ++ y :: post; stderr := err |}
       = (Raise (ValueError (MsgChecksum c)), w2).
Proof.
  intros H Hvs Hpre Hcss Hxy.
  destruct pre as [|b0 [|b1 pre]]; [simpl in Hpre; lia..|].
  unfold loadibw_headers in H. apply bind_Ok in H as (p & w0 & Hp & H).
  apply bind_Ok in H as (c & w0' & Hc & H). apply lift_Ok in Hc as [Hc ->].
  destruct (Z.eqb_spec c 0) as [->|]; [|discriminate H]. cbn [negb] in H.
  io_inv. cbn [version byteOrder bin_struct wave_struct] in Hvs.
  cbn [app] in Hp.
  destruct (version_structs (resolved_version sys b0 b1).1
              (resolved_version sys b0 b1).2) as [[[bin wave] css']|e] eqn:Hs.
  2:{ rewrite preamble_two_bytes in Hp. cbv zeta in Hp.
      unfold bind at 1, lift at 1 in Hp. by rewrite Hs in Hp. }
  rewrite (preamble_run _ _ _ _ _ _ _ _ Hs) in Hp. cbv zeta in Hp.
  injection Hp as <- <-.
  cbn [p_version p_byteOrder p_bin_struct p_wave_struct p_checkSumSize p_b]
    in *.
  change (version_structs (resolved_version sys b0 b1).1
            (resolved_version sys b0 b1).2 = Ok (bin, wave, css)) in Hvs.
  change (byte_order sys _) with ((resolved_version sys b0 b1).2) in Hc.
  rewrite Hs in Hvs. injection Hvs as <-.
  pose proof (version_structs_sizes _ _ _ _ _ Hs) as (Hcss0 & Heven & Hle & _).
  set (n := Z.to_nat (Z.of_nat (Structure.size bin)
                      + Z.of_nat (Structure.size wave) - 2)) in *.
  assert (Hn : (length pre < n)%nat) by (simpl in Hcss; lia).
  assert (Htake : forall z,
             take n (pre ++ z :: post)
             = pre ++ z :: take (n - length pre - 1) post).
  { intros z. rewrite take_app_ge by lia. f_equal.
    destruct (n - length pre)%nat as [|k] eqn:Hk; [lia|].
    simpl. by rewrite Nat.sub_0_r. }
  rewrite Htake in Hc.
  change ([b0; b1] ++ pre ++ x :: take (n - length pre - 1) post)
    with ((b0 :: b1 :: pre) ++ x :: take (n - length pre - 1) post) in Hc.
  pose proof (checksum_Ok_length _ _ _ _ _ _ Hc) as Hlen.
  destruct (checksum_one_byte sys (resolved_version sys b0 b1).2 0 css'
              (b0 :: b1 :: pre) (take (n - length pre - 1) post) x y)
    as (c & c' & Hc1 & Hc2 & Hne); [done|lia|lia|done|].
  pose proof (eq_trans (eq_sym Hc1) Hc) as E. injection E as ->.
  exists c', {| file := drop n (pre ++ y :: post); stderr := err |}.
  split; [done|].
  assert (Hrun : loadibw_headers sys
                   {| file := (b0 :: b1 :: pre) ++ y :: post; stderr := err |}
                 = (Raise (ValueError (MsgChecksum c')),
                    {| file := drop n (pre ++ y :: post); stderr := err |})).
  { eapply headers_run; [apply (preamble_run _ _ _ _ _ _ _ _ Hs)| |done].
    cbn [p_b p_byteOrder p_checkSumSize]. by rewrite Htake. }
  unfold loadibw. unfold bind at 1. by rewrite Hrun.
Qed.

Lemma loadibw_detects_a_changed_header_byte_witness :
  exists c w2,
    c <> 0
    /\ loadibw LittleEndian true
         {| file := take 20 v5_int8_2_0_2_0 ++ x01 :: drop 21 v5_int8_2_0_2_0;
            stderr := [] |}
       = (Raise (ValueError (MsgChecksum c)), w2).
Proof.
  destruct (loadibw_headers LittleEndian
              {| file := take 20 v5_int8_2_0_2_0
                         ++ x00 :: drop 21 v5_int8_2_0_2_0;
                 stderr := [] |}) as [[h|e] w1] eqn:H.
  - destruct (loadibw_headers_inv _ _ _ _ H) as ([css Hvs] & _).
    apply (loadibw_detects_a_changed_header_byte LittleEndian true
             (take 20 v5_int8_2_0_2_0) (drop 21 v5_int8_2_0_2_0) x00 x01 []
             h w1 css H Hvs).
    + apply Nat.leb_le. by vm_compute.
    + apply version_structs_sizes in Hvs as (Hcss & _).
      change (Z.of_nat (length (take 20 v5_int8_2_0_2_0))) with 20. lia.
    + discriminate.
  - exfalso. apply (stage_returns _ _ _ H). by vm_compute.
Defined.

(** ** The data of a wave *)

(** What the data stage of [loadibw] computed when it returns. *)
Lemma loadibw_data_inv (h : headers) (w w' : world) (a : ndarray) :
  loadibw_data h w = (Ok a, w') ->
  exists tail waveDataSize wfmSize type npnts,
    getint (bin_info h) "wfmSize" = Ok wfmSize
    /\ ((version h ∈ [1; 2; 3] /\ tail = 16
         /\ waveDataSize = wfmSize - Z.of_nat (Structure.size (wave_struct h)))
        \/ (version h = 5 /\ tail = 4
            /\ waveDataSize
               = wfmSize - (Z.of_nat (Structure.size (wave_struct h)) - 4)))
    /\ getint (wave_info h) "type" = Ok type
    /\ getint (wave_info h) "npnts" = Ok npnts
    /\ (type = 0 ->
        dtype_of a = int8 /\ (waveDataSize <> -1 -> shape a = [waveDataSize]))
    /\ (type <> 0 ->
        exists x, TYPE_TABLE !! type = Some x
                  /\ dtype_of a = numpy_dtype x
                  /\ waveDataSize = npnts * itemsize (dtype_of a))
    /\ (npnts = 0 -> buffer a = [] /\ w' = w)
    /\ (npnts <> 0 ->
        let tail_data := drop (length (b h) - Z.to_nat tail) (b h) in
        let n := read_count (waveDataSize - tail) (file w) in
        buffer a = tail_data ++ take n (file w)
        /\ w' = {| file := drop n (file w); stderr := stderr w |})
    /\ byteorder a = byteOrder h
    /\ Forall (fun n => 0 <= n) (shape a)
    /\ zprod (shape a) * itemsize (dtype_of a) <= Z.of_nat (length (buffer a)).
Proof.
  unfold loadibw_data. intros H.
  apply bind_Ok in H as (tw & w0 & Htw & H). apply lift_Ok in Htw as [Htw ->].
  cbv zeta in H.
  apply bind_Ok in H as (shape0 & w0 & Hshape & H).
  apply lift_Ok in Hshape as [Hshape ->].
  apply bind_Ok in H as (type & w0 & Htype & H).
  apply lift_Ok in Htype as [Htype ->].
  apply bind_Ok in H as (st & w0 & Hst & H). apply lift_Ok in Hst as [Hst ->].
  apply bind_Ok in H as (npnts & w0 & Hnpnts & H).
  apply lift_Ok in Hnpnts as [Hnpnts ->].
  apply bind_Ok in H as (data_b & w0 & Hdata & H).
  apply lift_Ok in H as [H ->].
  apply numpy_ndarray_inv in H as (-> & -> & -> & Hasked & _ & Hpos & Hlen).
  assert (Hsizes : exists wfmSize,
             getint (bin_info h) "wfmSize" = Ok wfmSize
             /\ ((version h ∈ [1; 2; 3] /\ tw.1 = 16
                  /\ tw.2 = wfmSize - Z.of_nat (Structure.size (wave_struct h)))
                 \/ (version h = 5 /\ tw.1 = 4
                     /\ tw.2 = wfmSize
                               - (Z.of_nat (Structure.size (wave_struct h)) - 4)))).
  { case_bool_decide as Hv.
    - apply rbind_Ok in Htw as (wfmSize & Hwfm & [= <-]). eauto 10.
    - destruct (Z.eqb_spec (version h) 5) as [Hv5|]; [|done]. cbn [negb] in Htw.
      apply rbind_Ok in Htw as (wfmSize & Hwfm & [= <-]). eauto 10. }
  destruct Hsizes as (wfmSize & Hwfm & Hsizes).
  exists tw.1, tw.2, wfmSize, type, npnts.
  split; [done|]. split; [done|]. split; [done|]. split; [done|].
  split; [|split; [|split; [|split]]].
  - intros ->. injection Hst as <-. split; [done|].
    intros Hw. apply Hasked. cbn [fst]. congruence.
  - intros Ht. destruct (Z.eqb_spec type 0); [done|].
    destruct (TYPE_TABLE !! type) as [x|]; [|done].
    exists x. split; [done|].
    apply rbind_Ok in Hst as (npnts' & Hnpnts' & Hst).
    rewrite Hnpnts in Hnpnts'. injection Hnpnts' as <-.
    destruct (Z.eqb_spec tw.2 (npnts * itemsize (numpy_dtype x))); [|done].
    by injection Hst as <-.
  - intros ->. cbn [Z.eqb] in Hdata. by apply ret_Ok in Hdata as [-> ->].
  - intros Hnz. destruct (Z.eqb_spec npnts 0); [done|].
    apply bind_Ok in Hdata as (tail_data & w1 & Htail & Hdata).
    apply lift_Ok in Htail as [Htail ->].
    apply bind_Ok in Hdata as (more & w1 & Hmore & Hdata).
    apply ret_Ok in Hdata as [-> ->].
    rewrite read_run in Hmore. injection Hmore as <- <-.
    unfold array_f in Htail.
    match type of Htail with
    | (if ?c then _ else _) = _ => destruct c; [|done]
    end.
    by injection Htail as <-.
  - done.
Qed.

(** X19: A wave of no points: the data stage reads nothing from the stream and
    the array it builds has no element, whatever the extents say. *)
Theorem empty_wave_reads_nothing (h : headers) (w w' : world) (a : ndarray) :
  loadibw_data h w = (Ok a, w') ->
  getint (wave_info h) "npnts" = Ok 0 ->
  w' = w /\ buffer a = [] /\ zprod (shape a) = 0.
Proof.
  intros H Hnpnts.
  apply loadibw_data_inv in H
    as (tail & wds & wfmSize & type & npnts & _ & _ & _ & Hnpnts' & _ & _
        & Hzero & _ & _ & Hpos & Hlen).
  rewrite Hnpnts in Hnpnts'. injection Hnpnts' as <-.
  destruct Hzero as [Hbuf ->]; [done|].
  split; [done|]. split; [done|].
  rewrite Hbuf in Hlen. simpl in Hlen.
  pose proof (zprod_nonneg _ Hpos). pose proof (itemsize_pos (dtype_of a)).
  nia.
Qed.

Lemma empty_wave_reads_nothing_witness :
  exists h w1 a,
    loadibw_headers LittleEndian
      {| file := v2_text (zeros 16); stderr := [] |} = (Ok h, w1)
    /\ loadibw_data h w1 = (Ok a, w1)
    /\ buffer a = [] /\ zprod (shape a) = 0.
Proof.
  set (w := {| file := v2_text (zeros 16); stderr := [] |}).
  destruct (loadibw_headers LittleEndian w) as [[h|e] w1] eqn:Hh;
    [|exfalso; apply (stage_returns _ _ _ Hh); vm_compute; reflexivity].
  destruct (loadibw_data h w1) as [[a|e] w2] eqn:Hdata;
    [|exfalso; apply (stage2_returns _ _ _ _ _ _ _ Hh Hdata);
      vm_compute; reflexivity].
  assert (Hn : getint (wave_info h) "npnts" = Ok 0).
  { eapply bool_decide_eq_true_1.
    apply (stage_fact
             (fun h => bool_decide (getint (wave_info h) "npnts" = Ok 0))
             _ _ _ Hh).
    vm_compute. reflexivity. }
  destruct (empty_wave_reads_nothing h w1 w2 a Hdata Hn) as (-> & Hbuf & Hz).
  exists h, w1, a. split; [reflexivity|]. split; [exact Hdata|].
  split; assumption.
Defined.

(** X20: A numeric wave whose data fill less than the [wData] field of the wave
    header (16 bytes in versions 1 to 3, 4 bytes in version 5): the size
    handed to [f.read] is negative, and the data stage takes the whole rest
    of the stream into the array's buffer. *)
Theorem short_wave_reads_to_the_end (h : headers) (w w' : world) (a : ndarray)
    (type npnts : Z) :
  loadibw_data h w = (Ok a, w') ->
  getint (wave_info h) "type" = Ok type ->
  getint (wave_info h) "npnts" = Ok npnts ->
  type <> 0 ->
  npnts <> 0 ->
  let tail := if bool_decide (version h ∈ [1; 2; 3]) then 16 else 4 in
  npnts * itemsize (dtype_of a) < tail ->
  file w' = []
  /\ buffer a = drop (length (b h) - Z.to_nat tail) (b h) ++ file w.
Proof.
  intros H Htype Hnpnts Ht Hn tail Hshort.
  apply loadibw_data_inv in H
    as (tail' & wds & wfmSize & type' & npnts' & _ & Hv & Htype' & Hnpnts' & _
        & Hnum & _ & Hread & _).
  rewrite Htype in Htype'. injection Htype' as <-.
  rewrite Hnpnts in Hnpnts'. injection Hnpnts' as <-.
  destruct (Hnum Ht) as (x & _ & _ & Hwds).
  destruct (Hread Hn) as [Hbuf ->]. cbn [file].
  assert (Htail : tail' = tail).
  { unfold tail. destruct Hv as [(Hv & -> & _)|(Hv & -> & _)].
    - by rewrite bool_decide_eq_true_2.
    - rewrite bool_decide_eq_false_2; [done|].
      intros Hin. apply elem_of_123 in Hin. lia. }
  subst tail'.
  assert (Hcount : read_count (wds - tail) (file w) = length (file w)).
  { unfold read_count. destruct (Z.ltb_spec (wds - tail) 0); [done|lia]. }
  rewrite Hcount in Hbuf |- *.
  rewrite drop_all. split; [done|]. by rewrite Hbuf, firstn_all.
Qed.

Lemma short_wave_reads_to_the_end_witness :
  exists h w1 a w2,
    loadibw_headers LittleEndian
      {| file := v2_int8_4 (zeros 16 ++ list_byte_of_string " hi ");
         stderr := [] |} = (Ok h, w1)
    /\ loadibw_data h w1 = (Ok a, w2)
    /\ file w2 = []
    /\ buffer a = drop (length (b h) - 16) (b h) ++ file w1.
Proof.
  set (w := {| file := v2_int8_4 (zeros 16 ++ list_byte_of_string " hi ");
               stderr := [] |}).
  destruct (loadibw_headers LittleEndian w) as [[h|e] w1] eqn:Hh;
    [|exfalso; apply (stage_returns _ _ _ Hh); vm_compute; reflexivity].
  destruct (loadibw_data h w1) as [[a|e] w2] eqn:Hdata;
    [|exfalso; apply (stage2_returns _ _ _ _ _ _ _ Hh Hdata);
      vm_compute; reflexivity].
  assert (Ht : getint (wave_info h) "type" = Ok 8).
  { eapply bool_decide_eq_true_1.
    apply (stage_fact
             (fun h => bool_decide (getint (wave_info h) "type" = Ok 8))
             _ _ _ Hh).
    vm_compute. reflexivity. }
  assert (Hn : getint (wave_info h) "npnts" = Ok 4).
  { eapply bool_decide_eq_true_1.
    apply (stage_fact
             (fun h => bool_decide (getint (wave_info h) "npnts" = Ok 4))
             _ _ _ Hh).
    vm_compute. reflexivity. }
  assert (Hv : bool_decide (version h ∈ [1; 2; 3]) = true).
  { apply (stage_fact (fun h => bool_decide (version h ∈ [1; 2; 3])) _ _ _ Hh).
    vm_compute. reflexivity. }
  assert (Hi : itemsize (dtype_of a) = 1).
  { eapply bool_decide_eq_true_1.
    apply (stage2_fact (fun a _ => bool_decide (itemsize (dtype_of a) = 1))
             _ _ _ _ _ _ _ Hh Hdata).
    vm_compute. reflexivity. }
  pose proof (short_wave_reads_to_the_end h w1 w2 a 8 4 Hdata Ht Hn) as Hend.
  cbv zeta in Hend. rewrite Hv, Hi in Hend.
  destruct Hend as [Hfile Hbuf]; [lia..|].
  exists h, w1, a, w2. split; [reflexivity|]. split; [exact Hdata|].
  split; assumption.
Defined.

(** ** The header bytes *)

(** When a record is decoded from a buffer that is too short for it, the
    [npnts] it decodes is zero. *)
Lemma unpack_dict_from_short (sys : endian) (self : Structure.t)
    (buffer : list byte) (offset : nat) (d : gmap string pyval) :
  Structure.unpack_dict_from sys self buffer offset = Ok d ->
  Z.of_nat (length buffer) - Z.of_nat offset < Z.of_nat (Structure.size self) ->
  getint d "npnts" = Ok 0.
Proof.
  unfold Structure.unpack_dict_from, Structure.unpack_from. intros H Hshort.
  apply rbind_Ok in H as (values & H & [= <-]).
  unfold Struct_unpack_from at 1 in H. unfold Structure.size in Hshort.
  destruct (Z.ltb_spec (Z.of_nat (length buffer) - Z.of_nat offset)
              (Z.of_nat (Struct_size (Structure.format self)))); [|lia].
  destruct (negb _); [done|].
  apply rbind_Ok in H as (args & _ & H).
  apply rbind_Ok in H as (unpacked & Hunpacked & H). cbv zeta in H.
  apply rbind_Ok in H as (npnts & Hnpnts & H).
  destruct npnts as [z| | |]; try done. simpl in H.
  destruct (Z.eqb_spec z 0) as [->|]; [|done].
  rewrite Hunpacked in H. injection H as <-.
  unfold getint. by rewrite Hnpnts.
Qed.

Lemma headers_prefix (sys : endian) (w w1 : world) (h : headers) :
  loadibw_headers sys w = (Ok h, w1) ->
  let size :=
    (Structure.size (bin_struct h) + Structure.size (wave_struct h))%nat in
  file w = b h ++ file w1
  /\ (length (b h) <= size)%nat
  /\ (getint (wave_info h) "npnts" <> Ok 0 -> length (b h) = size).
Proof.
  intros H size. destruct w as [[|b0 [|b1 rest]] err].
  - unfold loadibw_headers in H. unfold bind at 1 in H.
    by rewrite preamble_short in H by (simpl; lia).
  - unfold loadibw_headers in H. unfold bind at 1 in H.
    by rewrite preamble_short in H by (simpl; lia).
  - pose proof H as Hh.
    unfold loadibw_headers in H. apply bind_Ok in H as (p & w0 & Hp & H).
    apply bind_Ok in H as (c & w0' & Hc & H). apply lift_Ok in Hc as [Hc ->].
    destruct (negb (c =? 0)); [done|].
    apply bind_Ok in H as (bi & w0' & Hbi & H). apply lift_Ok in Hbi as [Hbi ->].
    apply bind_Ok in H as (wi & w0' & Hwi & H). apply lift_Ok in Hwi as [Hwi ->].
    apply ret_Ok in H as [-> ->].
    destruct (version_structs (resolved_version sys b0 b1).1
                (resolved_version sys b0 b1).2) as [[[bin wave] css]|e] eqn:Hs.
    2:{ rewrite preamble_two_bytes in Hp. cbv zeta in Hp.
        unfold bind at 1, lift at 1 in Hp. by rewrite Hs in Hp. }
    rewrite (preamble_run _ _ _ _ _ _ _ _ Hs) in Hp. cbv zeta in Hp.
    injection Hp as <- <-.
    apply version_structs_sizes in Hs as (_ & _ & _ & Hsize).
    unfold size.
    cbn [b bin_struct wave_struct wave_info file p_b p_bin_struct
           p_wave_struct] in *.
    set (n := Z.to_nat (Z.of_nat (Structure.size bin)
                        + Z.of_nat (Structure.size wave) - 2)) in *.
    split; [|split].
    + cbn [app]. by rewrite take_drop.
    + cbn [app length]. rewrite length_take. lia.
    + intros Hnpnts.
      destruct (Z.ltb_spec
                  (Z.of_nat (length ([b0; b1] ++ take n rest))
                   - Z.of_nat (Structure.size bin))
                  (Z.of_nat (Structure.size wave))) as [Hshort|Hfull].
      * by apply (unpack_dict_from_short _ _ _ _ _ Hwi) in Hshort.
      * cbn [app length] in *. rewrite length_take in *. lia.
Qed.

(** X17: When the headers decode, the header bytes [b] are what was read from the
    stream, no more than the two records hold; and unless the wave is empty
    the stream held both records in full. *)
Theorem headers_are_a_prefix_of_the_stream (sys : endian) (w w1 : world)
    (h : headers) :
  loadibw_headers sys w = (Ok h, w1) ->
  let size :=
    (Structure.size (bin_struct h) + Structure.size (wave_struct h))%nat in
  file w = b h ++ file w1
  /\ (length (b h) <= size)%nat
  /\ (getint (wave_info h) "npnts" <> Ok 0 -> length (b h) = size).
Proof. apply headers_prefix. Qed.

Lemma headers_are_a_prefix_of_the_stream_witness :
  exists h w1,
    loadibw_headers LittleEndian
      {| file := v2_int8 (zeros 16); stderr := [] |} = (Ok h, w1)
    /\ v2_int8 (zeros 16) = b h ++ file w1
    /\ length (b h)
       = (Structure.size (bin_struct h) + Structure.size (wave_struct h))%nat.
Proof.
  set (w := {| file := v2_int8 (zeros 16); stderr := [] |}).
  destruct (loadibw_headers LittleEndian w) as [[h|e] w1] eqn:Hh;
    [|exfalso; apply (stage_returns _ _ _ Hh); vm_compute; reflexivity].
  destruct (headers_are_a_prefix_of_the_stream LittleEndian w w1 h Hh)
    as (Hfile & _ & Hfull).
  exists h, w1. split; [reflexivity|]. split; [exact Hfile|].
  apply Hfull.
  assert (Hn : getint (wave_info h) "npnts" = Ok 16).
  { eapply bool_decide_eq_true_1.
    apply (stage_fact
             (fun h => bool_decide (getint (wave_info h) "npnts" = Ok 16))
             _ _ _ Hh).
    vm_compute. reflexivity. }
  rewrite Hn. discriminate.
Defined.

(** X21: A numeric wave of a version 1, 2 or 3 file whose data fill at least the
    16 bytes of [wData]: the array holds exactly [npnts] items, the [wData]
    bytes of the header followed by the next bytes of the stream, and no
    other byte is read. *)
Theorem numeric_data_is_npnts_items (sys : endian) (w w1 w2 : world)
    (h : headers) (a : ndarray) (type npnts : Z) :
  loadibw_headers sys w = (Ok h, w1) ->
  loadibw_data h w1 = (Ok a, w2) ->
  version h ∈ [1; 2; 3] ->
  getint (wave_info h) "type" = Ok type ->
  type <> 0 ->
  getint (wave_info h) "npnts" = Ok npnts ->
  16 <= npnts * itemsize (dtype_of a) ->
  shape a = [npnts]
  /\ Z.of_nat (length (buffer a)) = npnts * itemsize (dtype_of a)
  /\ take 16 (buffer a) = drop (length (b h) - 16) (b h)
  /\ file w1 = drop 16 (buffer a) ++ file w2.
Proof.
  intros Hh Hdata Hv Htype Ht Hnpnts Hbig.
  assert (Hn : npnts <> 0) by lia.
  assert (Hfull : (134 <= length (b h))%nat).
  { destruct (headers_prefix _ _ _ _ Hh) as (_ & _ & Hfull).
    rewrite Hfull by (rewrite Hnpnts; intros [= ?]; lia).
    apply loadibw_headers_inv in Hh as ([css Hvs] & _).
    apply version_structs_sizes in Hvs. lia. }
  assert (Hshape : shape a = [npnts]).
  { destruct (loadibw_data_shape _ _ _ _ Hdata) as (type' & Htype' & Hs & _).
    rewrite Htype in Htype'. injection Htype' as <-.
    destruct (Hs Ht) as [_ Hs']. destruct Hs' as (npnts' & Hnpnts' & Hs').
    - intros Hv5. rewrite Hv5 in Hv. apply elem_of_123 in Hv. lia.
    - rewrite Hnpnts in Hnpnts'. injection Hnpnts' as <-.
      apply Hs'. pose proof (itemsize_pos (dtype_of a)). nia. }
  apply loadibw_data_inv in Hdata
    as (tail & wds & wfmSize & type' & npnts' & _ & Hsizes & Htype' & Hnpnts'
        & _ & Hnum & _ & Hread & _ & _ & Hlen).
  rewrite Htype in Htype'. injection Htype' as <-.
  rewrite Hnpnts in Hnpnts'. injection Hnpnts' as <-.
  destruct Hsizes as [(_ & -> & _)|(Hv5 & _)];
    [|rewrite Hv5 in Hv; apply elem_of_123 in Hv; lia].
  destruct (Hnum Ht) as (x & _ & _ & Hwds).
  destruct (Hread Hn) as [Hbuf ->]. cbn [file].
  assert (Hcount : read_count (wds - 16) (file w1) = Z.to_nat (wds - 16)).
  { unfold read_count. destruct (Z.ltb_spec (wds - 16) 0); [lia|done]. }
  rewrite Hcount in Hbuf |- *.
  change (Z.to_nat 16) with 16%nat in Hbuf.
  assert (Htail : length (drop (length (b h) - 16) (b h)) = 16%nat).
  { rewrite length_drop. lia. }
  rewrite Hshape in Hlen. cbn [zprod foldr] in Hlen.
  rewrite Hbuf, length_app, Htail in Hlen |- *.
  pose proof (length_take_le (file w1) (Z.to_nat (wds - 16))) as Hle.
  assert (Hmore : length (take (Z.to_nat (wds - 16)) (file w1))
                  = Z.to_nat (wds - 16)).
  { rewrite length_take in *. lia. }
  split; [done|]. split; [lia|]. split.
  - by rewrite take_app_length'.
  - by rewrite drop_app_length', take_drop.
Qed.

Lemma numeric_data_is_npnts_items_witness :
  exists h w1 a w2,
    loadibw_headers LittleEndian
      {| file := v2_int8 (zeros 16); stderr := [] |} = (Ok h, w1)
    /\ loadibw_data h w1 = (Ok a, w2)
    /\ shape a = [16]
    /\ Z.of_nat (length (buffer a)) = 16 * itemsize (dtype_of a).
Proof.
  set (w := {| file := v2_int8 (zeros 16); stderr := [] |}).
  destruct (loadibw_headers LittleEndian w) as [[h|e] w1] eqn:Hh;
    [|exfalso; apply (stage_returns _ _ _ Hh); vm_compute; reflexivity].
  destruct (loadibw_data h w1) as [[a|e] w2] eqn:Hdata;
    [|exfalso; apply (stage2_returns _ _ _ _ _ _ _ Hh Hdata);
      vm_compute; reflexivity].
  assert (Ht : getint (wave_info h) "type" = Ok 8).
  { eapply bool_decide_eq_true_1.
    apply (stage_fact
             (fun h => bool_decide (getint (wave_info h) "type" = Ok 8))
             _ _ _ Hh).
    vm_compute. reflexivity. }
  assert (Hn : getint (wave_info h) "npnts" = Ok 16).
  { eapply bool_decide_eq_true_1.
    apply (stage_fact
             (fun h => bool_decide (getint (wave_info h) "npnts" = Ok 16))
             _ _ _ Hh).
    vm_compute. reflexivity. }
  assert (Hv : version h ∈ [1; 2; 3]).
  { eapply bool_decide_eq_true_1.
    apply (stage_fact (fun h => bool_decide (version h ∈ [1; 2; 3])) _ _ _ Hh).
    vm_compute. reflexivity. }
  assert (Hi : itemsize (dtype_of a) = 1).
  { eapply bool_decide_eq_true_1.
    apply (stage2_fact (fun a _ => bool_decide (itemsize (dtype_of a) = 1))
             _ _ _ _ _ _ _ Hh Hdata).
    vm_compute. reflexivity. }
  destruct (numeric_data_is_npnts_items LittleEndian w w1 w2 h a 8 16
              Hh Hdata Hv Ht) as (Hshape & Hlen & _); [lia|exact Hn|lia|].
  exists h, w1, a, w2. split; [reflexivity|]. split; [exact Hdata|].
  split; assumption.
Defined.

(** ** The mappings [loadibw] returns *)

Ltac other_key :=
  let E := fresh in
  intros E; subst;
  repeat match goal with H : _ /\ _ |- _ => destruct H end; done.

Ltac added_key :=
  repeat (rewrite lookup_insert_ne by done); rewrite lookup_insert_eq; eauto.

Lemma post_data_keys_spec (strict : bool) (h : headers) (w w' : world)
    (bi : gmap string pyval) :
  loadibw_post_data strict h w = (Ok bi, w') ->
  (forall k, k ∉ post_data_keys (version h) -> bi !! k = bin_info h !! k)
  /\ (forall k, k ∈ post_data_keys (version h) -> k <> "sIndices"%string ->
                is_Some (bi !! k)).
Proof.
  unfold loadibw_post_data, post_data_keys. cbv zeta. intros H.
  destruct (Z.eqb_spec (version h) 1) as [Hv|_].
  { rewrite Hv. simpl. io_inv. split; [done|].
    intros k Hk. by apply elem_of_nil in Hk. }
  destruct (version h =? 2).
  { unfold read_stripped in H. io_inv. split.
    - intros k Hk. rewrite !not_elem_of_cons in Hk.
      rewrite lookup_insert_ne; [done|other_key].
    - intros k Hk _. rewrite !elem_of_cons in Hk.
      destruct Hk as [->|Hk]; [|by apply elem_of_nil in Hk].
      added_key. }
  destruct (version h =? 3).
  { unfold read_stripped in H. io_inv. split.
    - intros k Hk. rewrite !not_elem_of_cons in Hk.
      rewrite !lookup_insert_ne; [done|other_key..].
    - intros k Hk _. rewrite !elem_of_cons in Hk.
      destruct Hk as [->|[->|Hk]]; [| |by apply elem_of_nil in Hk];
        added_key. }
  destruct (version h =? 5).
  { unfold read_stripped in H. io_inv.
    match goal with
    | H : (if ?c then _ else _) _ = _ |- _ => destruct c; io_inv
    end.
    all: split;
      [ intros k Hk; rewrite !not_elem_of_cons in Hk;
        rewrite !lookup_insert_ne; [done|other_key..]
      | intros k Hk Hs; rewrite !elem_of_cons in Hk;
        destruct Hk as [->|[->|[->|[->|[->|[->|Hk]]]]]];
        [..|by apply elem_of_nil in Hk]; try done; added_key ]. }
  io_inv. split; [done|]. intros k Hk. by apply elem_of_nil in Hk.
Qed.

Lemma names_set_byte_order (self : Structure.t) (bo : ByteOrder) :
  Structure.names (Structure.set_byte_order self bo) = Structure.names self.
Proof.
  unfold Structure.names. by rewrite (proj1 (set_byte_order_fields _ _)).
Qed.

Lemma headers_wf (sys : endian) (w w1 : world) (h : headers) :
  loadibw_headers sys w = (Ok h, w1) ->
  wf_structure (bin_struct h)
  /\ wf_structure (wave_struct h)
  /\ Forall (fun name => name ∉ post_data_keys (version h))
       (Structure.names (bin_struct h)).
Proof.
  intros H.
  destruct (headers_records _ _ _ _ H)
    as [(-> & -> & ->)|[(-> & -> & ->)|[(-> & -> & ->)|(-> & -> & ->)]]];
    rewrite names_set_byte_order;
    (split; [apply wf_set_byte_order|split; [apply wf_set_byte_order|]]);
    first [ apply wf_BinHeader1 | apply wf_BinHeader2 | apply wf_BinHeader3
          | apply wf_BinHeader5 | apply wf_WaveHeader2 | apply wf_WaveHeader5
          | apply (bool_decide_unpack _); by vm_compute ].
Qed.

(** The [sIndices] entry: the post-data stage adds it for the text waves of
    version 5 files, and for no other wave. *)
Lemma post_data_sIndices_spec (strict : bool) (h : headers) (w w' : world)
    (bi : gmap string pyval) :
  loadibw_post_data strict h w = (Ok bi, w') ->
  (version h = 5 /\ getint (wave_info h) "type" = Ok 0 ->
   is_Some (bi !! "sIndices"%string))
  /\ (~ (version h = 5 /\ getint (wave_info h) "type" = Ok 0) ->
      bi !! "sIndices"%string = bin_info h !! "sIndices"%string).
Proof.
  unfold loadibw_post_data. cbv zeta. intros H.
  destruct (Z.eqb_spec (version h) 1) as [Hv|_].
  { io_inv. split; [intros [? _]; lia|done]. }
  destruct (Z.eqb_spec (version h) 2) as [Hv|_].
  { unfold read_stripped in H. io_inv. split; [intros [? _]; lia|].
    intros _. by rewrite lookup_insert_ne. }
  destruct (Z.eqb_spec (version h) 3) as [Hv|_].
  { unfold read_stripped in H. io_inv. split; [intros [? _]; lia|].
    intros _. by rewrite !lookup_insert_ne. }
  destruct (Z.eqb_spec (version h) 5) as [Hv|Hv].
  { unfold read_stripped in H. io_inv.
    match goal with
    | Ht : getint (wave_info h) "type" = Ok ?t,
      H : (if ?t =? 0 then _ else _) _ = _ |- _ =>
        destruct (Z.eqb_spec t 0) as [->|Hne]; io_inv
    end.
    - split; [|intros Hnot; exfalso; by apply Hnot].
      intros _. rewrite lookup_insert_eq. eauto.
    - split.
      + intros [_ Ht].
        match goal with
        | Ht' : getint (wave_info h) "type" = Ok ?t |- _ =>
            rewrite Ht in Ht'; injection Ht' as <-; done
        end.
      + intros _. by rewrite !lookup_insert_ne. }
  io_inv. split; [intros [? _]; lia|done].
Qed.

(** No bin header has a field [sIndices]. *)
Lemma bin_struct_no_sIndices (sys : endian) (w w1 : world) (h : headers) :
  loadibw_headers sys w = (Ok h, w1) ->
  "sIndices"%string ∉ Structure.names (bin_struct h).
Proof.
  intros H.
  destruct (headers_records _ _ _ _ H)
    as [(_ & -> & _)|[(_ & -> & _)|[(_ & -> & _)|(_ & -> & _)]]];
    rewrite names_set_byte_order;
    apply (bool_decide_unpack _); by vm_compute.
Qed.

(** X26: The [bin_info] that [loadibw] returns holds every field of the bin
    header with the value decoded from the header, the post-data entries of
    the file's version, and nothing else; among these [sIndices] is there
    exactly when the wave is a text wave, which only a version 5 file can
    hold; the [wave_info] is the decoded wave header, one entry per
    field. *)
Theorem loadibw_returns_the_header_fields (sys : endian) (strict : bool)
    (w w1 w2 : world) (h : headers) (data : array)
    (bi wi : gmap string pyval) :
  loadibw_headers sys w = (Ok h, w1) ->
  loadibw sys strict w = (Ok (data, bi, wi), w2) ->
  (forall name, name ∈ Structure.names (bin_struct h) ->
                is_Some (bi !! name) /\ bi !! name = bin_info h !! name)
  /\ (forall k, k ∈ post_data_keys (version h) -> k <> "sIndices"%string ->
                is_Some (bi !! k))
  /\ (is_Some (bi !! "sIndices"%string) <-> getint wi "type" = Ok 0)
  /\ (getint wi "type" = Ok 0 -> version h = 5)
  /\ (forall k, is_Some (bi !! k) ->
                k ∈ Structure.names (bin_struct h)
                \/ k ∈ post_data_keys (version h))
  /\ wi = wave_info h
  /\ (forall name, name ∈ Structure.names (wave_struct h) <->
                   is_Some (wi !! name)).
Proof.
  intros Hh H.
  apply loadibw_inv in H as (h' & w1' & nd & w' & Hh' & _ & Hpost & Htext & ->).
  rewrite Hh in Hh'. injection Hh' as <- <-.
  destruct (headers_wf _ _ _ _ Hh) as (Hwfb & Hwfw & Hdisjoint).
  pose proof (bin_struct_no_sIndices _ _ _ _ Hh) as Hnos.
  apply loadibw_headers_inv in Hh as (_ & Hbin & Hwave & _).
  destruct (unpack_dict_from_fields _ _ _ _ _ Hwfb Hbin) as [Hbsome Hbnone].
  destruct (unpack_dict_from_fields _ _ _ _ _ Hwfw Hwave) as [Hwsome Hwnone].
  destruct (post_data_keys_spec _ _ _ _ _ Hpost) as [Hkeep Hadded].
  destruct (post_data_sIndices_spec _ _ _ _ _ Hpost) as [Htextual Hnumeric].
  rewrite Forall_forall in Hdisjoint.
  assert (Hiff : is_Some (bi !! "sIndices"%string)
                 -> version h = 5 /\ getint (wave_info h) "type" = Ok 0).
  { intros Hsome.
    destruct (decide (version h = 5)) as [Hv|Hv];
      [destruct (decide (getint (wave_info h) "type" = Ok 0)) as [Ht|Ht]|];
      [done| |].
    - rewrite Hnumeric, (Hbnone _ Hnos) in Hsome by (intros [_ ?]; done).
      by destruct Hsome.
    - rewrite Hnumeric, (Hbnone _ Hnos) in Hsome by (intros [? _]; done).
      by destruct Hsome. }
  assert (Hsome : getint (wave_info h) "type" = Ok 0
                  -> is_Some (bi !! "sIndices"%string)).
  { intros Ht. unfold loadibw_text in Htext. rewrite Ht in Htext.
    cbn [rbind Z.eqb] in Htext. unfold getitem in Htext.
    destruct (bi !! "sIndices"%string); [eauto|done]. }
  split; [|split; [|split; [|split; [|split; [|split]]]]].
  - intros name Hname. rewrite (Hkeep _ (Hdisjoint _ Hname)).
    split; [|done].
    apply list_elem_of_fmap in Hname as (f & -> & Hf).
    destruct (Hbsome f Hf) as (v & -> & _). eauto.
  - done.
  - split; [by intros [_ ?]%Hiff|done].
  - intros Ht. by apply Hiff, Hsome.
  - intros k Hk.
    destruct (decide (k ∈ post_data_keys (version h))) as [|Hnot]; [by right|].
    left. rewrite (Hkeep _ Hnot) in Hk.
    destruct (decide (k ∈ Structure.names (bin_struct h))) as [|Hout];
      [done|].
    rewrite (Hbnone _ Hout) in Hk. by destruct Hk.
  - done.
  - intros name. split.
    + intros Hname. apply list_elem_of_fmap in Hname as (f & -> & Hf).
      destruct (Hwsome f Hf) as (v & -> & _). eauto.
    + intros Hsome'.
      destruct (decide (name ∈ Structure.names (wave_struct h))) as [|Hout];
        [done|].
      rewrite (Hwnone _ Hout) in Hsome'. by destruct Hsome'.
Qed.

Lemma loadibw_returns_the_header_fields_witness :
  exists data bi wi w2,
    run_loadibw LittleEndian v5_text_abcde true = (Ok (data, bi, wi), w2)
    /\ is_Some (bi !! "wfmSize"%string)
    /\ is_Some (bi !! "note"%string)
    /\ is_Some (bi !! "sIndices"%string)
    /\ is_Some (wi !! "npnts"%string).
Proof.
  unfold run_loadibw.
  set (w := {| file := v5_text_abcde; stderr := [] |}).
  destruct (loadibw_headers LittleEndian w) as [[h|e] w1] eqn:Hh;
    [|exfalso; apply (stage_returns _ _ _ Hh); vm_compute; reflexivity].
  destruct (loadibw LittleEndian true w) as [[[[data bi] wi]|e] w2] eqn:H;
    [|exfalso; apply (stage_returns _ _ _ H); vm_compute; reflexivity].
  destruct (loadibw_returns_the_header_fields LittleEndian true w w1 w2 h
              data bi wi Hh H) as (Hfields & Hadded & Hs & _ & _ & _ & Hwave).
  assert (Hv : version h = 5).
  { eapply bool_decide_eq_true_1.
    apply (stage_fact (fun h => bool_decide (version h = 5)) _ _ _ Hh).
    vm_compute. reflexivity. }
  assert (Hb : bool_decide ("wfmSize"%string ∈ Structure.names (bin_struct h))
               = true).
  { apply (stage_fact
             (fun h => bool_decide
                         ("wfmSize"%string ∈ Structure.names (bin_struct h)))
             _ _ _ Hh).
    vm_compute. reflexivity. }
  assert (Hw : bool_decide ("npnts"%string ∈ Structure.names (wave_struct h))
               = true).
  { apply (stage_fact
             (fun h => bool_decide
                         ("npnts"%string ∈ Structure.names (wave_struct h)))
             _ _ _ Hh).
    vm_compute. reflexivity. }
  assert (Ht : getint wi "type" = Ok 0).
  { assert (Hd : bool_decide (getint (data, bi, wi).2 "type" = Ok 0) = true).
    { apply (stage_fact
               (fun r => bool_decide (getint r.2 "type" = Ok 0)) _ _ _ H).
      vm_compute. reflexivity. }
    apply bool_decide_eq_true_1 in Hd. exact Hd. }
  apply bool_decide_eq_true_1 in Hb. apply bool_decide_eq_true_1 in Hw.
  exists data, bi, wi, w2. split; [reflexivity|].
  split; [apply (Hfields _ Hb)|].
  split; [|split; [by apply Hs|by apply Hwave]].
  apply Hadded; [|discriminate]. rewrite Hv.
  apply list_elem_of_further, list_elem_of_here.
Defined.

(** A numeric wave run through: no [sIndices] among the entries returned. *)
Lemma v2_int8_no_sIndices :
  match run_loadibw LittleEndian (v2_int8 (zeros 16)) true with
  | (Ok (_, bi, _), _) => bi !! "sIndices"%string
  | (Raise _, _) => Some (PInt 0)
  end = None.
Proof. by vm_compute. Qed.

(** ** The text-wave splitter, when it returns *)

Lemma rmapM_app {A B} (f : A -> result B) (l1 l2 : list A) (s1 s2 : list B) :
  rmapM f l1 = Ok s1 -> rmapM f l2 = Ok s2 ->
  rmapM f (l1 ++ l2) = Ok (s1 ++ s2).
Proof.
  revert s1. induction l1 as [|x l1 IH]; intros s1 H1 H2.
  - by injection H1 as <-.
  - simpl in *. destruct (f x) as [y|]; [|done]. simpl in *.
    destruct (rmapM f l1) as [ys|]; [|done]. simpl in *.
    injection H1 as <-. by rewrite (IH ys eq_refl H2).
Qed.

Lemma take_take_drop_add {A} (l : list A) (n k : nat) :
  take n l ++ take k (drop n l) = take (n + k) l.
Proof.
  revert l. induction n as [|n IH]; intros [|x l]; simpl; try done.
  - by rewrite take_nil.
  - by rewrite IH.
Qed.

Lemma slice_join {A} (l : list A) (a b c : Z) :
  0 <= a <= b -> b <= c -> slice l a b ++ slice l b c = slice l a c.
Proof.
  intros Hab Hbc. unfold slice.
  replace (Z.to_nat b) with (Z.to_nat a + Z.to_nat (b - a))%nat by lia.
  rewrite <- drop_drop, take_take_drop_add. f_equal. lia.
Qed.

Lemma foldr_max_base (l : list Z) (a b : Z) :
  a <= b -> Z.max b (foldr Z.max a l) = foldr Z.max b l.
Proof. intros Hab. induction l as [|x l IH]; simpl; lia. Qed.

Lemma foldr_max_ge (l : list Z) (a : Z) : a <= foldr Z.max a l.
Proof. induction l as [|x l IH]; simpl; lia. Qed.

Lemma split_strings_inv (data : list Z) (offsets : list Z) :
  forall (start : Z) (strings out : list (list byte)),
    0 <= start ->
    split_strings data offsets start strings = Ok out ->
    Forall (fun o => 0 <= o) offsets
    /\ Sorted Z.lt (start :: filter (fun o => 0 < o) offsets)
    /\ exists new,
         out = strings ++ new
         /\ length new = length (filter (fun o => 0 < o) offsets)
         /\ rmapM chr (slice data start (foldr Z.max start offsets))
            = Ok (concat new).
Proof.
  induction offsets as [|o offsets IH]; intros start strings out Hstart H.
  - injection H as <-. split; [done|]. split; [by repeat constructor|].
    exists []. rewrite app_nil_r. split; [done|]. split; [done|].
    unfold slice. simpl. by rewrite Z.sub_diag.
  - cbn [split_strings] in H.
    destruct (Z.gtb_spec o start) as [Hgt|Hle].
    + apply rbind_Ok in H as (string & Hstring & H).
      apply IH in H as (Hnonneg & Hsorted & new & -> & Hlen & Hconcat); [|lia].
      rewrite filter_cons_True by lia.
      split; [constructor; [lia|done]|].
      split; [constructor; [done|by constructor]|].
      exists (string :: new). rewrite <- app_assoc.
      split; [done|]. split; [simpl; lia|].
      cbn [foldr concat]. rewrite foldr_max_base by lia.
      rewrite <- (slice_join data start o) by (pose proof (foldr_max_ge offsets o); lia).
      by apply rmapM_app.
    + destruct (Z.eqb_spec o 0) as [->|]; [|done].
      apply IH in H as (Hnonneg & Hsorted & new & -> & Hlen & Hconcat); [|lia].
      rewrite filter_cons_False by lia.
      split; [by constructor|]. split; [done|].
      exists new. split; [done|]. split; [done|].
      cbn [foldr]. pose proof (foldr_max_ge offsets start).
      by rewrite Z.max_r by lia.
Qed.

(** X27: When the splitter returns, the offsets it was given are zero or
    strictly increasing, it has made one string per non-zero offset, and the
    strings together are the payload up to the largest offset. *)
Theorem split_strings_returns (data offsets : list Z)
    (strings : list (list byte)) :
  split_strings data offsets 0 [] = Ok strings ->
  Forall (fun o => 0 <= o) offsets
  /\ Sorted Z.lt (filter (fun o => 0 < o) offsets)
  /\ length strings = length (filter (fun o => 0 < o) offsets)
  /\ rmapM chr (take (Z.to_nat (foldr Z.max 0 offsets)) data)
     = Ok (concat strings).
Proof.
  intros H.
  apply split_strings_inv in H as (Hnonneg & Hsorted & new & -> & Hlen & Hconcat);
    [|done].
  split; [done|]. split; [by inversion Hsorted|]. split; [done|].
  unfold slice in Hconcat. by rewrite Z.sub_0_r in Hconcat.
Qed.

Lemma split_strings_returns_witness :
  exists strings,
    split_strings (map int8_of_byte abcde) [0; 1; 0; 3; 5] 0 [] = Ok strings
    /\ length strings = 3%nat
    /\ rmapM chr (take 5 (map int8_of_byte abcde)) = Ok (concat strings).
Proof.
  destruct (split_strings (map int8_of_byte abcde) [0; 1; 0; 3; 5] 0 [])
    as [strings|e] eqn:H.
  - exists strings. split; [reflexivity|].
    destruct (split_strings_returns _ _ _ H) as (_ & _ & Hlen & Hconcat).
    split; [exact Hlen|exact Hconcat].
  - exfalso. apply (result_returns _ _ H). by vm_compute.
Defined.

(** ** The length of a hex dump *)

Lemma string_length_app (s1 s2 : string) :
  String.length (s1 ++ s2) = (String.length s1 + String.length s2)%nat.
Proof. induction s1 as [|c s1 IH]; simpl; [done|]. by rewrite IH. Qed.

Lemma hex_digit_length (d : Z) : String.length (hex_digit d) = 1%nat.
Proof.
  destruct d as [|p|p]; [done| |done].
  do 5 (destruct p as [p|p|]; try done).
Qed.

Lemma hex_byte_length (x : byte) : String.length (hex_byte x) = 2%nat.
Proof.
  unfold hex_byte. by rewrite string_length_app, !hex_digit_length.
Qed.

Lemma join_length (sep : string) (l : list string) :
  String.length (join sep l)
  = (sum_list (String.length <$> l)
     + String.length sep * (length l - 1))%nat.
Proof.
  induction l as [|s [|s' l] IH]; [simpl; lia|simpl; lia|].
  change (join sep (s :: s' :: l)) with (s ++ sep ++ join sep (s' :: l))%string.
  rewrite !string_length_app, IH. simpl. lia.
Qed.

Lemma sum_list_hex (buffer : list byte) :
  sum_list (String.length <$> map hex_byte buffer) = (2 * length buffer)%nat.
Proof.
  induction buffer as [|x buffer IH]; [done|].
  change (sum_list (String.length <$> map hex_byte (x :: buffer)))
    with (String.length (hex_byte x)
          + sum_list (String.length <$> map hex_byte buffer))%nat.
  rewrite hex_byte_length, IH. simpl. lia.
Qed.

Lemma sum_list_insert_at (i : nat) (x : string) (l : list string) :
  sum_list (String.length <$> list_insert_at i x l)
  = (String.length x + sum_list (String.length <$> l))%nat.
Proof.
  unfold list_insert_at.
  rewrite fmap_app, fmap_cons, sum_list_with_app. simpl.
  rewrite <- (take_drop i l) at 3.
  rewrite fmap_app, sum_list_with_app. lia.
Qed.

Lemma sum_list_inserts (f : nat -> nat) (steps : list nat) (l : list string) :
  sum_list (String.length
              <$> fold_left (fun l i => list_insert_at (f i) " "%string l)
                    steps l)
  = (length steps + sum_list (String.length <$> l))%nat.
Proof.
  revert l. induction steps as [|i steps IH]; intros l; [done|].
  simpl. rewrite IH, sum_list_insert_at. simpl. lia.
Qed.

(** X11: A hex dump has two characters per byte; with [spaces=1], one more
    between any two bytes; with [spaces=n] for a larger [n], one more per
    full group of [n] bytes, the last of them trailing when [n] divides the
    number of bytes. *)
Theorem hex_bytes_length (buffer : list byte) (n : nat) :
  (2 <= n)%nat ->
  String.length (hex_bytes buffer None) = (2 * length buffer)%nat
  /\ String.length (hex_bytes buffer (Some 1%nat))
     = (3 * length buffer - 1)%nat
  /\ String.length (hex_bytes buffer (Some n))
     = (2 * length buffer + length buffer / n)%nat.
Proof.
  intros Hn. unfold hex_bytes. split; [|split].
  - rewrite join_length, sum_list_hex. simpl. lia.
  - rewrite join_length, sum_list_hex, length_map. simpl. lia.
  - destruct n as [|[|n]]; [lia..|].
    rewrite join_length.
    rewrite (sum_list_inserts (fun i => (S (S n) + 1) * (i + 1) - 1)%nat).
    rewrite sum_list_hex, length_seq, length_map. simpl String.length. lia.
Qed.

Lemma hex_bytes_length_witness :
  String.length (hex_bytes [x00; x01; x02; x03] (Some 2%nat)) = 10%nat.
Proof.
  destruct (hex_bytes_length [x00; x01; x02; x03] 2) as (_ & _ & H); [lia|].
  exact H.
Defined.

(** ** Edge cases of [assert_null] and of the start of [loadibw] *)



(** X12: In strict mode [assert_null] returns exactly when every byte of the
    buffer is zero, the empty buffer included, and then it leaves the stream
    and [sys.stderr] alone; in lenient mode it always returns. *)
Theorem assert_null_returns_iff_zero (buffer : list byte) (w : world) :
  (assert_null buffer true w = (Ok tt, w)
   <-> Forall (fun x => x = x00) buffer)
  /\ exists w', assert_null buffer false w = (Ok tt, w').
Proof.
  split.
  - split.
    + intros H. unfold assert_null in H.
      destruct (decide (buffer = [])) as [->|Hne]; [constructor|].
      apply max_byte_zero.
      destruct (Z.eqb_spec (max_byte buffer) 0); [done|].
      rewrite bool_decide_eq_false_2 in H by done. discriminate H.
    + apply assert_null_zero.
  - unfold assert_null.
    destruct (negb (bool_decide (buffer = [])) && negb (max_byte buffer =? 0));
      eauto.
Qed.

(** X13: A stream of fewer than two bytes: [loadibw] reads it and raises
    [struct.error]. *)
Theorem loadibw_short_stream (sys : endian) (strict : bool) (w : world) :
  (length (file w) < 2)%nat ->
  loadibw sys strict w
  = (Raise StructError, {| file := []; stderr := stderr w |}).
Proof.
  intros Hlen. unfold loadibw, loadibw_headers. unfold bind at 1 2.
  by rewrite preamble_short.
Qed.

Lemma loadibw_short_stream_witness :
  run_loadibw BigEndian [x05] true
  = (Raise StructError, {| file := []; stderr := [] |}).
Proof.
  apply (loadibw_short_stream BigEndian true {| file := [x05]; stderr := [] |}).
  simpl. lia.
Defined.

(** X14: A stream whose version field is none of 1, 2, 3 and 5, in either byte
    order: [loadibw] raises the [ValueError] that names the version, having
    read the two bytes of the field and nothing else. *)
Theorem loadibw_rejects_other_versions (sys : endian) (strict : bool)
    (b0 b1 : byte) (rest : list byte) (err : list string) :
  let version := (resolved_version sys b0 b1).1 in
  version ∉ [1; 2; 3; 5] ->
  loadibw sys strict {| file := b0 :: b1 :: rest; stderr := err |}
  = (Raise (ValueError (MsgVersion version)), {| file := rest; stderr := err |}).
Proof.
  intros version Hv. unfold loadibw, loadibw_headers. unfold bind at 1 2.
  rewrite preamble_two_bytes. cbv zeta. unfold bind at 1, lift at 1.
  fold version.
  assert (Hraise : version_structs version (resolved_version sys b0 b1).2
                   = Raise (ValueError (MsgVersion version))).
  { unfold version_structs. rewrite !not_elem_of_cons in Hv.
    destruct Hv as (H1 & H2 & H3 & H5 & _).
    by rewrite (proj2 (Z.eqb_neq _ _) H1), (proj2 (Z.eqb_neq _ _) H2),
      (proj2 (Z.eqb_neq _ _) H3), (proj2 (Z.eqb_neq _ _) H5). }
  by rewrite Hraise.
Qed.

Lemma loadibw_rejects_other_versions_witness :
  run_loadibw LittleEndian (x04 :: x00 :: zeros 132) true
  = (Raise (ValueError (MsgVersion 4)), {| file := zeros 132; stderr := [] |}).
Proof.
  apply (loadibw_rejects_other_versions LittleEndian true x04 x00 (zeros 132) []).
  rewrite !not_elem_of_cons. repeat split; try discriminate.
  apply not_elem_of_nil.
Defined.

(** ** Errors of the data stage *)

Lemma scalar_field_int (d : gmap string pyval) (fields : list Field.t)
    (f : Field.t) (i : nat) :
  (forall f, f ∈ fields ->
             exists v, d !! Field.name f = Some v /\ field_value f v) ->
  fields !! i = Some f ->
  int_format (Field.format f) = true ->
  (1 <? Field.total_count f)%nat = false ->
  exists z, getint d (Field.name f) = Ok z.
Proof.
  intros Hfields Hi Hint Hone.
  destruct (Hfields f) as (v & Hv & Hfv); [by eapply list_elem_of_lookup_2|].
  specialize (Hfv Hint). rewrite Hone in Hfv. destruct Hfv as [z ->].
  exists z. by apply getint_Ok.
Qed.

(** The integers the data stage reads from decoded headers. *)
Lemma headers_ints (sys : endian) (w w1 : world) (h : headers) :
  loadibw_headers sys w = (Ok h, w1) ->
  (exists wfmSize, getint (bin_info h) "wfmSize" = Ok wfmSize)
  /\ (exists npnts, getint (wave_info h) "npnts" = Ok npnts)
  /\ (exists type, getint (wave_info h) "type" = Ok type)
  /\ (version h = 5 ->
      exists nDim, getitem (wave_info h) "nDim" = Ok (PSeq (map PInt nDim))).
Proof.
  intros H. pose proof (headers_records _ _ _ _ H) as Hrec.
  destruct (headers_wf _ _ _ _ H) as (Hwfb & Hwfw & _).
  apply loadibw_headers_inv in H as (_ & Hbin & Hwave & _).
  apply unpack_dict_from_fields in Hbin as [Hb _]; [|done].
  apply unpack_dict_from_fields in Hwave as [Hw _]; [|done].
  destruct Hrec as [(Hv & Hbs & Hws)|[(Hv & Hbs & Hws)|[(Hv & Hbs & Hws)
                   |(Hv & Hbs & Hws)]]];
    rewrite Hbs in Hb; rewrite Hws in Hw;
    rewrite (proj1 (set_byte_order_fields _ _)) in Hb;
    rewrite (proj1 (set_byte_order_fields _ _)) in Hw.
  - split; [by apply (scalar_field_int _ _ (Fld Fl "wfmSize") 1 Hb)|].
    split; [by apply (scalar_field_int _ _ (Fld Fl "npnts") 8 Hw)|].
    split; [by apply (scalar_field_int _ _ (Fld Fh "type") 0 Hw)|lia].
  - split; [by apply (scalar_field_int _ _ (Fld Fl "wfmSize") 1 Hb)|].
    split; [by apply (scalar_field_int _ _ (Fld Fl "npnts") 8 Hw)|].
    split; [by apply (scalar_field_int _ _ (Fld Fh "type") 0 Hw)|lia].
  - split; [by apply (scalar_field_int _ _ (Fld Fh "wfmSize") 1 Hb)|].
    split; [by apply (scalar_field_int _ _ (Fld Fl "npnts") 8 Hw)|].
    split; [by apply (scalar_field_int _ _ (Fld Fh "type") 0 Hw)|lia].
  - split; [by apply (scalar_field_int _ _ (Fld Fl "wfmSize") 2 Hb)|].
    split; [by apply (scalar_field_int _ _ (Fld Fl "npnts") 3 Hw)|].
    split; [by apply (scalar_field_int _ _ (Fld Fh "type") 4 Hw)|].
    intros _.
    destruct (Hw (FldN Fl "nDim" [MAXDIMS])) as (v & Hv' & Hfv).
    { apply (list_elem_of_lookup_2 _ 11%nat). reflexivity. }
    destruct (Hfv eq_refl MAXDIMS eq_refl) as (nDim & -> & _).
    exists nDim. unfold getitem. simpl in Hv'. by rewrite Hv'.
Qed.

Lemma data_stage_sizes (sys : endian) (w w1 : world) (h : headers) :
  loadibw_headers sys w = (Ok h, w1) ->
  exists tw shape,
    (if bool_decide (version h ∈ [1; 2; 3])
     then
       (wfmSize <- getint (bin_info h) "wfmSize" ;;
        Ok (16, wfmSize - Z.of_nat (Structure.size (wave_struct h))))%result
     else if negb (version h =? 5)
     then Raise (AssertionError (PInt (version h)))
     else
       (wfmSize <- getint (bin_info h) "wfmSize" ;;
        Ok (4, wfmSize - (Z.of_nat (Structure.size (wave_struct h)) - 4)))%result)
    = Ok tw
    /\ (if version h =? 5
        then (nDim <- getitem (wave_info h) "nDim" ;;
              positive_extents nDim)%result
        else (npnts <- getint (wave_info h) "npnts" ;; Ok [npnts])%result)
       = Ok shape.
Proof.
  intros H. destruct (headers_ints _ _ _ _ H)
    as ([wfmSize Hwfm] & [npnts Hnpnts] & _ & HnDim).
  destruct (headers_records _ _ _ _ H)
    as [(Hv & _)|[(Hv & _)|[(Hv & _)|(Hv & _)]]]; rewrite Hv in *;
    rewrite Hwfm, ?Hnpnts; simpl; eauto.
  destruct (HnDim eq_refl) as [nDim ->]. simpl.
  rewrite positive_extents_ints. eauto.
Qed.

(** X23: A wave type that is not in [TYPE_TABLE]: [loadibw] raises the
    [KeyError] of the table lookup once the headers are decoded, and reads
    nothing after them. *)
Theorem loadibw_unknown_type (sys : endian) (strict : bool) (w w1 : world)
    (h : headers) (type : Z) :
  loadibw_headers sys w = (Ok h, w1) ->
  getint (wave_info h) "type" = Ok type ->
  TYPE_TABLE !! type = None ->
  loadibw sys strict w = (Raise (KeyErrorInt type), w1).
Proof.
  intros Hh Htype Hnone.
  destruct (data_stage_sizes _ _ _ _ Hh) as (tw & shape & Htw & Hshape).
  unfold loadibw. unfold bind at 1. rewrite Hh.
  unfold bind at 1. unfold loadibw_data.
  unfold bind at 1, lift at 1. rewrite Htw. cbv zeta.
  unfold bind at 1, lift at 1. rewrite Hshape.
  unfold bind at 1, lift at 1. rewrite Htype.
  unfold bind at 1, lift at 1.
  destruct (Z.eqb_spec type 0) as [->|]; [done|].
  by rewrite Hnone.
Qed.

Lemma loadibw_unknown_type_witness :
  exists w1,
    run_loadibw LittleEndian
      (le 2 1 ++ le 4 0 ++ le 2 (-8) ++ le 2 7 ++ zeros 124) true
    = (Raise (KeyErrorInt 7), w1).
Proof.
  unfold run_loadibw.
  set (w := {| file := le 2 1 ++ le 4 0 ++ le 2 (-8) ++ le 2 7 ++ zeros 124;
               stderr := [] |}).
  destruct (loadibw_headers LittleEndian w) as [[h|e] w1] eqn:Hh;
    [|exfalso; apply (stage_returns _ _ _ Hh); vm_compute; reflexivity].
  exists w1.
  apply (loadibw_unknown_type LittleEndian true w w1 h 7 Hh); [|reflexivity].
  eapply bool_decide_eq_true_1.
  apply (stage_fact
           (fun h => bool_decide (getint (wave_info h) "type" = Ok 7))
           _ _ _ Hh).
  vm_compute. reflexivity.
Defined.

Lemma data_stage_run (sys : endian) (w w1 : world) (h : headers)
    (type wfmSize npnts : Z) (x : option dtype) :
  loadibw_headers sys w = (Ok h, w1) ->
  getint (wave_info h) "type" = Ok type ->
  type <> 0 ->
  TYPE_TABLE !! type = Some x ->
  getint (bin_info h) "wfmSize" = Ok wfmSize ->
  getint (wave_info h) "npnts" = Ok npnts ->
  let t := numpy_dtype x in
  let tail := if version h =? 5 then 4 else 16 in
  let waveDataSize :=
    wfmSize - (Z.of_nat (Structure.size (wave_struct h))
               - (if version h =? 5 then 4 else 0)) in
  exists shape,
    (version h <> 5 -> shape = [npnts])
    /\ loadibw_data h w1
       = if waveDataSize =? npnts * itemsize t
         then
           (data_b <- (if npnts =? 0
                       then ret []
                       else
                         tail_data <- lift (array_f
                                              (drop (length (b h) - Z.to_nat tail)
                                                 (b h))) ;;
                         more <- read (waveDataSize - tail) ;;
                         ret (tail_data ++ more)) ;;
            lift (numpy_ndarray shape t (byteOrder h) data_b))%io w1
         else (Raise (AssertionError
                        (PSeq [PInt waveDataSize; PInt npnts;
                               PInt (itemsize t)])), w1).
Proof.
  intros Hh Htype Ht Hx Hwfm Hnpnts t tail wds.
  destruct (data_stage_sizes _ _ _ _ Hh) as (tw & shape & Htw & Hshape).
  assert (Htw' : tw = (tail, wds)).
  { unfold tail, wds.
    destruct (headers_records _ _ _ _ Hh)
      as [(Hv & _)|[(Hv & _)|[(Hv & _)|(Hv & _)]]]; rewrite Hv in *;
      rewrite Hwfm in Htw; simpl in Htw; injection Htw as <-;
      cbn [Z.eqb Pos.eqb]; f_equal; lia. }
  subst tw. exists shape. split.
  - intros Hv. destruct (Z.eqb_spec (version h) 5); [done|].
    rewrite Hnpnts in Hshape. by injection Hshape as <-.
  - unfold loadibw_data.
    unfold bind at 1, lift at 1. rewrite Htw. cbv zeta. cbn [fst snd].
    unfold bind at 1, lift at 1. rewrite Hshape.
    unfold bind at 1, lift at 1. rewrite Htype.
    unfold bind at 1, lift at 1.
    destruct (Z.eqb_spec type 0); [done|]. rewrite Hx, Hnpnts. cbn [rbind].
    fold t.
    destruct (wds =? npnts * itemsize t); [|done]. cbn [fst snd].
    by unfold bind at 1, lift at 1.
Qed.

(** X24: A numeric wave whose [wfmSize] does not match [npnts] items of its
    type: [loadibw] raises the [AssertionError] of the size check, with the
    three numbers, and reads nothing after the headers. *)
Theorem loadibw_size_mismatch (sys : endian) (strict : bool) (w w1 : world)
    (h : headers) (type wfmSize npnts : Z) (x : option dtype) :
  loadibw_headers sys w = (Ok h, w1) ->
  getint (wave_info h) "type" = Ok type ->
  type <> 0 ->
  TYPE_TABLE !! type = Some x ->
  getint (bin_info h) "wfmSize" = Ok wfmSize ->
  getint (wave_info h) "npnts" = Ok npnts ->
  let waveDataSize :=
    wfmSize - (Z.of_nat (Structure.size (wave_struct h))
               - (if version h =? 5 then 4 else 0)) in
  waveDataSize <> npnts * itemsize (numpy_dtype x) ->
  loadibw sys strict w
  = (Raise (AssertionError
              (PSeq [PInt waveDataSize; PInt npnts;
                     PInt (itemsize (numpy_dtype x))])), w1).
Proof.
  intros Hh Htype Ht Hx Hwfm Hnpnts wds Hne.
  destruct (data_stage_run _ _ _ _ _ _ _ _ Hh Htype Ht Hx Hwfm Hnpnts)
    as (shape & _ & Hrun).
  cbv zeta in Hrun. fold wds in Hrun.
  rewrite (proj2 (Z.eqb_neq _ _) Hne) in Hrun.
  unfold loadibw. unfold bind at 1. rewrite Hh.
  unfold bind at 1. by rewrite Hrun.
Qed.

Lemma loadibw_size_mismatch_witness :
  exists w1,
    run_loadibw LittleEndian
      (le 2 1 ++ le 4 142 ++ le 2 (-168) ++ le 2 8 ++ zeros 40 ++ le 4 17
       ++ zeros 80) true
    = (Raise (AssertionError (PSeq [PInt 16; PInt 17; PInt 1])), w1).
Proof.
  unfold run_loadibw.
  set (w := {| file := le 2 1 ++ le 4 142 ++ le 2 (-168) ++ le 2 8 ++ zeros 40
                       ++ le 4 17 ++ zeros 80;
               stderr := [] |}).
  destruct (loadibw_headers LittleEndian w) as [[h|e] w1] eqn:Hh;
    [|exfalso; apply (stage_returns _ _ _ Hh); vm_compute; reflexivity].
  exists w1.
  assert (Ht : getint (wave_info h) "type" = Ok 8).
  { eapply bool_decide_eq_true_1.
    apply (stage_fact
             (fun h => bool_decide (getint (wave_info h) "type" = Ok 8))
             _ _ _ Hh).
    vm_compute. reflexivity. }
  assert (Hn : getint (wave_info h) "npnts" = Ok 17).
  { eapply bool_decide_eq_true_1.
    apply (stage_fact
             (fun h => bool_decide (getint (wave_info h) "npnts" = Ok 17))
             _ _ _ Hh).
    vm_compute. reflexivity. }
  assert (Hw : getint (bin_info h) "wfmSize" = Ok 142).
  { eapply bool_decide_eq_true_1.
    apply (stage_fact
             (fun h => bool_decide (getint (bin_info h) "wfmSize" = Ok 142))
             _ _ _ Hh).
    vm_compute. reflexivity. }
  assert (Hs : 142 - (Z.of_nat (Structure.size (wave_struct h))
                      - (if version h =? 5 then 4 else 0)) = 16).
  { eapply bool_decide_eq_true_1.
    apply (stage_fact
             (fun h => bool_decide
                         (142 - (Z.of_nat (Structure.size (wave_struct h))
                                 - (if version h =? 5 then 4 else 0)) = 16))
             _ _ _ Hh).
    vm_compute. reflexivity. }
  pose proof (loadibw_size_mismatch LittleEndian true w w1 h 8 142 17
                (Some int8) Hh Ht) as Hraise.
  cbv zeta in Hraise. rewrite Hs in Hraise.
  apply Hraise; [lia|reflexivity|exact Hw|exact Hn|].
  simpl. lia.
Defined.

(** X22: A numeric wave of a version 1, 2 or 3 file, with consistent sizes and
    data that fill at least [wData]: when the stream ends before the data
    do, [loadibw]'s data stage raises numpy's [TypeError] for a buffer that
    is too small, having read the stream to its end; otherwise it returns,
    having read just the data. *)
Theorem numeric_data_needs_its_bytes (sys : endian) (w w1 : world)
    (h : headers) (type wfmSize npnts : Z) (x : option dtype) :
  loadibw_headers sys w = (Ok h, w1) ->
  version h ∈ [1; 2; 3] ->
  getint (wave_info h) "type" = Ok type ->
  type <> 0 ->
  TYPE_TABLE !! type = Some x ->
  getint (bin_info h) "wfmSize" = Ok wfmSize ->
  getint (wave_info h) "npnts" = Ok npnts ->
  wfmSize - Z.of_nat (Structure.size (wave_struct h))
  = npnts * itemsize (numpy_dtype x) ->
  16 <= npnts * itemsize (numpy_dtype x) ->
  let need := npnts * itemsize (numpy_dtype x) - 16 in
  (Z.of_nat (length (file w1)) < need ->
   loadibw_data h w1
   = (Raise TypeError, {| file := []; stderr := stderr w1 |}))
  /\ (need <= Z.of_nat (length (file w1)) ->
      exists a,
        loadibw_data h w1
        = (Ok a, {| file := drop (Z.to_nat need) (file w1);
                    stderr := stderr w1 |})).
Proof.
  intros Hh Hv Htype Ht Hx Hwfm Hnpnts Hsize Hbig need.
  pose proof (itemsize_pos (numpy_dtype x)) as Hitem.
  assert (Hpos : 0 < npnts) by nia.
  assert (Hv5 : (version h =? 5) = false).
  { apply Z.eqb_neq. intros Hv5. rewrite Hv5 in Hv.
    apply elem_of_123 in Hv. lia. }
  assert (Hfull : (134 <= length (b h))%nat).
  { destruct (headers_prefix _ _ _ _ Hh) as (_ & _ & Hfull).
    rewrite Hfull by (rewrite Hnpnts; intros [= ?]; lia).
    pose proof Hh as Hh'.
    apply loadibw_headers_inv in Hh' as ([css Hvs] & _).
    apply version_structs_sizes in Hvs. lia. }
  destruct (data_stage_run _ _ _ _ _ _ _ _ Hh Htype Ht Hx Hwfm Hnpnts)
    as (shape & Hshape & Hrun).
  cbv zeta in Hrun. rewrite Hv5 in Hrun.
  rewrite Z.sub_0_r, Hsize, Z.eqb_refl in Hrun.
  rewrite (proj2 (Z.eqb_neq npnts 0)) in Hrun by lia.
  rewrite Hshape in Hrun by (by apply Z.eqb_neq).
  change (Z.to_nat 16) with 16%nat in Hrun.
  assert (Htail : length (drop (length (b h) - 16) (b h)) = 16%nat).
  { rewrite length_drop. lia. }
  unfold bind at 1 2, lift at 1, array_f in Hrun.
  rewrite Htail in Hrun. change (Z.of_nat 16 mod 4 =? 0) with true in Hrun.
  unfold bind at 1 in Hrun. rewrite read_run in Hrun.
  unfold ret, lift, numpy_ndarray in Hrun. cbn [existsb zprod foldr] in Hrun.
  rewrite bool_decide_eq_false_2 in Hrun by (intros [= ?]; lia).
  rewrite (proj2 (Z.ltb_ge npnts 0)) in Hrun by lia. cbn [orb] in Hrun.
  rewrite length_app, Htail, length_take in Hrun.
  fold need in Hrun.
  assert (Hcount : read_count need (file w1) = Z.to_nat need).
  { unfold read_count. destruct (Z.ltb_spec need 0); [lia|done]. }
  rewrite Hcount in Hrun. rewrite Hrun.
  split; intros Hlen.
  - destruct (Z.ltb_spec
                (Z.of_nat (16 + Z.to_nat need `min` length (file w1)))
                (npnts * 1 * itemsize (numpy_dtype x))); [|lia].
    f_equal. f_equal. apply drop_ge. lia.
  - destruct (Z.ltb_spec
                (Z.of_nat (16 + Z.to_nat need `min` length (file w1)))
                (npnts * 1 * itemsize (numpy_dtype x))); [lia|].
    eauto.
Qed.

Lemma numeric_data_needs_its_bytes_witness :
  exists h w1,
    loadibw_headers LittleEndian
      {| file := le 2 2 ++ le 4 146 ++ le 4 0 ++ le 4 0 ++ le 2 (-176)
                 ++ le 2 8 ++ zeros 40 ++ le 4 20 ++ zeros 80 ++ [x01; x02];
         stderr := [] |} = (Ok h, w1)
    /\ loadibw_data h w1
       = (Raise TypeError, {| file := []; stderr := stderr w1 |}).
Proof.
  set (w := {| file := le 2 2 ++ le 4 146 ++ le 4 0 ++ le 4 0 ++ le 2 (-176)
                       ++ le 2 8 ++ zeros 40 ++ le 4 20 ++ zeros 80
                       ++ [x01; x02];
               stderr := [] |}).
  destruct (loadibw_headers LittleEndian w) as [[h|e] w1] eqn:Hh;
    [|exfalso; apply (stage_returns _ _ _ Hh); vm_compute; reflexivity].
  exists h, w1. split; [reflexivity|].
  assert (Hv : version h ∈ [1; 2; 3]).
  { eapply bool_decide_eq_true_1.
    apply (stage_fact (fun h => bool_decide (version h ∈ [1; 2; 3])) _ _ _ Hh).
    vm_compute. reflexivity. }
  assert (Ht : getint (wave_info h) "type" = Ok 8).
  { eapply bool_decide_eq_true_1.
    apply (stage_fact
             (fun h => bool_decide (getint (wave_info h) "type" = Ok 8))
             _ _ _ Hh).
    vm_compute. reflexivity. }
  assert (Hn : getint (wave_info h) "npnts" = Ok 20).
  { eapply bool_decide_eq_true_1.
    apply (stage_fact
             (fun h => bool_decide (getint (wave_info h) "npnts" = Ok 20))
             _ _ _ Hh).
    vm_compute. reflexivity. }
  assert (Hw : getint (bin_info h) "wfmSize" = Ok 146).
  { eapply bool_decide_eq_true_1.
    apply (stage_fact
             (fun h => bool_decide (getint (bin_info h) "wfmSize" = Ok 146))
             _ _ _ Hh).
    vm_compute. reflexivity. }
  assert (Hs : 146 - Z.of_nat (Structure.size (wave_struct h)) = 20).
  { eapply bool_decide_eq_true_1.
    apply (stage_fact
             (fun h => bool_decide
                         (146 - Z.of_nat (Structure.size (wave_struct h)) = 20))
             _ _ _ Hh).
    vm_compute. reflexivity. }
  assert (Hf : (length (file w1) <? 4)%nat = true).
  { apply (stage2_fact (fun _ w' => (length (file w') <? 4)%nat)
             (loadibw_headers LittleEndian) ret w w1 w1 h h Hh eq_refl).
    vm_compute. reflexivity. }
  destruct (numeric_data_needs_its_bytes LittleEndian w w1 h 8 146 20
              (Some int8) Hh Hv Ht) as [Hraise _];
    [lia|reflexivity|exact Hw|exact Hn|exact Hs|simpl; lia|].
  apply Hraise. apply Nat.ltb_lt in Hf. simpl. lia.
Defined.

(** ** The sections after the data in a version 5 file *)

(** X25: In a version 5 file the sections that follow the data are read in the
    order formula, note, extended data units, each with its size from the
    bin header and stripped of surrounding white space; no padding is
    checked, so the two modes do the same and nothing is written to
    [sys.stderr]. *)
Theorem post_data_v5_sections (strict : bool) (h : headers) (w w' : world)
    (bi : gmap string pyval) (formulaSize noteSize dataEUnitsSize : Z) :
  version h = 5 ->
  loadibw_post_data strict h w = (Ok bi, w') ->
  getint (bin_info h) "formulaSize" = Ok formulaSize ->
  getint (bin_info h) "noteSize" = Ok noteSize ->
  getint (bin_info h) "dataEUnitsSize" = Ok dataEUnitsSize ->
  let section size rest := strip (take (read_count size rest) rest) in
  let after size rest := drop (read_count size rest) rest in
  let rest1 := after formulaSize (file w) in
  let rest2 := after noteSize rest1 in
  bi !! "formula"%string = Some (PStr (section formulaSize (file w)))
  /\ bi !! "note"%string = Some (PStr (section noteSize rest1))
  /\ bi !! "dataEUnits"%string = Some (PStr (section dataEUnitsSize rest2))
  /\ file w' `suffix_of` after dataEUnitsSize rest2
  /\ stderr w' = stderr w
  /\ loadibw_post_data (negb strict) h w = (Ok bi, w').
Proof.
  intros Hv H Hformula Hnote Hunits section after rest1 rest2.
  assert (Hmode : loadibw_post_data (negb strict) h w
                  = loadibw_post_data strict h w).
  { unfold loadibw_post_data. rewrite Hv. reflexivity. }
  rewrite Hmode. clear Hmode. pose proof H as Hrun.
  pose proof (keeps_read_stripped reads_only reads_only_read) as Hstripped.
  unfold loadibw_post_data in H. rewrite Hv in H.
  change (5 =? 1) with false in H. change (5 =? 2) with false in H.
  change (5 =? 3) with false in H. change (5 =? 5) with true in H.
  cbv zeta in H. cbv iota in H.
  unfold bind at 1, lift at 1 in H. rewrite Hformula in H.
  unfold bind at 1 in H. rewrite read_stripped_run in H.
  assert (Hnote' : getint (<[ "formula"%string
                              := PStr (section formulaSize (file w)) ]>
                             (bin_info h)) "noteSize" = Ok noteSize).
  { apply getint_Ok. rewrite lookup_insert_ne by done. by apply getint_Ok. }
  unfold bind at 1, lift at 1 in H. fold (section formulaSize (file w)) in H.
  rewrite Hnote' in H.
  unfold bind at 1 in H. rewrite read_stripped_run in H. cbn [file stderr] in H.
  fold (after formulaSize (file w)) in H. fold rest1 in H.
  fold (section noteSize rest1) in H.
  assert (Hunits' : getint (<[ "note"%string := PStr (section noteSize rest1) ]>
                              (<[ "formula"%string
                                  := PStr (section formulaSize (file w)) ]>
                                 (bin_info h))) "dataEUnitsSize"
                    = Ok dataEUnitsSize).
  { apply getint_Ok. rewrite !lookup_insert_ne by done. by apply getint_Ok. }
  unfold bind at 1, lift at 1 in H. rewrite Hunits' in H.
  unfold bind at 1 in H. rewrite read_stripped_run in H. cbn [file stderr] in H.
  fold (after noteSize rest1) in H. fold rest2 in H.
  fold (section dataEUnitsSize rest2) in H.
  set (bi3 := <[ "dataEUnits"%string := PStr (section dataEUnitsSize rest2) ]>
                (<[ "note"%string := PStr (section noteSize rest1) ]>
                   (<[ "formula"%string
                       := PStr (section formulaSize (file w)) ]>
                      (bin_info h)))) in *.
  set (w3 := {| file := drop (read_count dataEUnitsSize rest2) rest2;
                stderr := stderr w |}) in *.
  assert (Hrest : reads_only w3 w').
  { match type of H with
    | ?m w3 = _ =>
        assert (Hk : keeps reads_only m);
        [|specialize (Hk w3); rewrite H in Hk; exact Hk]
    end.
    repeat first
      [ apply Hstripped
      | apply reads_only_read
      | apply (keeps_bind _ reads_only_trans); [|intros ?]
      | apply (keeps_for_each _ reads_only_refl reads_only_trans); intros ? ?
      | apply (keeps_lift _ reads_only_refl)
      | apply (keeps_ret _ reads_only_refl)
      | match goal with
        | |- keeps _ (if ?c then _ else _) => destruct c
        end
      | progress cbv zeta ]. }
  destruct Hrest as [Hsuffix Hstderr].
  assert (Hkeys : forall k, k ∈ ["formula"; "note"; "dataEUnits"]%string ->
                            bi !! k = bi3 !! k).
  { intros k Hk. io_inv.
    match goal with
    | H : (if ?c then _ else _) _ = _ |- _ => destruct c; io_inv
    end;
      rewrite !elem_of_cons in Hk;
      destruct Hk as [->|[->|[->|Hk]]]; try (by apply elem_of_nil in Hk);
      by rewrite !lookup_insert_ne by done. }
  split; [|split; [|split; [|split; [|split; [|exact Hrun]]]]].
  - rewrite Hkeys by (rewrite !elem_of_cons; auto).
    unfold bi3. by rewrite !lookup_insert_ne, lookup_insert_eq by done.
  - rewrite Hkeys by (rewrite !elem_of_cons; auto).
    unfold bi3. by rewrite lookup_insert_ne, lookup_insert_eq by done.
  - rewrite Hkeys by (rewrite !elem_of_cons; auto).
    unfold bi3. by rewrite lookup_insert_eq.
  - exact Hsuffix.
  - exact Hstderr.
Qed.

Lemma post_data_v5_sections_witness :
  exists h w1 a w2 bi w3,
    loadibw_headers LittleEndian
      {| file := v5_int8_formula_note; stderr := [] |} = (Ok h, w1)
    /\ loadibw_data h w1 = (Ok a, w2)
    /\ loadibw_post_data true h w2 = (Ok bi, w3)
    /\ bi !! "formula"%string = Some (PStr (list_byte_of_string "ab"))
    /\ bi !! "note"%string = Some (PStr (list_byte_of_string "hi")).
Proof.
  set (w := {| file := v5_int8_formula_note; stderr := [] |}).
  destruct (loadibw_headers LittleEndian w) as [[h|e] w1] eqn:Hh;
    [|exfalso; apply (stage_returns _ _ _ Hh); vm_compute; reflexivity].
  destruct (loadibw_data h w1) as [[a|e] w2] eqn:Hdata;
    [|exfalso; apply (stage2_returns _ _ _ _ _ _ _ Hh Hdata);
      vm_compute; reflexivity].
  assert (H12 : (h <- loadibw_headers LittleEndian ;;
                 loadibw_data h ;;; ret h)%io w = (Ok h, w2)).
  { unfold bind. by rewrite Hh, Hdata. }
  destruct (loadibw_post_data true h w2) as [[bi|e] w3] eqn:Hpost;
    [|exfalso; apply (stage2_returns _ _ _ _ _ _ _ H12 Hpost);
      vm_compute; reflexivity].
  assert (Hv : version h = 5).
  { eapply bool_decide_eq_true_1.
    apply (stage_fact (fun h => bool_decide (version h = 5)) _ _ _ Hh).
    vm_compute. reflexivity. }
  assert (Hf : getint (bin_info h) "formulaSize" = Ok 2).
  { eapply bool_decide_eq_true_1.
    apply (stage_fact
             (fun h => bool_decide (getint (bin_info h) "formulaSize" = Ok 2))
             _ _ _ Hh).
    vm_compute. reflexivity. }
  assert (Hn : getint (bin_info h) "noteSize" = Ok 4).
  { eapply bool_decide_eq_true_1.
    apply (stage_fact
             (fun h => bool_decide (getint (bin_info h) "noteSize" = Ok 4))
             _ _ _ Hh).
    vm_compute. reflexivity. }
  assert (Hu : getint (bin_info h) "dataEUnitsSize" = Ok 0).
  { eapply bool_decide_eq_true_1.
    apply (stage_fact
             (fun h => bool_decide (getint (bin_info h) "dataEUnitsSize" = Ok 0))
             _ _ _ Hh).
    vm_compute. reflexivity. }
  assert (Hfile : file w2 = list_byte_of_string "ab hi ").
  { eapply bool_decide_eq_true_1.
    apply (stage2_fact
             (fun _ w' => bool_decide (file w' = list_byte_of_string "ab hi "))
             _ _ _ _ _ _ _ Hh Hdata).
    vm_compute. reflexivity. }
  destruct (post_data_v5_sections true h w2 w3 bi 2 4 0 Hv Hpost Hf Hn Hu)
    as (Hformula & Hnote & _).
  rewrite Hfile in Hformula, Hnote.
  exists h, w1, a, w2, bi, w3.
  split; [reflexivity|]. split; [exact Hdata|]. split; [exact Hpost|].
  split; [exact Hformula|exact Hnote].
Defined.

(** ** The shape of the decoded wave *)

(** When the headers decode for a wave that holds points, the header bytes
    end with the 16 bytes (version 5: 4 bytes) of [wData]. *)
Lemma headers_full (sys : endian) (w w1 : world) (h : headers) (npnts : Z) :
  loadibw_headers sys w = (Ok h, w1) ->
  getint (wave_info h) "npnts" = Ok npnts ->
  npnts <> 0 ->
  (134 <= length (b h))%nat.
Proof.
  intros Hh Hnpnts Hn.
  destruct (headers_prefix _ _ _ _ Hh) as (_ & _ & Hfull).
  rewrite Hfull by (rewrite Hnpnts; intros [= ?]; lia).
  apply loadibw_headers_inv in Hh as ([css Hvs] & _).
  apply version_structs_sizes in Hvs. lia.
Qed.

(** The shape of a numeric wave of a version 1, 2 or 3 file whose [npnts]
    is -1: the items that the buffer holds. *)
Lemma loadibw_data_all (h : headers) (w w' : world) (a : ndarray) (type : Z) :
  loadibw_data h w = (Ok a, w') ->
  version h <> 5 ->
  getint (wave_info h) "type" = Ok type ->
  type <> 0 ->
  getint (wave_info h) "npnts" = Ok (-1) ->
  shape a = [Z.of_nat (length (buffer a)) / itemsize (dtype_of a)].
Proof.
  unfold loadibw_data. intros H Hv Htype Ht Hnpnts. io_inv.
  apply numpy_ndarray_inv in H as (-> & _ & -> & _ & Hall & _).
  apply Hall.
  match goal with
  | H1 : getint (wave_info h) "type" = Ok ?t |- _ =>
      rewrite Htype in H1; injection H1 as <-
  end.
  destruct (Z.eqb_spec type 0); [done|].
  destruct (TYPE_TABLE !! type); [|done]. io_inv.
  match goal with
  | H1 : (if ?c then _ else _) = Ok _ |- _ => destruct c; [|done]
  end.
  io_inv. subst. cbn [fst].
  destruct (Z.eqb_spec (version h) 5); [done|]. io_inv.
  congruence.
Qed.

(** C4 (as amended): for a successfully decoded version-5 numeric wave the
    shape of the returned array is the list of all the positive extents of
    [nDim], in their order, or (0,) when none is positive; it is the
    leading positive run whenever no positive extent follows one that is
    not.  For versions 1, 2 and 3 the wave is numeric and its shape is the
    single dimension [npnts], which is then not negative, unless [npnts]
    is -1: numpy reads the shape (-1,) as all the items that the buffer
    holds, and the buffer is the 16 bytes of [wData] followed by the rest
    of the stream. *)
Theorem C4_shape_of_decoded_wave (sys : endian) (strict : bool) (w : world)
    (h : headers) (w1 w2 : world) (data : array)
    (bi wi : gmap string pyval) :
  loadibw_headers sys w = (Ok h, w1) ->
  loadibw sys strict w = (Ok (data, bi, wi), w2) ->
  wi = wave_info h
  /\ (version h = 5 -> getint wi "type" <> Ok 0 ->
      exists nDim,
        length nDim = 4%nat
        /\ wi !! "nDim"%string = Some (PSeq (map PInt nDim))
        /\ array_shape data = or_0 (filter (fun n => 0 < n) nDim)
        /\ (Forall (fun n => n <= 0)
              (drop (length (leading_positive nDim)) nDim) ->
            array_shape data = or_0 (leading_positive nDim)))
  /\ (version h ∈ [1; 2; 3] ->
      exists npnts type x nd,
        wi !! "npnts"%string = Some (PInt npnts)
        /\ wi !! "type"%string = Some (PInt type)
        /\ TYPE_TABLE !! type = Some x
        /\ data = Numeric nd
        /\ dtype_of nd = numpy_dtype x
        /\ (npnts <> -1 -> 0 <= npnts /\ array_shape data = [npnts])
        /\ (npnts = -1 ->
            array_shape data
            = [(16 + Z.of_nat (length (file w1))) / itemsize (dtype_of nd)])).
Proof.
  intros Hh Hrun.
  apply loadibw_inv in Hrun as (h' & w1' & nd & w' & Hh' & Hdata & Hpost & Htext & ->).
  rewrite Hh in Hh'. injection Hh' as <- <-.
  split; [done|].
  destruct (loadibw_data_shape _ _ _ _ Hdata) as (t & Ht & Hshape & _).
  split.
  - intros Hv Hnum.
    assert (Hne : t <> 0) by congruence.
    destruct (Hshape Hne) as [H5 _]. destruct (H5 Hv) as (v & Hget & Hext).
    (* the value of nDim in the wave header *)
    pose proof (headers_records _ _ _ _ Hh) as Hrec.
    destruct Hrec as [(?&?&?)|[(?&?&?)|[(?&?&?)|(_&_&Hws)]]]; try lia.
    apply loadibw_headers_inv in Hh as (_ & _ & Hwave & _).
    rewrite Hws in Hwave.
    apply unpack_dict_from_fields in Hwave as [Hfields _];
      [|apply wf_set_byte_order, wf_WaveHeader5].
    destruct (Hfields (FldN Fl "nDim" [MAXDIMS])) as (v' & Hv' & Hfv).
    { rewrite (proj1 (set_byte_order_fields _ _)).
      apply (list_elem_of_lookup_2 _ 11%nat). reflexivity. }
    destruct (Hfv eq_refl MAXDIMS eq_refl) as (nDim & -> & Hlen).
    unfold getitem in Hget. simpl in Hv'. rewrite Hv' in Hget.
    injection Hget as <-.
    rewrite positive_extents_ints in Hext. injection Hext as Hext.
    assert (Hdata_shape : array_shape data
                          = or_0 (filter (fun n => 0 < n) nDim)).
    { unfold loadibw_text in Htext. rewrite Ht in Htext. simpl in Htext.
      destruct (Z.eqb_spec t 0); [done|]. injection Htext as <-. done. }
    exists nDim. repeat split; try done.
    intros Htail. by rewrite Hdata_shape, filter_leading_positive.
  - intros Hv.
    assert (Hne : t <> 0).
    { intros ->.
      pose proof (bin_info_no_sIndices _ _ _ _ Hh Hv) as Hnone.
      pose proof (post_data_sIndices _ _ _ _ _ Hv Hpost) as Hbi.
      rewrite Hnone in Hbi.
      by rewrite (loadibw_text_no_sIndices h bi nd Ht Hbi) in Htext. }
    assert (Hv5 : version h <> 5) by (apply elem_of_123 in Hv; lia).
    destruct (Hshape Hne) as [_ H123].
    destruct (H123 Hv5) as (npnts & Hn & Hs).
    rewrite (loadibw_text_numeric h bi nd t Ht Hne) in Htext.
    injection Htext as <-.
    pose proof Hdata as Hinv.
    apply loadibw_data_inv in Hinv
      as (tail & wds & wfmSize & type' & npnts' & _ & Hsizes & Htype' & Hnpnts'
          & _ & Hnum & _ & Hread & _ & Hpos & _).
    rewrite Ht in Htype'. injection Htype' as <-.
    rewrite Hn in Hnpnts'. injection Hnpnts' as <-.
    destruct (Hnum Hne) as (x & Hx & Hdtype & Hwds).
    exists npnts, t, x, nd.
    split; [by apply getint_Ok|]. split; [by apply getint_Ok|].
    split; [done|]. split; [done|]. split; [done|]. split.
    + intros Hnot. specialize (Hs Hnot). split; [|done].
      rewrite Hs in Hpos. by apply Forall_cons in Hpos as [? _].
    + intros ->. cbn [array_shape].
      rewrite (loadibw_data_all _ _ _ _ t Hdata Hv5 Ht Hne Hn).
      destruct Hsizes as [(_ & -> & _)|(? & _)]; [|done].
      destruct Hread as [Hbuf _]; [done|].
      pose proof (headers_full _ _ _ _ _ Hh Hn) as Hfull.
      pose proof (itemsize_pos (dtype_of nd)) as Hitem.
      assert (Hcount : read_count (wds - 16) (file w1) = length (file w1)).
      { unfold read_count. destruct (Z.ltb_spec (wds - 16) 0); [done|lia]. }
      rewrite Hcount, firstn_all in Hbuf.
      rewrite Hbuf, length_app, length_drop.
      change (Z.to_nat 16) with 16%nat.
      do 2 f_equal. lia.
Qed.

Lemma C4_shape_of_decoded_wave_witness :
  (exists data bi wi w2 nDim,
     run_loadibw LittleEndian v5_int8_2_0_2_0 true = (Ok (data, bi, wi), w2)
     /\ wi !! "nDim"%string = Some (PSeq (map PInt nDim))
     /\ array_shape data = or_0 (filter (fun n => 0 < n) nDim))
  /\ (exists data bi wi w2,
        run_loadibw LittleEndian (v1_int8_all [x01; x02; x03]) true
        = (Ok (data, bi, wi), w2)
        /\ wi !! "npnts"%string = Some (PInt (-1))
        /\ array_shape data = [19]).
Proof.
  unfold run_loadibw. split.
  - set (w := {| file := v5_int8_2_0_2_0; stderr := [] |}).
    destruct (loadibw_headers LittleEndian w) as [[h|e] w1] eqn:Hh;
      [|exfalso; apply (stage_returns _ _ _ Hh); vm_compute; reflexivity].
    destruct (loadibw LittleEndian true w) as [[[[data bi] wi]|e] w2] eqn:Hrun;
      [|exfalso; apply (stage_returns _ _ _ Hrun); vm_compute; reflexivity].
    destruct (C4_shape_of_decoded_wave LittleEndian true w h w1 w2 data bi wi
                Hh Hrun) as (Hwi & H5 & _).
    assert (Hv : version h = 5).
    { eapply bool_decide_eq_true_1.
      apply (stage_fact (fun h => bool_decide (version h = 5)) _ _ _ Hh).
      vm_compute. reflexivity. }
    assert (Ht : getint wi "type" <> Ok 0).
    { assert (Hb : bool_decide (getint (data, bi, wi).2 "type" <> Ok 0) = true).
      { apply (stage_fact
                 (fun r => bool_decide (getint r.2 "type" <> Ok 0)) _ _ _ Hrun).
        vm_compute. reflexivity. }
      apply bool_decide_eq_true_1 in Hb. exact Hb. }
    destruct (H5 Hv Ht) as (nDim & _ & HnDim & Hshape & _).
    exists data, bi, wi, w2, nDim.
    split; [reflexivity|]. split; [exact HnDim|exact Hshape].
  - set (w := {| file := v1_int8_all [x01; x02; x03]; stderr := [] |}).
    destruct (loadibw_headers LittleEndian w) as [[h|e] w1] eqn:Hh;
      [|exfalso; apply (stage_returns _ _ _ Hh); vm_compute; reflexivity].
    destruct (loadibw LittleEndian true w) as [[[[data bi] wi]|e] w2] eqn:Hrun;
      [|exfalso; apply (stage_returns _ _ _ Hrun); vm_compute; reflexivity].
    destruct (C4_shape_of_decoded_wave LittleEndian true w h w1 w2 data bi wi
                Hh Hrun) as (Hwi & _ & H123).
    assert (Hv : version h ∈ [1; 2; 3]).
    { eapply bool_decide_eq_true_1.
      apply (stage_fact (fun h => bool_decide (version h ∈ [1; 2; 3]))
               _ _ _ Hh).
      vm_compute. reflexivity. }
    assert (Hn : wi !! "npnts"%string = Some (PInt (-1))).
    { assert (Hb : bool_decide ((data, bi, wi).2 !! "npnts"%string
                                = Some (PInt (-1))) = true).
      { apply (stage_fact
                 (fun r => bool_decide (r.2 !! "npnts"%string
                                        = Some (PInt (-1)))) _ _ _ Hrun).
        vm_compute. reflexivity. }
      apply bool_decide_eq_true_1 in Hb. exact Hb. }
    assert (Hi : match (data, bi, wi).1.1 with
                 | Numeric a => itemsize (dtype_of a) =? 1
                 | Strings _ => false
                 end = true).
    { apply (stage_fact
               (fun r => match r.1.1 with
                         | Numeric a => itemsize (dtype_of a) =? 1
                         | Strings _ => false
                         end) _ _ _ Hrun).
      vm_compute. reflexivity. }
    assert (Hrest : length (file w1) = 3%nat).
    { eapply bool_decide_eq_true_1.
      apply (stage2_fact (fun _ w' => bool_decide (length (file w') = 3%nat))
               (loadibw_headers LittleEndian) ret w w1 w1 h h Hh eq_refl).
      vm_compute. reflexivity. }
    destruct (H123 Hv)
      as (npnts & type & x & nd & Hnpnts & _ & _ & -> & _ & _ & Hall).
    rewrite Hn in Hnpnts. injection Hnpnts as <-.
    cbn [fst] in Hi. apply Z.eqb_eq in Hi.
    rewrite Hrest, Hi in Hall.
    exists (Numeric nd), bi, wi, w2.
    split; [reflexivity|]. split; [exact Hn|]. exact (Hall eq_refl).
Defined.

(** C4, as stated, fails: the version-5 file [v5_int8_2_0_2_0] decodes, its
    extents are (2, 0, 2, 0), whose leading positive run is (2), and the
    shape of the returned array is (2, 2). *)
Lemma C4_counterexample :
  returned_wave_info (run_loadibw LittleEndian v5_int8_2_0_2_0 true) "nDim"
  = Some (PSeq [PInt 2; PInt 0; PInt 2; PInt 0])
  /\ or_0 (leading_positive [2; 0; 2; 0]) = [2]
  /\ returned_shape (run_loadibw LittleEndian v5_int8_2_0_2_0 true)
     = Some [2; 2].
Proof. split; [|split]; by vm_compute. Qed.

(** The version-1 file whose point count is -1, run: the shape counts the
    16 bytes of [wData] and the three bytes that follow the headers. *)
Lemma v1_int8_all_runs :
  returned_wave_info (run_loadibw LittleEndian (v1_int8_all [x01; x02; x03]) true)
    "npnts"
  = Some (PInt (-1))
  /\ returned_shape (run_loadibw LittleEndian (v1_int8_all [x01; x02; x03]) true)
     = Some [19].
Proof. split; by vm_compute. Qed.

(** ** The padding of version 2 and 3 files *)




(** Text waves are left out of C8 as amended: for the version-2 file
    [v2_text] with the padding 01 00 .. 00, the lenient run writes the
    warning and goes on to the note, and then raises at
    [bin_info['sIndices']] instead of returning the metadata. *)
Lemma v2_text_lenient_raises :
  Exists (fun x => x <> x00) pad_01
  /\ take 16 (drop 142 (v2_text pad_01)) = pad_01
  /\ run_loadibw LittleEndian (v2_text pad_01) false
     = (Raise (KeyError "sIndices"),
        {| file := [];
           stderr := [("warning: post-data padding not zero: "
                       ++ hex_bytes pad_01 (Some 1%nat) ++ newline)%string] |}).
Proof.
  split; [|split].
  - apply Exists_cons_hd. discriminate.
  - by vm_compute.
  - by vm_compute.
Qed.
